(** * Point-in-time scoring, walk-forward backtest and configuration resolver

    A shallow embedding of [backtest.py], [core/backtest.py] and
    [core/config.py], with the properties the specification states
    about them.

    Numbers.  Python and numpy floats are idealised: a value is an exact
    rational, one of the two infinities, or NaN (the pandas missing value).
    Arithmetic on rationals is exact, so no rounding error is modelled, and
    zero carries no sign (a non-zero numerator over zero takes the sign of
    the numerator).

    Libraries.  The rolling-window reductions of pandas, [json], and the
    functions imported from [bot_daily_score] and [core/scoring] are not part
    of the files embedded here; they are parameters of the development. *)

From Stdlib Require Import ZArith QArith Qround Qabs String Ascii Bool Lia Lqa List.
From Stdlib Require Import Decimal DecimalString Sorted.
Import ListNotations.

Set Implicit Arguments.

(** ** Idealised floats *)

Module Float.

Inductive float : Type :=
| NaN
| Inf (negative : bool)
| Fin (q : Q).

Definition isnan (x : float) : bool :=
  match x with NaN => true | _ => false end.

Definition Qneg (q : Q) : bool :=
  match Qcompare q 0 with Lt => true | _ => false end.

Definition Qzero (q : Q) : bool :=
  match Qcompare q 0 with Eq => true | _ => false end.

Definition opp (x : float) : float :=
  match x with
  | NaN => NaN
  | Inf s => Inf (negb s)
  | Fin q => Fin (- q)
  end.

Definition add (x y : float) : float :=
  match x, y with
  | NaN, _ | _, NaN => NaN
  | Inf s, Inf t => if Bool.eqb s t then Inf s else NaN
  | Inf s, Fin _ | Fin _, Inf s => Inf s
  | Fin p, Fin q => Fin (p + q)
  end.

Definition sub (x y : float) : float := add x (opp y).

Definition mul (x y : float) : float :=
  match x, y with
  | NaN, _ | _, NaN => NaN
  | Inf s, Inf t => Inf (xorb s t)
  | Inf s, Fin q | Fin q, Inf s =>
      if Qzero q then NaN else Inf (xorb s (Qneg q))
  | Fin p, Fin q => Fin (p * q)
  end.

Definition div (x y : float) : float :=
  match x, y with
  | NaN, _ | _, NaN => NaN
  | Inf _, Inf _ => NaN
  | Inf s, Fin q => Inf (xorb s (Qneg q))
  | Fin _, Inf _ => Fin 0
  | Fin p, Fin q =>
      if Qzero q
      then (if Qzero p then NaN else Inf (Qneg p))
      else Fin (p / q)
  end.

(** Comparisons; every comparison with NaN is false. *)
Definition ltb (x y : float) : bool :=
  match x, y with
  | NaN, _ | _, NaN => false
  | Inf s, Inf t => s && negb t
  | Inf s, Fin _ => s
  | Fin _, Inf t => negb t
  | Fin p, Fin q => match Qcompare p q with Lt => true | _ => false end
  end.

Definition gtb (x y : float) : bool := ltb y x.

Definition eqb (x y : float) : bool :=
  match x, y with
  | Inf s, Inf t => Bool.eqb s t
  | Fin p, Fin q => Qeq_bool p q
  | _, _ => false
  end.

Definition leb (x y : float) : bool := ltb x y || eqb x y.

(** Nearest integer, ties to the even one. *)
Definition round_half_even (q : Q) : Z :=
  let f := Qfloor q in
  match Qcompare (q - inject_Z f) (1 # 2) with
  | Lt => f
  | Gt => (f + 1)%Z
  | Eq => if Z.even f then f else (f + 1)%Z
  end.

(** [round(x, ndigits)] of Python; the result is kept in lowest terms. *)
Definition round (x : float) (ndigits : nat) : float :=
  match x with
  | Fin q =>
      let scale := inject_Z (10 ^ Z.of_nat ndigits) in
      Fin (Qred (inject_Z (round_half_even (q * scale)) / scale))
  | _ => x
  end.

Definition of_Z (z : Z) : float := Fin (inject_Z z).

End Float.

Import Float.

Declare Scope float_scope.
Delimit Scope float_scope with float.
Bind Scope float_scope with float.
Infix "+" := add : float_scope.
Infix "-" := sub : float_scope.
Infix "*" := mul : float_scope.
Infix "/" := div : float_scope.

(** ** Price series and score snapshots ([backtest.py]) *)

(** One row of the price frame: its position in the time index and its
    closing price, the only column the scoring reads. *)
Record bar : Type := mkBar { timestamp : Z; Close : float }.

Definition series := list float.

(** The six composite weights, [cfg["weights"]]. *)
Record weights_t : Type := mkWeights {
  w_drawdown90 : float;
  w_rsi14 : float;
  w_dist_ma50 : float;
  w_momentum30 : float;
  w_trend_ma200 : float;
  w_volatility20 : float
}.

(** The part of the effective configuration the scoring reads. *)
Record config_t : Type := mkConfig {
  drawdown_cap : float;
  volatility_cap : float;
  weights : weights_t
}.

(** The dictionary returned by [compute_score_at_date]. *)
Record snapshot : Type := mkSnapshot {
  date : Z;
  score : float;
  close : float;
  rsi14 : float;
  ma50 : float;
  ma200 : float
}.

(** The library functions the scoring calls: pandas' rolling reductions
    (all with [min_periods=1]) and [pct_change], and the RSI and the six
    normalisation functions of [bot_daily_score]. *)
Class Externals : Type := {
  rolling_mean : nat -> series -> series;
  rolling_max : nat -> series -> series;
  rolling_std : nat -> series -> series;
  pct_change : nat -> series -> series;
  compute_rsi : series -> nat -> series;
  score_drawdown : float -> float -> float;
  score_rsi : float -> float;
  score_dist_ma50 : float -> float -> float;
  score_momentum : float -> float;
  score_trend_ma200 : float -> float -> float;
  score_volatility : float -> float -> float
}.

(** [df.iloc[:stop]] with Python's slice rules: a negative bound counts
    from the end, and bounds are clamped to the frame. *)
Definition iloc_upto (A : Type) (df : list A) (stop : Z) : list A :=
  let n := Z.of_nat (length df) in
  let stop' := if (stop <? 0)%Z then Z.max 0 (stop + n) else Z.min stop n in
  firstn (Z.to_nat stop') df.

(** Element-wise arithmetic of two aligned columns. *)
Definition series_sub (a b : series) : series :=
  map (fun p => sub (fst p) (snd p)) (combine a b).

Definition series_div (a b : series) : series :=
  map (fun p => div (fst p) (snd p)) (combine a b).

(** [col.iloc[-1]]. *)
Definition iloc_last (col : series) : float := last col NaN.

Section Scoring.

Context {ext : Externals}.

Definition compute_score_at_date (df : list bar) (date_idx : Z) (cfg : config_t)
  : option snapshot :=
  let historical_data := iloc_upto df (date_idx + 1) in
  if (length historical_data <? 200)%nat then None else
  let Close_ := map Close historical_data in
  let MA50 := rolling_mean 50 Close_ in
  let MA200 := rolling_mean 200 Close_ in
  let RSI14 := compute_rsi Close_ 14 in
  let High90 := rolling_max 90 Close_ in
  let Drawdown90 := series_div (series_sub High90 Close_) High90 in
  let Vol20 := rolling_std 20 (pct_change 1 Close_) in
  let Momentum30 := pct_change 30 Close_ in
  let close := iloc_last Close_ in
  let ma50 := if negb (isnan (iloc_last MA50)) then iloc_last MA50 else NaN in
  let ma200 := if negb (isnan (iloc_last MA200)) then iloc_last MA200 else NaN in
  let rsi14 := if negb (isnan (iloc_last RSI14)) then iloc_last RSI14 else Fin 50 in
  let drawdown90 :=
    if negb (isnan (iloc_last Drawdown90)) then iloc_last Drawdown90 else Fin 0 in
  let vol20 := if negb (isnan (iloc_last Vol20)) then iloc_last Vol20 else Fin 0 in
  let momentum30 :=
    if negb (isnan (iloc_last Momentum30)) then iloc_last Momentum30 else Fin 0 in
  let draw_sc := score_drawdown drawdown90 (drawdown_cap cfg) in
  let rsi_sc := score_rsi rsi14 in
  let ma50_sc := score_dist_ma50 close ma50 in
  let mom_sc := score_momentum momentum30 in
  let trend_sc := score_trend_ma200 close ma200 in
  let vol_sc := score_volatility vol20 (volatility_cap cfg) in
  let w := weights cfg in
  let composite :=
    (w_drawdown90 w * draw_sc +
     w_rsi14 w * rsi_sc +
     w_dist_ma50 w * ma50_sc +
     w_momentum30 w * mom_sc +
     w_trend_ma200 w * trend_sc +
     w_volatility20 w * vol_sc)%float in
  Some {| date := last (map timestamp historical_data) 0%Z;
          score := round (Fin 100 * composite) 1;
          close := close;
          rsi14 := round rsi14 2;
          ma50 := ma50;
          ma200 := ma200 |}.

End Scoring.


(** ** Walk-forward simulator ([core/backtest.py], [backtest.py]) *)

(** Python exceptions that the embedded code can raise or let through. *)
Inductive exn : Type :=
| ValueError
| TypeError
| AttributeError
| OperationalError
| DownloadFailure.

Inductive outcome (A : Type) : Type :=
| Raised (e : exn)
| Returned (a : A).

Arguments Raised {A} e.
Arguments Returned {A} a.

(** What the code writes to the log. *)
Inductive level : Type := INFO | WARNING | ERROR.

Inductive message : Type :=
| MsgBacktesting (ticker : string)
| MsgDownloadError (ticker : string)
| MsgNoData (ticker : string)
| MsgDbReadError
| MsgYamlMissing
| MsgYamlError.

Definition log := list (level * message).

(** [range(start, stop, step)]; a zero step raises [ValueError]. *)
Definition py_range (start stop step : Z) : outcome (list Z) :=
  if (step =? 0)%Z then Raised ValueError else
  let n :=
    if (0 <? step)%Z
    then (if (start <? stop)%Z then 1 + (stop - 1 - start) / step else 0)%Z
    else (if (stop <? start)%Z then 1 + (start - 1 - stop) / (- step) else 0)%Z in
  Returned (map (fun k => (start + Z.of_nat k * step)%Z) (seq 0 (Z.to_nat n))).

(** [index.searchsorted(key)] (side [left]): numpy's binary search for the
    insertion point.  [fuel] bounds the number of halvings. *)
Fixpoint bisect_left (fuel : nat) (a : list Z) (key lo hi : Z) : Z :=
  match fuel with
  | O => lo
  | S fuel' =>
      if (lo <? hi)%Z then
        let mid := (lo + Z.shiftr (hi - lo) 1)%Z in
        if (nth (Z.to_nat mid) a 0 <? key)%Z
        then bisect_left fuel' a key (mid + 1) hi
        else bisect_left fuel' a key lo mid
      else lo
  end.

Definition searchsorted (a : list Z) (key : Z) : Z :=
  bisect_left (S (length a)) a key 0 (Z.of_nat (length a)).

(** One of the three labels given to [pd.cut]:
    "Défavorable (<45)", "Neutre (45-55)", "Favorable (>55)". *)
Inductive band : Type := Unfavorable | Neutral | Favorable.

(** A row of a result frame.  [run_backtest] fills the snapshot columns and
    [return_30d]; the [ticker] and [score_category] columns are added
    later, in place, by [run_multi_ticker_backtest] and [analyze_results]
    ([None]: the frame has no such column; [Some None]: the cell is NaN). *)
Record record : Type := mkRecord {
  snap : snapshot;
  return_30d : float;
  ticker : option string;
  score_category : option (option band)
}.

Definition frame := list record.

(** [df.iloc[i]["Close"]] for an index inside the frame. *)
Definition iloc_Close (df : list bar) (i : Z) : float :=
  Close (nth (Z.to_nat i) df (mkBar 0 NaN)).

(** [df.dropna()]. *)
Definition dropna (df : list bar) : list bar :=
  filter (fun b => negb (isnan (Close b))) df.

(** The result of [yf.download]. *)
Inductive download_result : Type :=
| DownloadRaises
| Downloaded (df : list bar).

Section WalkForward.

(** [ScoringEngine.compute_score_at_date] of [core/scoring.py], with the
    engine's configuration fixed, and [yf.download]. *)
Variable engine_score_at_date : list bar -> Z -> option snapshot.
Variable yf_download : string -> Z -> Z -> download_result.

(** The loop body of [run_backtest]: what index [i] appends to [results]. *)
Definition signal_at (df : list bar) (i : Z) : list record :=
  match engine_score_at_date df i with
  | Some score_data =>
      if (i + 30 <? Z.of_nat (length df))%Z then
        let future_price := iloc_Close df (i + 30) in
        let current_price := iloc_Close df i in
        let return_30d := ((future_price - current_price) / current_price * Fin 100)%float in
        [ {| snap := score_data; return_30d := round return_30d 2;
             ticker := None; score_category := None |} ]
      else []
  | None => []
  end.

(** The simulation over a frame already downloaded and cleaned. *)
Definition simulate (df : list bar) (start_date : Z) (interval_days : Z) : outcome frame :=
  let test_start_idx := searchsorted (map timestamp df) start_date in
  match py_range test_start_idx (Z.of_nat (length df)) interval_days with
  | Raised e => Raised e
  | Returned idxs => Returned (flat_map (signal_at df) idxs)
  end.

(** [BacktestEngine.run_backtest]; dates are day numbers.  The result is
    the log written and either an exception or the returned frame
    ([None] for Python's [None]). *)
Definition run_backtest (ticker : string) (start_date end_date : Z) (interval_days : Z)
  : log * outcome (option frame) :=
  let log0 := [(INFO, MsgBacktesting ticker)] in
  let extended_start := (start_date - 400)%Z in
  match yf_download ticker extended_start end_date with
  | DownloadRaises => (log0 ++ [(ERROR, MsgDownloadError ticker)], Returned None)
  | Downloaded df =>
      match df with
      | [] => (log0 ++ [(WARNING, MsgNoData ticker)], Returned None)
      | _ =>
          match simulate (dropna df) start_date interval_days with
          | Raised e => (log0, Raised e)
          | Returned results => (log0, Returned (Some results))
          end
      end
  end.

End WalkForward.


(** ** Results analyzer ([core/backtest.py]) *)

(** [pd.cut(x, bins=..., labels=...)] with its defaults [right=True] and
    [include_lowest=False]: label [k] is given to the values of the interval
    [(bins[k], bins[k+1]]], and a value in no interval gets NaN ([None]). *)
Fixpoint cut (bins : list float) (labels : list band) (x : float) : option band :=
  match bins, labels with
  | lo :: (hi :: _) as rest, l :: ls =>
      if ltb lo x && leb x hi then Some l else cut rest ls x
  | _, _ => None
  end.

Definition score_bins : list float := [Fin 0; Fin 45; Fin 55; Fin 100].
Definition score_labels : list band := [Unfavorable; Neutral; Favorable].

Definition band_eqb (a b : band) : bool :=
  match a, b with
  | Unfavorable, Unfavorable | Neutral, Neutral | Favorable, Favorable => true
  | _, _ => false
  end.

(** Reductions of pandas over a column; all of them skip NaN. *)
Definition notna (l : list float) : list float :=
  filter (fun x => negb (isnan x)) l.

Definition of_nat (n : nat) : float := of_Z (Z.of_nat n).

Definition mean (l : list float) : float :=
  match notna l with
  | [] => NaN
  | v => (fold_left add v (Fin 0) / of_nat (length v))%float
  end.

Fixpoint insert_sorted (x : float) (l : list float) : list float :=
  match l with
  | [] => [x]
  | y :: l' => if leb x y then x :: l else y :: insert_sorted x l'
  end.

Definition sort_values (l : list float) : list float :=
  fold_right insert_sorted [] l.

Definition median (l : list float) : float :=
  let v := sort_values (notna l) in
  let n := length v in
  match n with
  | O => NaN
  | _ =>
      if Nat.odd n then nth (n / 2) v NaN
      else ((nth (n / 2 - 1) v NaN + nth (n / 2) v NaN) / Fin 2)%float
  end.

Definition maximum (l : list float) : float :=
  match notna l with
  | [] => NaN
  | x :: v => fold_left (fun m y => if gtb y m then y else m) v x
  end.

Definition minimum (l : list float) : float :=
  match notna l with
  | [] => NaN
  | x :: v => fold_left (fun m y => if ltb y m then y else m) v x
  end.

Definition count (l : list float) : nat := length (notna l).

(** The two reductions that need a square root. *)
Class Stats : Type := {
  std : list float -> float;
  corr : list float -> list float -> float
}.

Record category_stats : Type := mkCategoryStats {
  cat_mean : float;
  cat_median : float;
  cat_count : nat;
  cat_std : float
}.

Record favorable_stats : Type := mkFavorableStats {
  fav_count : nat;
  fav_mean_return : float;
  fav_median_return : float;
  fav_success_rate : float;
  fav_max_return : float;
  fav_min_return : float
}.

Record unfavorable_stats : Type := mkUnfavorableStats {
  unf_count : nat;
  unf_mean_return : float;
  unf_median_return : float
}.

Record global_stats : Type := mkGlobalStats {
  total_signals : nat;
  glob_mean_return : float;
  glob_median_return : float;
  glob_std_return : float;
  glob_success_rate : float
}.

(** The dictionary built by [analyze_results]. *)
Record analysis : Type := mkAnalysis {
  by_category : list (band * category_stats);
  favorable : option favorable_stats;
  unfavorable : option unfavorable_stats;
  correlation : float;
  global : global_stats
}.

Definition frame_score (r : record) : float := score (snap r).

(** [(col > 0).sum() / len(col) * 100]. *)
Definition success_rate (returns : list float) : float :=
  (of_nat (length (filter (fun x => gtb x (Fin 0)) returns))
   / of_nat (length returns) * Fin 100)%float.

Section Analyzer.

Context {stats : Stats}.

(** The assignment [results_df["score_category"] = pd.cut(...)], on the
    frame passed in. *)
Definition assign_score_category (results_df : frame) : frame :=
  map (fun r => {| snap := snap r; return_30d := return_30d r; ticker := ticker r;
                   score_category := Some (cut score_bins score_labels (frame_score r)) |})
      results_df.

(** The rows of one group of [groupby("score_category")]. *)
Definition group_rows (l : band) (results_df : frame) : frame :=
  filter (fun r => match score_category r with
                   | Some (Some c) => band_eqb c l
                   | _ => false
                   end) results_df.

Definition agg_group (rows : frame) : category_stats :=
  let returns := map return_30d rows in
  {| cat_mean := mean returns; cat_median := median returns;
     cat_count := count returns; cat_std := std returns |}.

(** [BacktestEngine.analyze_results]: the analysis ([None] for the empty
    dictionary) and the frame as the call leaves it. *)
Definition analyze_results (results_df : frame) : option analysis * frame :=
  match results_df with
  | [] => (None, results_df)
  | _ =>
      let results_df := assign_score_category results_df in
      let grouped := map (fun l => (l, agg_group (group_rows l results_df))) score_labels in
      let favorable := filter (fun r => gtb (frame_score r) (Fin 55)) results_df in
      let unfavorable := filter (fun r => ltb (frame_score r) (Fin 45)) results_df in
      let returns := map return_30d results_df in
      (Some
         {| by_category := grouped;
            favorable :=
              match favorable with
              | [] => None
              | _ =>
                  let fr := map return_30d favorable in
                  Some {| fav_count := length favorable;
                          fav_mean_return := round (mean fr) 2;
                          fav_median_return := round (median fr) 2;
                          fav_success_rate := round (success_rate fr) 1;
                          fav_max_return := round (maximum fr) 2;
                          fav_min_return := round (minimum fr) 2 |}
              end;
            unfavorable :=
              match unfavorable with
              | [] => None
              | _ =>
                  let ur := map return_30d unfavorable in
                  Some {| unf_count := length unfavorable;
                          unf_mean_return := round (mean ur) 2;
                          unf_median_return := round (median ur) 2 |}
              end;
            correlation := round (corr (map frame_score results_df) returns) 3;
            global :=
              {| total_signals := length results_df;
                 glob_mean_return := round (mean returns) 2;
                 glob_median_return := round (median returns) 2;
                 glob_std_return := round (std returns) 2;
                 glob_success_rate := round (success_rate returns) 1 |} |},
       results_df)
  end.

End Analyzer.

(** ** Multi-ticker run ([core/backtest.py]) *)

Definition set_ticker (t : string) (results : frame) : frame :=
  map (fun r => {| snap := snap r; return_30d := return_30d r; ticker := Some t;
                   score_category := score_category r |}) results.

(** [d[k] = v] on a dictionary kept as an association list in insertion
    order. *)
Fixpoint dict_set (A : Type) (k : string) (v : A) (d : list (string * A)) : list (string * A) :=
  match d with
  | [] => [(k, v)]
  | (k', v') :: d' =>
      if String.eqb k k' then (k, v) :: d' else (k', v') :: dict_set k v d'
  end.

Fixpoint dict_get (A : Type) (k : string) (d : list (string * A)) : option A :=
  match d with
  | [] => None
  | (k', v') :: d' => if String.eqb k k' then Some v' else dict_get k d'
  end.

Definition dict_in (A : Type) (k : string) (d : list (string * A)) : bool :=
  match dict_get k d with Some _ => true | None => false end.

Section MultiTicker.

Context {stats : Stats}.
Variable engine_score_at_date : list bar -> Z -> option snapshot.
Variable yf_download : string -> Z -> Z -> download_result.

(** The state of the loop over [tickers]. *)
Record multi_state : Type := mkMultiState {
  ms_log : log;
  all_results : list frame;
  all_analyses : list (string * option analysis)
}.

(** One iteration of the loop.  The frame appended to [all_results] is the
    object that [analyze_results] then extends with [score_category]. *)
Definition multi_step (start_date end_date : Z) (st : outcome multi_state) (t : string)
  : outcome multi_state :=
  match st with
  | Raised e => Raised e
  | Returned s =>
      let '(lg, res) := run_backtest engine_score_at_date yf_download t start_date end_date 7 in
      match res with
      | Raised e => Raised e
      | Returned None =>
          Returned {| ms_log := ms_log s ++ lg; all_results := all_results s;
                      all_analyses := all_analyses s |}
      | Returned (Some []) =>
          Returned {| ms_log := ms_log s ++ lg; all_results := all_results s;
                      all_analyses := all_analyses s |}
      | Returned (Some results) =>
          let results := set_ticker t results in
          let '(analysis, results) := analyze_results results in
          Returned {| ms_log := ms_log s ++ lg;
                      all_results := all_results s ++ [results];
                      all_analyses := dict_set t analysis (all_analyses s) |}
      end
  end.

(** [BacktestEngine.run_multi_ticker_backtest]: the log, and the pair
    (combined frame, analyses) it returns. *)
Definition run_multi_ticker_backtest (tickers : list string) (start_date end_date : Z)
  : outcome (log * (option frame * list (string * option analysis))) :=
  match fold_left (multi_step start_date end_date) tickers
          (Returned {| ms_log := []; all_results := []; all_analyses := [] |}) with
  | Raised e => Raised e
  | Returned s =>
      match all_results s with
      | [] => Returned (ms_log s, (None, []))
      | _ =>
          let combined := concat (all_results s) in
          let '(global_analysis, combined) := analyze_results combined in
          Returned (ms_log s,
                    (Some combined, dict_set "_global" global_analysis (all_analyses s)))
      end
  end.

End MultiTicker.


(** ** Configuration resolver ([core/config.py]) *)

Definition bind (A B : Type) (m : outcome A) (f : A -> outcome B) : outcome B :=
  match m with
  | Raised e => Raised e
  | Returned a => f a
  end.

Notation "x <- m ;; k" := (bind m (fun x => k))
  (at level 61, m at next level, right associativity).

(** Python values as YAML and JSON produce them.  A dictionary is an
    association list in insertion order, with string keys. *)
#[warnings="-register-all"]
Inductive value : Type :=
| VNone
| VBool (b : bool)
| VInt (z : Z)
| VFloat (x : float)
| VStr (s : string)
| VBytes (b : string)
| VList (l : list value)
| VDict (d : list (string * value)).

Definition dict := list (string * value).

(** Truth value of an object, as [cfg or {}] tests it. *)
Definition truthy (v : value) : bool :=
  match v with
  | VNone => false
  | VBool b => b
  | VInt z => negb (z =? 0)%Z
  | VFloat x => negb (eqb x (Fin 0))
  | VStr s => negb (String.eqb s "")
  | VBytes b => negb (String.eqb b "")
  | VList l => match l with [] => false | _ => true end
  | VDict d => match d with [] => false | _ => true end
  end.

(** [key.split(sep)]. *)
Fixpoint split (sep : ascii) (s : string) : list string :=
  match s with
  | EmptyString => [EmptyString]
  | String c s' =>
      if Ascii.eqb c sep then EmptyString :: split sep s'
      else match split sep s' with
           | [] => [String c EmptyString]
           | p :: ps => String c p :: ps
           end
  end.

(** [sep in key]. *)
Fixpoint contains (sep : ascii) (s : string) : bool :=
  match s with
  | EmptyString => false
  | String c s' => Ascii.eqb c sep || contains sep s'
  end.

Definition dot : ascii := "."%char.

(** What a column of the store holds when read back: text, or bytes. *)
Inductive cell : Type :=
| CText (s : string)
| CBlob (b : string).

(** The three ways [json.loads] ends. *)
Inductive loads_result : Type :=
| Decoded (v : value)
| JSONDecodeError
| LoadsRaises (e : exn).

(** [json.loads] and [json.dumps] ([None]: the object is not serializable,
    [TypeError]). *)
Class Json : Type := {
  json_loads : cell -> loads_result;
  json_dumps : value -> option string
}.

(** The static file as [load_yaml_config] finds it. *)
Inductive yaml_file : Type :=
| YamlAbsent
| YamlUnreadable
| YamlLoaded (cfg : value).

Definition load_yaml_config (f : yaml_file) : log * value :=
  match f with
  | YamlAbsent => ([(ERROR, MsgYamlMissing)], VDict [])
  | YamlUnreadable => ([(ERROR, MsgYamlError)], VDict [])
  | YamlLoaded cfg => ([], if truthy cfg then cfg else VDict [])
  end.

(** [config.setdefault(k, v)]; only a dictionary has the method. *)
Definition setdefault (k : string) (v : value) (config : value) : outcome value :=
  match config with
  | VDict d => Returned (VDict (if dict_in k d then d else d ++ [(k, v)]))
  | _ => Raised AttributeError
  end.

Definition decimal (num : Z) (den : positive) : value := VFloat (Fin (num # den)).

(** The defaults of [get_config], up to the database overrides. *)
Definition apply_defaults (config : value) : outcome value :=
  config <- setdefault "data_period" (VStr "365d") config ;;
  config <- setdefault "drawdown_cap" (decimal 25 100) config ;;
  config <- setdefault "volatility_cap" (decimal 10 100) config ;;
  config <- setdefault "output_csv" (VStr "/data/scores_history.csv") config ;;
  config <- setdefault "log_file" (VStr "/data/bot_daily_score.log") config ;;
  config <- setdefault "timezone" (VStr "Europe/Paris") config ;;
  config <- setdefault "dev_mode" (VBool false) config ;;
  config <- setdefault "schedule_hour" (VInt 22) config ;;
  config <- setdefault "schedule_minute" (VInt 10) config ;;
  match config with
  | VDict d =>
      let d := if dict_in "weights" d then d else dict_set "weights" (VDict []) d in
      match dict_get "weights" d with
      | Some w =>
          w <- setdefault "drawdown90" (decimal 25 100) w ;;
          w <- setdefault "rsi14" (decimal 25 100) w ;;
          w <- setdefault "dist_ma50" (decimal 20 100) w ;;
          w <- setdefault "momentum30" (decimal 15 100) w ;;
          w <- setdefault "trend_ma200" (decimal 10 100) w ;;
          w <- setdefault "volatility20" (decimal 5 100) w ;;
          Returned (VDict (dict_set "weights" w d))
      | None => Raised AttributeError
      end
  | _ => Raised AttributeError
  end.

(** The nested assignment of [get_config]:
    [for part in parts[:-1]: ...; current[parts[-1]] = v].
    Anything but a dictionary on the way raises [TypeError]. *)
Fixpoint set_nested (parts : list string) (v : value) (current : value) : outcome value :=
  match current with
  | VDict d =>
      match parts with
      | [] => Returned current
      | [last_part] => Returned (VDict (dict_set last_part v d))
      | part :: rest =>
          let child := match dict_get part d with Some c => c | None => VDict [] end in
          child' <- set_nested rest v child ;;
          Returned (VDict (dict_set part child' d))
      end
  | _ => Raised TypeError
  end.

(** [config[key] = v] on the top-level dictionary. *)
Definition set_item (key : string) (v : value) (config : value) : outcome value :=
  match config with
  | VDict d => Returned (VDict (dict_set key v d))
  | _ => Raised TypeError
  end.

Definition raw_value (c : cell) : value :=
  match c with
  | CText s => VStr s
  | CBlob b => VBytes b
  end.

(** Rows of the five tables. *)
Record config_row : Type := mkConfigRow {
  c_key : string;
  c_value : cell;
  c_description : string;
  c_updated_at : Z
}.

Record formula_row : Type := mkFormulaRow {
  f_name : string;
  f_formula : string;
  f_weight : float;
  f_description : string;
  f_updated_at : Z
}.

Record ticker_row : Type := mkTickerRow {
  t_symbol : string;
  t_enabled : bool;
  t_added_at : Z
}.

Record profile_row : Type := mkProfileRow {
  p_id : Z;
  p_name : string;
  p_description : string;
  p_is_active : bool;
  p_created_at : Z;
  p_updated_at : Z
}.

Record profile_weight_row : Type := mkProfileWeightRow {
  pw_profile_id : Z;
  pw_formula_name : string;
  pw_weight : float
}.

(** The database: each table as the list of its rows, in the order a
    [SELECT] without [ORDER BY] scans them (by rowid). *)
Record database : Type := mkDatabase {
  config_table : list config_row;
  formulas_table : list formula_row;
  tickers_table : list ticker_row;
  weight_profiles_table : list profile_row;
  profile_weights_table : list profile_weight_row
}.

Inductive table : Type :=
| TConfig | TFormulas | TTickers | TWeightProfiles | TProfileWeights.

Definition table_eqb (a b : table) : bool :=
  match a, b with
  | TConfig, TConfig | TFormulas, TFormulas | TTickers, TTickers
  | TWeightProfiles, TWeightProfiles | TProfileWeights, TProfileWeights => true
  | _, _ => false
  end.

(** A state of the backing store: whether [sqlite3.connect] succeeds, the
    tables on which a statement raises (missing or corrupt), and the rows. *)
Record store : Type := mkStore {
  connects : bool;
  unreadable : list table;
  data : database
}.

Definition readable (st : store) (t : table) : bool :=
  negb (existsb (table_eqb t) (unreadable st)).

Section Resolver.

Context {json : Json}.

(** The body of the loop over the rows of [config]. *)
Definition apply_row (config : value) (key : string) (stored : cell) : outcome value :=
  match json_loads stored with
  | Decoded parsed_value =>
      if contains dot key
      then set_nested (split dot key) parsed_value config
      else set_item key parsed_value config
  | JSONDecodeError => set_item key (raw_value stored) config
  | LoadsRaises e => Raised e
  end.

(** The loop: it stops at the first row that raises, with the
    configuration as the rows before it left it. *)
Fixpoint apply_rows (config : value) (rows : list config_row) : value * option exn :=
  match rows with
  | [] => (config, None)
  | r :: rows' =>
      match apply_row config (c_key r) (c_value r) with
      | Raised e => (config, Some e)
      | Returned config' => apply_rows config' rows'
      end
  end.

(** The [formulas] and [formula_weights] dictionaries built from the
    formulas table. *)
Definition formulas_dict (rows : list formula_row) : dict :=
  fold_left (fun d r => dict_set (f_name r) (VStr (f_formula r)) d) rows [].

Definition formula_weights_dict (rows : list formula_row) : dict :=
  fold_left (fun d r => dict_set (f_name r) (VFloat (f_weight r)) d) rows [].

Definition enabled_tickers (rows : list ticker_row) : list value :=
  map (fun r => VStr (t_symbol r)) (filter t_enabled rows).

(** The block that reads the formulas table. *)
Definition formulas_block (rows : list formula_row) (config : value) : outcome value :=
  let formulas := formulas_dict rows in
  let formula_weights := formula_weights_dict rows in
  match formulas with
  | [] => Returned config
  | _ =>
      config <- set_item "formulas" (VDict formulas) config ;;
      set_item "formula_weights" (VDict formula_weights) config
  end.

(** The block that reads the enabled tickers. *)
Definition tickers_block (rows : list ticker_row) (config : value) : outcome value :=
  match enabled_tickers rows with
  | [] => Returned config
  | db_tickers => set_item "tickers" (VList db_tickers) config
  end.

(** The end of the [try] block of [get_config], once the loop over the
    rows of [config] is over: the configuration when the block is left, and
    whether it was left by an exception. *)
Definition tables_overrides (st : store) (config : value) : value * bool :=
  if negb (readable st TFormulas) then (config, true) else
  match formulas_block (formulas_table (data st)) config with
  | Raised _ => (config, true)
  | Returned config =>
      if negb (readable st TTickers) then (config, true) else
      match tickers_block (tickers_table (data st)) config with
      | Raised _ => (config, true)
      | Returned config => (config, false)
      end
  end.

(** The [try] block of [get_config]. *)
Definition db_overrides (st : store) (config : value) : value * bool :=
  if negb (connects st) then (config, true) else
  if negb (readable st TConfig) then (config, true) else
  match apply_rows config (config_table (data st)) with
  | (config, Some _) => (config, true)
  | (config, None) => tables_overrides st config
  end.

(** [ConfigManager.get_config]. *)
Definition get_config (f : yaml_file) (st : store) : log * outcome value :=
  let '(lg, config) := load_yaml_config f in
  match apply_defaults config with
  | Raised e => (lg, Raised e)
  | Returned config =>
      let '(config, failed) := db_overrides st config in
      (if failed then lg ++ [(ERROR, MsgDbReadError)] else lg, Returned config)
  end.

End Resolver.

(** [INSERT OR REPLACE INTO config]: a row with the same key is deleted and
    the new row gets a fresh rowid, so it is scanned last. *)
Definition insert_or_replace_config (r : config_row) (rows : list config_row)
  : list config_row :=
  filter (fun r' => negb (String.eqb (c_key r') (c_key r))) rows ++ [r].

Definition with_config_table (rows : list config_row) (st : store) : store :=
  {| connects := connects st;
     unreadable := unreadable st;
     data := {| config_table := rows;
                formulas_table := formulas_table (data st);
                tickers_table := tickers_table (data st);
                weight_profiles_table := weight_profiles_table (data st);
                profile_weights_table := profile_weights_table (data st) |} |}.

Section Accessors.

Context {json : Json}.

(** [ConfigManager.set_config_value]; [now] is [CURRENT_TIMESTAMP].
    The method catches nothing: [json.dumps] may raise [TypeError] and the
    store may raise [sqlite3.OperationalError]. *)
Definition set_config_value (key : string) (val : value) (description : string)
  (now : Z) (st : store) : outcome store :=
  if negb (connects st) then Raised OperationalError else
  text <- match val with
          | VStr s => Returned s
          | _ => match json_dumps val with
                 | Some s => Returned s
                 | None => Raised TypeError
                 end
          end ;;
  if negb (readable st TConfig) then Raised OperationalError else
  Returned (with_config_table
    (insert_or_replace_config
       {| c_key := key; c_value := CText text; c_description := description;
          c_updated_at := now |}
       (config_table (data st))) st).

(** The walk of [get_config_value] along the parts of a dotted key
    ([None]: the method returns [default]). *)
Fixpoint get_nested (parts : list string) (current : value) : option value :=
  match parts with
  | [] => Some current
  | part :: rest =>
      match current with
      | VDict d =>
          match dict_get part d with
          | Some c => get_nested rest c
          | None => None
          end
      | _ => None
      end
  end.

(** [ConfigManager.get_config_value]. *)
Definition get_config_value (f : yaml_file) (st : store) (key : string) (default : value)
  : outcome value :=
  config <- snd (get_config f st) ;;
  if contains dot key then
    match get_nested (split dot key) config with
    | Some current => Returned current
    | None => Returned default
    end
  else
    match config with
    | VDict d =>
        match dict_get key d with
        | Some v => Returned v
        | None => Returned default
        end
    | _ => Raised AttributeError
    end.

End Accessors.

(** ** Weight profiles ([core/config.py]) *)

Definition deactivate (p : profile_row) : profile_row :=
  {| p_id := p_id p; p_name := p_name p; p_description := p_description p;
     p_is_active := false; p_created_at := p_created_at p;
     p_updated_at := p_updated_at p |}.

Definition activate (profile_id now : Z) (p : profile_row) : profile_row :=
  if (p_id p =? profile_id)%Z then
    {| p_id := p_id p; p_name := p_name p; p_description := p_description p;
       p_is_active := true; p_created_at := p_created_at p;
       p_updated_at := now |}
  else p.

(** [UPDATE formulas SET weight = ?, updated_at = CURRENT_TIMESTAMP
    WHERE name = ?]. *)
Definition update_formula_weight (weight : float) (name : string) (now : Z)
  (rows : list formula_row) : list formula_row :=
  map (fun f =>
         if String.eqb (f_name f) name then
           {| f_name := f_name f; f_formula := f_formula f; f_weight := weight;
              f_description := f_description f; f_updated_at := now |}
         else f) rows.

(** [ConfigManager.set_active_profile] on a store that answers; [now] is
    [CURRENT_TIMESTAMP]. *)
Definition set_active_profile (profile_id : Z) (now : Z) (d : database) : database :=
  let profiles := map deactivate (weight_profiles_table d) in
  let profiles := map (activate profile_id now) profiles in
  let selected :=
    filter (fun r => (pw_profile_id r =? profile_id)%Z) (profile_weights_table d) in
  let formulas :=
    fold_left (fun rows r => update_formula_weight (pw_weight r) (pw_formula_name r) now rows)
              selected (formulas_table d) in
  {| config_table := config_table d;
     formulas_table := formulas;
     tickers_table := tickers_table d;
     weight_profiles_table := profiles;
     profile_weights_table := profile_weights_table d |}.

(** ** The legacy script ([backtest.py]) *)

(** [backtest_ticker]: the same walk as [run_backtest], every 7 rows, scored
    by [compute_score_at_date]; the download is not guarded, and the
    messages go to the standard output. *)
Definition backtest_ticker {ext : Externals}
  (yf_download : string -> Z -> Z -> download_result)
  (ticker : string) (cfg : config_t) (start_date end_date : Z) : outcome (option frame) :=
  let extended_start := (start_date - 400)%Z in
  match yf_download ticker extended_start end_date with
  | DownloadRaises => Raised DownloadFailure
  | Downloaded [] => Returned None
  | Downloaded df =>
      results <- simulate (fun df i => compute_score_at_date df i cfg) (dropna df) start_date 7 ;;
      Returned (Some results)
  end.

Module Script.

(** [analyze_results] of the script prints its statistics and returns
    nothing that the caller keeps; what it leaves behind is the
    [score_category] column that it writes into the frame it is given
    (nothing on an empty frame). *)
Definition analyze_results (results_df : frame) : frame :=
  match results_df with
  | [] => []
  | _ => assign_score_category results_df
  end.

(** The body of the loop over [cfg["tickers"]]: the call of
    [backtest_ticker] is not guarded, only its empty result is. *)
Definition main_step {ext : Externals}
  (yf_download : string -> Z -> Z -> download_result)
  (cfg : config_t) (start_date end_date : Z)
  (all_results : list frame) (ticker : string) : outcome (list frame) :=
  results <- backtest_ticker yf_download ticker cfg start_date end_date ;;
  match results with
  | None | Some [] => Returned all_results
  | Some results =>
      Returned (all_results ++ [analyze_results (set_ticker ticker results)])
  end.

(** The loop: an exception leaves it, and the tickers after are not run. *)
Fixpoint main_loop {ext : Externals}
  (yf_download : string -> Z -> Z -> download_result)
  (cfg : config_t) (start_date end_date : Z)
  (tickers : list string) (all_results : list frame) : outcome (list frame) :=
  match tickers with
  | [] => Returned all_results
  | ticker :: tickers' =>
      all_results <- main_step yf_download cfg start_date end_date all_results ticker ;;
      main_loop yf_download cfg start_date end_date tickers' all_results
  end.

(** The [__main__] block, for the tickers [cfg["tickers"]] and the period
    computed from the clock: the frame written to [backtest_results.csv],
    [None] when no file is written.  What is printed is left out. *)
Definition main {ext : Externals}
  (yf_download : string -> Z -> Z -> download_result)
  (cfg : config_t) (tickers : list string) (start_date end_date : Z)
  : outcome (option frame) :=
  all_results <- main_loop yf_download cfg start_date end_date tickers [] ;;
  match all_results with
  | [] => Returned None
  | _ => Returned (Some (concat all_results))
  end.

End Script.

(** ** Instances used to run the code on concrete inputs *)

Module Sample.

(** The rows [max(0, t-w+1) .. t] of a column. *)
Definition window (w t : nat) (s : series) : series :=
  skipn (t + 1 - w) (firstn (t + 1) s).

Definition rolling (f : list float -> float) (w : nat) (s : series) : series :=
  map (fun t => f (window w t s)) (seq 0 (length s)).

Definition pct_change_of (periods : nat) (s : series) : series :=
  map (fun t =>
         if (t <? periods)%nat then NaN
         else (nth t s NaN / nth (t - periods) s NaN - Fin 1)%float)
      (seq 0 (length s)).

(** Sample standard deviation of a window; here only the case of equal
    values, where no square root is needed, has a value. *)
Definition std_of_equal (l : list float) : float :=
  match notna l with
  | [] | [_] => NaN
  | x :: v => if forallb (eqb x) v then Fin 0 else NaN
  end.

Definition clamp01 (x : float) : float :=
  match x with
  | NaN => Fin (1 # 2)
  | Inf s => if s then Fin 0 else Fin 1
  | Fin q => if Qneg q then Fin 0 else if Qneg (1 - q) then Fin 1 else Fin q
  end.

(** Rolling mean and maximum as defined by pandas, an RSI that is never
    computable, and sub-scores clamped to [[0,1]]. *)
Definition externals : Externals :=
  {| rolling_mean := rolling mean;
     rolling_max := rolling maximum;
     rolling_std := rolling std_of_equal;
     pct_change := pct_change_of;
     compute_rsi := fun s _ => map (fun _ => NaN) s;
     score_drawdown := fun d cap => clamp01 (d / cap);
     score_rsi := fun r => clamp01 ((Fin 70 - r) / Fin 40);
     score_dist_ma50 := fun c m => clamp01 (Fin (1 # 2) + (m - c) / m);
     score_momentum := fun m => clamp01 (Fin (1 # 2) - m);
     score_trend_ma200 := fun c m => if gtb c m then Fin 1 else Fin 0;
     score_volatility := fun v cap => clamp01 (Fin 1 - v / cap) |}.

(** Sub-scores that are all saturated at 1. *)
Definition saturated : Externals :=
  {| rolling_mean := rolling mean;
     rolling_max := rolling maximum;
     rolling_std := rolling std_of_equal;
     pct_change := pct_change_of;
     compute_rsi := fun s _ => map (fun _ => NaN) s;
     score_drawdown := fun _ _ => Fin 1;
     score_rsi := fun _ => Fin 1;
     score_dist_ma50 := fun _ _ => Fin 1;
     score_momentum := fun _ => Fin 1;
     score_trend_ma200 := fun _ _ => Fin 1;
     score_volatility := fun _ _ => Fin 1 |}.

(** A frame of [n] daily bars at a constant closing price. *)
Definition flat_frame (n : nat) (price : Q) : list bar :=
  map (fun t => mkBar (Z.of_nat t) (Fin price)) (seq 0 n).

(** The weights written in [get_config]. *)
Definition default_config : config_t :=
  {| drawdown_cap := Fin (25 # 100);
     volatility_cap := Fin (10 # 100);
     weights := {| w_drawdown90 := Fin (25 # 100);
                   w_rsi14 := Fin (25 # 100);
                   w_dist_ma50 := Fin (20 # 100);
                   w_momentum30 := Fin (15 # 100);
                   w_trend_ma200 := Fin (10 # 100);
                   w_volatility20 := Fin (5 # 100) |} |}.

(** Statistics where no square root is needed: the deviation of equal
    observations, and no correlation. *)
Definition stats : Stats :=
  {| std := std_of_equal; corr := fun _ _ => NaN |}.

(** A download that raises for the symbol [BAD] and gives 260 rows of a
    flat price for every other symbol. *)
Definition one_failing_download (t : string) (start_date end_date : Z) : download_result :=
  if String.eqb t "BAD" then DownloadRaises else Downloaded (flat_frame 260 100).

(** A JSON codec for documents that are one scalar: [null], [true],
    [false], a decimal number without exponent, or a quoted string without
    escapes.  Other documents are outside this fragment and are rejected. *)
Definition quote : ascii := ascii_of_nat 34.
Definition backslash : ascii := ascii_of_nat 92.

Fixpoint plain (s : string) : bool :=
  match s with
  | EmptyString => true
  | String c s' =>
      negb (Ascii.eqb c quote) && negb (Ascii.eqb c backslash)
      && (32 <=? nat_of_ascii c)%nat && plain s'
  end.

(** The last character of a string and what precedes it. *)
Fixpoint unsnoc (s : string) : option (string * ascii) :=
  match s with
  | EmptyString => None
  | String c s' =>
      match unsnoc s' with
      | None => Some (EmptyString, c)
      | Some (init, l) => Some (String c init, l)
      end
  end.

Definition loads_string (s : string) : option value :=
  match s with
  | String c s' =>
      if Ascii.eqb c quote then
        match unsnoc s' with
        | Some (body, l) =>
            if Ascii.eqb l quote && plain body then Some (VStr body) else None
        | None => None
        end
      else None
  | EmptyString => None
  end.

(** Digits of the integer part: no leading zero. *)
Definition loads_digits (s : string) : option Z :=
  match s with
  | EmptyString => None
  | String c s' =>
      if Ascii.eqb c "0" && negb (String.eqb s' "") then None
      else option_map Z.of_uint (NilEmpty.uint_of_string s)
  end.

Definition loads_unsigned (s : string) : option value :=
  match split dot s with
  | [i] => option_map VInt (loads_digits i)
  | [i; f] =>
      match loads_digits i, f, NilEmpty.uint_of_string f with
      | Some n, String _ _, Some u =>
          Some (VFloat (Fin (inject_Z n
                             + inject_Z (Z.of_uint u) / inject_Z (10 ^ Z.of_nat (String.length f)))))
      | _, _, _ => None
      end
  | _ => None
  end.

Definition negate (v : value) : value :=
  match v with
  | VInt z => VInt (- z)
  | VFloat x => VFloat (opp x)
  | _ => v
  end.

Definition loads_number (s : string) : option value :=
  match s with
  | String c s' =>
      if Ascii.eqb c "-" then option_map negate (loads_unsigned s')
      else loads_unsigned s
  | EmptyString => None
  end.

Definition loads (c : cell) : loads_result :=
  match c with
  | CBlob _ => LoadsRaises ValueError
  | CText s =>
      if String.eqb s "null" then Decoded VNone
      else if String.eqb s "true" then Decoded (VBool true)
      else if String.eqb s "false" then Decoded (VBool false)
      else match loads_string s with
           | Some v => Decoded v
           | None =>
               match loads_number s with
               | Some v => Decoded v
               | None => JSONDecodeError
               end
           end
  end.

Definition dumps (v : value) : option string :=
  match v with
  | VNone => Some "null"
  | VBool true => Some "true"
  | VBool false => Some "false"
  | VInt z => Some (NilZero.string_of_int (Z.to_int z))
  | VStr s => if plain s then Some (String quote (s ++ String quote "")) else None
  | _ => None
  end%string.

Definition json : Json := {| json_loads := loads; json_dumps := dumps |}.

End Sample.


(** ** The contract of the Score Assembler, in the words of the
    specification (sections 4.2 and 4.3) *)

(** The raw indicator values of the last row of a truncated series. *)
Record indicators : Type := mkIndicators {
  ind_close : float;
  ind_ma50 : float;
  ind_ma200 : float;
  ind_rsi14 : float;
  ind_drawdown : float;
  ind_volatility : float;
  ind_momentum : float
}.

Record subscores : Type := mkSubscores {
  sub_drawdown90 : float;
  sub_rsi14 : float;
  sub_dist_ma50 : float;
  sub_momentum30 : float;
  sub_trend_ma200 : float;
  sub_volatility20 : float
}.

(** An indicator that cannot be computed is replaced by its neutral
    default. *)
Definition neutral_default (default : Q) (x : float) : float :=
  if isnan x then Fin default else x.

(** Sum over the six named weights of weight times sub-score. *)
Definition weighted_sum (w : weights_t) (s : subscores) : float :=
  (w_drawdown90 w * sub_drawdown90 s
   + w_rsi14 w * sub_rsi14 s
   + w_dist_ma50 w * sub_dist_ma50 s
   + w_momentum30 w * sub_momentum30 s
   + w_trend_ma200 w * sub_trend_ma200 s
   + w_volatility20 w * sub_volatility20 s)%float.

Section ScoreContract.

Context {ext : Externals}.

Definition spec_indicators (truncated : list bar) : indicators :=
  let closes := map Close truncated in
  let high := rolling_max 90 closes in
  {| ind_close := iloc_last closes;
     ind_ma50 := iloc_last (rolling_mean 50 closes);
     ind_ma200 := iloc_last (rolling_mean 200 closes);
     ind_rsi14 := iloc_last (compute_rsi closes 14);
     ind_drawdown := iloc_last (series_div (series_sub high closes) high);
     ind_volatility := iloc_last (rolling_std 20 (pct_change 1 closes));
     ind_momentum := iloc_last (pct_change 30 closes) |}.

Definition spec_subscores (cfg : config_t) (ind : indicators) : subscores :=
  {| sub_drawdown90 := score_drawdown (neutral_default 0 (ind_drawdown ind)) (drawdown_cap cfg);
     sub_rsi14 := score_rsi (neutral_default 50 (ind_rsi14 ind));
     sub_dist_ma50 := score_dist_ma50 (ind_close ind) (ind_ma50 ind);
     sub_momentum30 := score_momentum (neutral_default 0 (ind_momentum ind));
     sub_trend_ma200 := score_trend_ma200 (ind_close ind) (ind_ma200 ind);
     sub_volatility20 := score_volatility (neutral_default 0 (ind_volatility ind)) (volatility_cap cfg) |}.

Definition spec_score (cfg : config_t) (truncated : list bar) : float :=
  round (Fin 100 * weighted_sum (weights cfg) (spec_subscores cfg (spec_indicators truncated))) 1.

End ScoreContract.

(** A finite value between two rational bounds. *)
Definition between (lo hi : Q) (x : float) : Prop :=
  exists q, x = Fin q /\ lo <= q <= hi.

(** The output contract of the six normalisation functions. *)
Definition normalised_scores (ext : Externals) : Prop :=
  (forall d c, between 0 1 (score_drawdown d c)) /\
  (forall r, between 0 1 (score_rsi r)) /\
  (forall c m, between 0 1 (score_dist_ma50 c m)) /\
  (forall m, between 0 1 (score_momentum m)) /\
  (forall c m, between 0 1 (score_trend_ma200 c m)) /\
  (forall v c, between 0 1 (score_volatility v c)).

(** Six non-negative weights whose sum is at most 1. *)
Definition normalised_weights (w : weights_t) : Prop :=
  exists a b c d e f : Q,
    w = mkWeights (Fin a) (Fin b) (Fin c) (Fin d) (Fin e) (Fin f) /\
    0 <= a /\ 0 <= b /\ 0 <= c /\ 0 <= d /\ 0 <= e /\ 0 <= f /\
    a + b + c + d + e + f <= 1.

(** ** The walk-forward contract, in the words of the specification
    (section 4.4) *)

(** [j] is a valid index of the frame. *)
Definition valid_index (df : list bar) (j : Z) : Prop :=
  (0 <= j < Z.of_nat (length df))%Z.

(** [return_30d = (close[i+30] - close[i]) / close[i] * 100], rounded to 2
    decimals. *)
Definition spec_return_30d (df : list bar) (i : Z) : float :=
  round ((iloc_Close df (i + 30) - iloc_Close df i) / iloc_Close df i * Fin 100)%float 2.

(** The record emitted for a snapshot and its forward return. *)
Definition emitted (s : snapshot) (r : float) : record :=
  {| snap := s; return_30d := r; ticker := None; score_category := None |}.

(** Timestamp of row [j]. *)
Definition timestamp_at (df : list bar) (j : Z) : Z :=
  nth (Z.to_nat j) (map timestamp df) 0%Z.

(** ** The multi-ticker contract (section 4.4) *)

(** The columns of a combined record that come from the single-ticker run,
    with the ticker tag. *)
Definition core_columns (r : record) : option string * snapshot * float :=
  (ticker r, snap r, return_30d r).

(** [run_backtest] with its default interval of 7 rows. *)
Definition run_default (engine_score_at_date : list bar -> Z -> option snapshot)
  (yf_download : string -> Z -> Z -> download_result)
  (t : string) (start_date end_date : Z) : log * outcome (option frame) :=
  run_backtest engine_score_at_date yf_download t start_date end_date 7.

(** The records a single-ticker run produces, none when it returns
    [None]. *)
Definition single_run (engine_score_at_date : list bar -> Z -> option snapshot)
  (yf_download : string -> Z -> Z -> download_result)
  (t : string) (start_date end_date : Z) : frame :=
  match snd (run_default engine_score_at_date yf_download t start_date end_date) with
  | Returned (Some results) => results
  | _ => []
  end.

(** The frames one ticker adds to [all_results]: its tagged records, with
    the category column that [analyze_results] writes into them. *)
Definition added_frames {stats : Stats}
  (engine_score_at_date : list bar -> Z -> option snapshot)
  (yf_download : string -> Z -> Z -> download_result)
  (start_date end_date : Z) (t : string) : list frame :=
  match single_run engine_score_at_date yf_download t start_date end_date with
  | [] => []
  | results => [snd (analyze_results (set_ticker t results))]
  end.

Definition frame_of (combined : option frame) : frame :=
  match combined with
  | Some f => f
  | None => []
  end.

(** The records a single-ticker run of the script produces, none when it
    returns [None] or raises. *)
Definition script_single_run {ext : Externals}
  (yf_download : string -> Z -> Z -> download_result)
  (cfg : config_t) (t : string) (start_date end_date : Z) : frame :=
  match backtest_ticker yf_download t cfg start_date end_date with
  | Returned (Some results) => results
  | _ => []
  end.

(** The frames one ticker adds to the script's [all_results]. *)
Definition script_added_frames {ext : Externals}
  (yf_download : string -> Z -> Z -> download_result)
  (cfg : config_t) (start_date end_date : Z) (t : string) : list frame :=
  match script_single_run yf_download cfg t start_date end_date with
  | [] => []
  | results => [Script.analyze_results (set_ticker t results)]
  end.

(** [ConfigManager.get_profile_weights]: the dictionary of the weights a
    profile records. *)
Definition get_profile_weights (profile_id : Z) (d : database) : list (string * float) :=
  fold_left (fun weights r => dict_set (pw_formula_name r) (pw_weight r) weights)
            (filter (fun r => (pw_profile_id r =? profile_id)%Z) (profile_weights_table d))
            [].

(** A formula row after its weight was overwritten at time [now]. *)
Definition reweighted (weight : float) (now : Z) (f : formula_row) : formula_row :=
  {| f_name := f_name f; f_formula := f_formula f; f_weight := weight;
     f_description := f_description f; f_updated_at := now |}.

(** What activation does to one formula row, given the weights of the
    profile. *)
Definition load_weight (weights : list (string * float)) (now : Z) (f : formula_row)
  : formula_row :=
  match dict_get (f_name f) weights with
  | Some w => reweighted w now f
  | None => f
  end.

Definition profile_exists (profile_id : Z) (d : database) : Prop :=
  exists p, In p (weight_profiles_table d) /\ p_id p = profile_id.

(** The frame of an activation as the specification states it: only the
    profile is active, a formula named in the profile takes the recorded
    weight, any other keeps its weight, and no other column of a formula
    row changes. *)
Definition activation_frame_as_stated (d : database) (profile_id now : Z) : Prop :=
  let d' := set_active_profile profile_id now d in
  (forall p, In p (weight_profiles_table d') -> (p_is_active p = true <-> p_id p = profile_id)) /\
  (forall n f f',
     nth_error (formulas_table d) n = Some f ->
     nth_error (formulas_table d') n = Some f' ->
     match dict_get (f_name f) (get_profile_weights profile_id d) with
     | Some w => f_weight f' = w
     | None => f_weight f' = f_weight f
     end /\
     f_name f' = f_name f /\ f_formula f' = f_formula f /\
     f_description f' = f_description f /\ f_updated_at f' = f_updated_at f).

(** A store with one profile and one formula that the profile names. *)
Definition one_profile_db : database :=
  {| config_table := [];
     formulas_table :=
       [mkFormulaRow "rsi14" "score_rsi(rsi14)" (Fin (25 # 100)) "" 10;
        mkFormulaRow "momentum30" "score_momentum(momentum30)" (Fin (15 # 100)) "" 10];
     tickers_table := [];
     weight_profiles_table :=
       [mkProfileRow 1 "aggressive" "" false 5 5; mkProfileRow 2 "defensive" "" true 6 6];
     profile_weights_table := [mkProfileWeightRow 1 "rsi14" (Fin (50 # 100))] |}.

(** ** The resolver contract (section 4.1) *)

(** The configuration assembled from the compiled-in defaults and the
    static file, before any access to the store. *)
Definition lower_precedence (f : yaml_file) : outcome value :=
  apply_defaults (snd (load_yaml_config f)).

(** Some access to the store failed during the resolution. *)
Definition store_failed {json : Json} (st : store) (config : value) : bool :=
  snd (db_overrides st config).

(** Store-failure degradation as the specification states it: the
    resolution returns, and after a failed access the result is the
    lower-precedence configuration, the failure being logged. *)
Definition degradation_as_stated {json : Json} (f : yaml_file) (st : store) : Prop :=
  forall c0, lower_precedence f = Returned c0 ->
  exists lg cfg,
    get_config f st = (lg, Returned cfg) /\
    (store_failed st c0 = true -> In (ERROR, MsgDbReadError) lg /\ cfg = c0).

(** The configuration that the defaults alone give, when the static file
    is empty. *)
Definition defaults_only : value :=
  VDict [("data_period", VStr "365d");
         ("drawdown_cap", decimal 25 100);
         ("volatility_cap", decimal 10 100);
         ("output_csv", VStr "/data/scores_history.csv");
         ("log_file", VStr "/data/bot_daily_score.log");
         ("timezone", VStr "Europe/Paris");
         ("dev_mode", VBool false);
         ("schedule_hour", VInt 22);
         ("schedule_minute", VInt 10);
         ("weights",
          VDict [("drawdown90", decimal 25 100);
                 ("rsi14", decimal 25 100);
                 ("dist_ma50", decimal 20 100);
                 ("momentum30", decimal 15 100);
                 ("trend_ma200", decimal 10 100);
                 ("volatility20", decimal 5 100)])]%string.

(** A healthy store with the given rows in [config] and nothing else. *)
Definition config_store (rows : list (string * string)) : store :=
  {| connects := true; unreadable := [];
     data := {| config_table := map (fun kv => mkConfigRow (fst kv) (CText (snd kv)) "" 0) rows;
                formulas_table := []; tickers_table := [];
                weight_profiles_table := []; profile_weights_table := [] |} |}.

(** The same with one enabled ticker. *)
Definition ticker_store (rows : list (string * string)) (symbol : string) : store :=
  {| connects := true; unreadable := [];
     data := {| config_table := map (fun kv => mkConfigRow (fst kv) (CText (snd kv)) "" 0) rows;
                formulas_table := []; tickers_table := [mkTickerRow symbol true 0];
                weight_profiles_table := []; profile_weights_table := [] |} |}.

Definition is_dict (v : value) : bool :=
  match v with VDict _ => true | _ => false end.

Definition is_str (v : value) : bool :=
  match v with VStr _ => true | _ => false end.

(** The top-level keys that the formulas and tickers tables overwrite. *)
Definition table_keys (st : store) : list string :=
  (if readable st TFormulas
   then match formulas_table (data st) with
        | [] => []
        | _ => ["formulas"; "formula_weights"]
        end
   else [])%string
  ++
  (if readable st TFormulas && readable st TTickers
   then match enabled_tickers (tickers_table (data st)) with
        | [] => []
        | _ => ["tickers"]
        end
   else [])%string.

(** Every proper dotted prefix of the key is absent from the
    configuration or maps to a nested mapping. *)
Definition proper_prefixes_ok (parts : list string) (config : value) : Prop :=
  forall n, (0 < n < length parts)%nat ->
    match get_nested (firstn n parts) config with
    | None => True
    | Some v => is_dict v = true
    end.

(** The rows of [config] other than the one of key [k]. *)
Definition other_rows (k : string) (rows : list config_row) : list config_row :=
  filter (fun r => negb (String.eqb (c_key r) k)) rows.

(** What [get_config_value] finds for a key in a configuration. *)
Definition lookup (k : string) (default : value) (config : value) : value :=
  if contains dot k then
    match get_nested (split dot k) config with
    | Some v => v
    | None => default
    end
  else
    match config with
    | VDict d => match dict_get k d with Some v => v | None => default end
    | _ => default
    end.

(** The set/get round trip as the specification states it, for a value
    that is not a string. *)
Definition round_trip_as_stated {json : Json} (f : yaml_file) (st : store)
  (k : string) (v : value) : Prop :=
  is_str v = false ->
  (exists text, json_dumps v = Some text /\ json_loads (CText text) = Decoded v) ->
  (forall cfg, snd (get_config f st) = Returned cfg -> proper_prefixes_ok (split dot k) cfg) ->
  forall (description : string) (now : Z) (default : value),
  exists st', set_config_value k v description now st = Returned st' /\
              get_config_value f st' k default = Returned v.

(** The text that [set_config_value] stores for a value. *)
Definition stored_text {json : Json} (v : value) : option string :=
  match v with
  | VStr s => Some s
  | _ => json_dumps v
  end.

(** ** The other methods of [ConfigManager] ([core/config.py]) *)

Definition with_formulas_table (rows : list formula_row) (d : database) : database :=
  {| config_table := config_table d;
     formulas_table := rows;
     tickers_table := tickers_table d;
     weight_profiles_table := weight_profiles_table d;
     profile_weights_table := profile_weights_table d |}.

Definition with_tickers_table (rows : list ticker_row) (d : database) : database :=
  {| config_table := config_table d;
     formulas_table := formulas_table d;
     tickers_table := rows;
     weight_profiles_table := weight_profiles_table d;
     profile_weights_table := profile_weights_table d |}.

(** [ConfigManager.set_formula]: [INSERT OR REPLACE INTO formulas]; a row
    of the same name is deleted and the new one is scanned last. *)
Definition set_formula (name formula : string) (weight : float) (description : string)
  (now : Z) (d : database) : database :=
  with_formulas_table
    (filter (fun f => negb (String.eqb (f_name f) name)) (formulas_table d)
     ++ [ {| f_name := name; f_formula := formula; f_weight := weight;
             f_description := description; f_updated_at := now |} ])
    d.

(** An entry of the dictionary returned by [get_formulas]. *)
Record formula_info : Type := mkFormulaInfo {
  fi_formula : string;
  fi_weight : float;
  fi_description : string
}.

(** [ConfigManager.get_formulas]: the dictionary comprehension over the
    rows of [formulas] (a description is a string here, so [description or
    ''] is the description). *)
Definition get_formulas (d : database) : list (string * formula_info) :=
  fold_left (fun formulas f =>
               dict_set (f_name f)
                        {| fi_formula := f_formula f; fi_weight := f_weight f;
                           fi_description := f_description f |}
                        formulas)
            (formulas_table d) [].

(** [ConfigManager.set_formula_weight]. *)
Definition set_formula_weight (name : string) (weight : float) (now : Z) (d : database)
  : database :=
  with_formulas_table (update_formula_weight weight name now (formulas_table d)) d.

(** [ConfigManager.delete_formula]. *)
Definition delete_formula (name : string) (d : database) : database :=
  with_formulas_table
    (filter (fun f => negb (String.eqb (f_name f) name)) (formulas_table d)) d.

(** [ConfigManager.add_ticker]: [INSERT OR REPLACE INTO tickers], enabled. *)
Definition add_ticker (symbol : string) (now : Z) (d : database) : database :=
  with_tickers_table
    (filter (fun t => negb (String.eqb (t_symbol t) symbol)) (tickers_table d)
     ++ [ {| t_symbol := symbol; t_enabled := true; t_added_at := now |} ])
    d.

(** [ConfigManager.remove_ticker]. *)
Definition remove_ticker (symbol : string) (d : database) : database :=
  with_tickers_table
    (filter (fun t => negb (String.eqb (t_symbol t) symbol)) (tickers_table d)) d.

(** [ConfigManager.toggle_ticker]. *)
Definition toggle_ticker (symbol : string) (enabled : bool) (d : database) : database :=
  with_tickers_table
    (map (fun t => if String.eqb (t_symbol t) symbol
                   then {| t_symbol := t_symbol t; t_enabled := enabled;
                           t_added_at := t_added_at t |}
                   else t)
         (tickers_table d))
    d.

(** [ConfigManager.get_tickers], on a store that answers: the symbols of
    the store, and the list of the static file when the store gives none
    ([config.get] raises [AttributeError] when the file is not a mapping). *)
Definition get_tickers (enabled_only : bool) (f : yaml_file) (d : database) : outcome value :=
  let rows := if enabled_only then filter t_enabled (tickers_table d) else tickers_table d in
  match rows with
  | [] =>
      match snd (load_yaml_config f) with
      | VDict config =>
          match dict_get "tickers" config with
          | Some tickers => Returned tickers
          | None => Returned (VList [])
          end
      | _ => Raised AttributeError
      end
  | _ => Returned (VList (map (fun t => VStr (t_symbol t)) rows))
  end.

(** [ConfigManager.save_profile_weights]; [weights] is a dictionary. *)
Definition save_profile_weights (profile_id : Z) (weights : list (string * float))
  (now : Z) (d : database) : database :=
  {| config_table := config_table d;
     formulas_table := formulas_table d;
     tickers_table := tickers_table d;
     weight_profiles_table :=
       map (fun p => if (p_id p =? profile_id)%Z then
                       {| p_id := p_id p; p_name := p_name p;
                          p_description := p_description p;
                          p_is_active := p_is_active p;
                          p_created_at := p_created_at p; p_updated_at := now |}
                     else p)
           (weight_profiles_table d);
     profile_weights_table :=
       filter (fun r => negb (pw_profile_id r =? profile_id)%Z) (profile_weights_table d)
       ++ map (fun kv => {| pw_profile_id := profile_id; pw_formula_name := fst kv;
                            pw_weight := snd kv |}) weights |}.

(** [ConfigManager.save_current_weights_to_profile]. *)
Definition save_current_weights_to_profile (profile_id : Z) (now : Z) (d : database)
  : database :=
  let formulas := get_formulas d in
  let weights := map (fun kv => (fst kv, fi_weight (snd kv))) formulas in
  save_profile_weights profile_id weights now d.

(** The dictionary returned by [get_active_profile]. *)
Record profile_info : Type := mkProfileInfo {
  pi_id : Z;
  pi_name : string;
  pi_description : string;
  pi_created_at : Z;
  pi_updated_at : Z
}.

(** [ConfigManager.get_active_profile]: the first active row, if any. *)
Definition get_active_profile (d : database) : option profile_info :=
  match filter p_is_active (weight_profiles_table d) with
  | [] => None
  | row :: _ =>
      Some {| pi_id := p_id row; pi_name := p_name row;
              pi_description := p_description row;
              pi_created_at := p_created_at row; pi_updated_at := p_updated_at row |}
  end.

Definition with_data (d : database) (st : store) : store :=
  {| connects := connects st; unreadable := unreadable st; data := d |}.

(** The compiled-in defaults of [get_config], as dictionaries. *)
Definition top_defaults : dict :=
  [("data_period", VStr "365d");
   ("drawdown_cap", decimal 25 100);
   ("volatility_cap", decimal 10 100);
   ("output_csv", VStr "/data/scores_history.csv");
   ("log_file", VStr "/data/bot_daily_score.log");
   ("timezone", VStr "Europe/Paris");
   ("dev_mode", VBool false);
   ("schedule_hour", VInt 22);
   ("schedule_minute", VInt 10)]%string.

Definition weight_defaults : dict :=
  [("drawdown90", decimal 25 100);
   ("rsi14", decimal 25 100);
   ("dist_ma50", decimal 20 100);
   ("momentum30", decimal 15 100);
   ("trend_ma200", decimal 10 100);
   ("volatility20", decimal 5 100)]%string.

(** A dictionary completed by defaults: a key of the dictionary keeps its
    value, a missing key takes the default. *)
Definition completed (defaults d : dict) (k : string) : option value :=
  match dict_get k d with
  | Some v => Some v
  | None => dict_get k defaults
  end.

(** The static file does not make [get_config] raise. *)
Definition file_ok (f : yaml_file) : bool :=
  match f with
  | YamlLoaded cfg =>
      if truthy cfg then
        match cfg with
        | VDict d =>
            match dict_get "weights" d with
            | Some w => is_dict w
            | None => true
            end
        | _ => false
        end
      else true
  | _ => true
  end.

(** The top-level keys that only the tables of the store write. *)
Definition reserved_keys : list string := ["formulas"; "formula_weights"; "tickers"]%string.

(** The configuration after the rows of [config], before the tables. *)
Definition rows_config {json : Json} (st : store) (c0 : value) : value :=
  if connects st && readable st TConfig
  then fst (apply_rows c0 (config_table (data st)))
  else c0.

(** A store with the given tickers and an empty [config]. *)
Definition tickers_db (rows : list (string * bool)) : database :=
  {| config_table := []; formulas_table := [];
     tickers_table := map (fun sb => mkTickerRow (fst sb) (snd sb) 0) rows;
     weight_profiles_table := []; profile_weights_table := [] |}.

(** A chain of [setdefault] calls on a dictionary. *)
Definition setdefaults (defaults d : list (string * value)) : list (string * value) :=
  fold_left (fun d kv => if dict_in (fst kv) d then d else d ++ [kv]) defaults d.

(** The [weights] mapping of the static file, empty when it has none. *)
Definition file_weights (d : dict) : dict :=
  match dict_get "weights" d with
  | Some (VDict w) => w
  | _ => []
  end.

(** The symbols that [get_tickers] lists from the store. *)
Definition enabled_symbols (d : database) : list string :=
  map t_symbol (filter t_enabled (tickers_table d)).

(** * Properties *)

(** ** The sample instances at work *)

Example loads_half : Sample.loads (CText "0.5") = Decoded (VFloat (Fin (0 + 5 / 10))).
Proof. reflexivity. Qed.
Example loads_abc : Sample.loads (CText "abc") = JSONDecodeError.
Proof. reflexivity. Qed.
Example loads_007 : Sample.loads (CText "007") = JSONDecodeError.
Proof. reflexivity. Qed.
Example loads_neg : Sample.loads (CText "-12") = Decoded (VInt (-12)).
Proof. reflexivity. Qed.
Example dumps_int : Sample.dumps (VInt (-12)) = Some "-12"%string.
Proof. reflexivity. Qed.

(** ** Slices *)

Lemma iloc_upto_nonneg (A : Type) (df : list A) (stop : Z) :
  (0 <= stop)%Z -> iloc_upto df stop = firstn (Z.to_nat stop) df.
Proof.
  intros Hstop. unfold iloc_upto.
  destruct (Z.ltb_spec stop 0) as [Hneg | _]; [lia |].
  destruct (Z.le_gt_cases stop (Z.of_nat (length df))) as [Hle | Hgt].
  - now rewrite Z.min_l.
  - rewrite Z.min_r by lia. rewrite Nat2Z.id.
    rewrite firstn_all. symmetry. apply firstn_all2. lia.
Qed.

Lemma length_iloc_upto (A : Type) (df : list A) (stop : Z) :
  (0 <= stop)%Z ->
  Z.of_nat (length (iloc_upto df stop)) = Z.min stop (Z.of_nat (length df)).
Proof.
  intros Hstop. rewrite iloc_upto_nonneg by assumption.
  rewrite length_firstn. lia.
Qed.

(** Two frames with the same rows [0..i] have the same slice [[:i+1]]. *)
Lemma firstn_pointwise (A : Type) (n : nat) (l1 l2 : list A) :
  (forall j, (j < n)%nat -> nth_error l1 j = nth_error l2 j) ->
  firstn n l1 = firstn n l2.
Proof.
  revert l1 l2. induction n as [| n IH]; intros l1 l2 H; [reflexivity |].
  pose proof (H 0%nat ltac:(lia)) as H0.
  destruct l1 as [| a l1], l2 as [| b l2]; simpl in *; try discriminate; [reflexivity |].
  injection H0 as ->. f_equal. apply IH. intros j Hj. apply (H (S j)). lia.
Qed.

Section ScoringProperties.

Context {ext : Externals}.

(** The snapshot only reads the slice [df.iloc[:date_idx+1]]. *)
Lemma compute_score_at_date_slice (df : list bar) (i : Z) (cfg : config_t) :
  (0 <= i)%Z ->
  compute_score_at_date df i cfg
  = compute_score_at_date (firstn (Z.to_nat (i + 1)) df) i cfg.
Proof.
  intros Hi. unfold compute_score_at_date.
  rewrite !iloc_upto_nonneg by lia.
  now rewrite firstn_firstn, Nat.min_id.
Qed.

(** C1. No-lookahead: two price series whose rows [0..i] are equal get the
    same snapshot at index [i], whatever rows follow. *)
Theorem no_lookahead (df1 df2 : list bar) (i : Z) (cfg : config_t) :
  (0 <= i)%Z ->
  (forall j : nat, (Z.of_nat j <= i)%Z -> nth_error df1 j = nth_error df2 j) ->
  compute_score_at_date df1 i cfg = compute_score_at_date df2 i cfg.
Proof.
  intros Hi Hrows.
  rewrite (compute_score_at_date_slice df1), (compute_score_at_date_slice df2) by assumption.
  f_equal. apply firstn_pointwise. intros j Hj. apply Hrows. lia.
Qed.

End ScoringProperties.

Section ScoringProperties2.

Context {ext : Externals}.

Lemma neutral_default_if (d : Q) (x : float) :
  (if negb (isnan x) then x else Fin d) = neutral_default d x.
Proof. unfold neutral_default. now destruct (isnan x). Qed.

Lemma nan_guard (x : float) : (if negb (isnan x) then x else NaN) = x.
Proof. now destruct x. Qed.

(** The score of a snapshot is the specification's formula on the slice
    the code takes. *)
Lemma score_of_snapshot (df : list bar) (i : Z) (cfg : config_t) (s : snapshot) :
  compute_score_at_date df i cfg = Some s ->
  score s = spec_score cfg (iloc_upto df (i + 1)).
Proof.
  unfold compute_score_at_date.
  destruct (length (iloc_upto df (i + 1)) <? 200)%nat; [discriminate |].
  intros [= <-]. cbn [score]. now rewrite !neutral_default_if, !nan_guard.
Qed.

(** C2. The Score Assembler returns [None] exactly when fewer than 200 rows
    exist up to and including index [i]; otherwise it returns a snapshot
    whose score is [round(100 * sum of weight * sub-score, 1)], the
    sub-scores being taken on the indicators of the truncated series with
    the neutral defaults RSI 50, drawdown 0, volatility 0, momentum 0. *)
Theorem score_assembler_contract (df : list bar) (i : Z) (cfg : config_t) :
  (0 <= i)%Z ->
  let rows := Z.min (i + 1) (Z.of_nat (length df)) in
  (compute_score_at_date df i cfg = None <-> (rows < 200)%Z) /\
  ((200 <= rows)%Z ->
   exists s, compute_score_at_date df i cfg = Some s /\
             score s = spec_score cfg (firstn (Z.to_nat (i + 1)) df)).
Proof.
  intros Hi rows.
  assert (Hlen : Z.of_nat (length (iloc_upto df (i + 1))) = rows)
    by (apply length_iloc_upto; lia).
  assert (Hslice : iloc_upto df (i + 1) = firstn (Z.to_nat (i + 1)) df)
    by (apply iloc_upto_nonneg; lia).
  destruct (compute_score_at_date df i cfg) as [s |] eqn:E.
  - pose proof (score_of_snapshot _ _ _ E) as Hs.
    assert (Hlong : (200 <= rows)%Z).
    { unfold compute_score_at_date in E.
      destruct (Nat.ltb_spec (length (iloc_upto df (i + 1))) 200); [discriminate | lia]. }
    split; [split; [discriminate | lia] |].
    intros _. exists s. split; [reflexivity | now rewrite <- Hslice].
  - assert (Hshort : (rows < 200)%Z).
    { unfold compute_score_at_date in E.
      destruct (Nat.ltb_spec (length (iloc_upto df (i + 1))) 200); [lia | discriminate]. }
    split; [tauto | lia].
Qed.

End ScoringProperties2.

(** ** Bounds on the composite score *)

Lemma round_half_even_bounds (q : Q) (lo hi : Z) :
  inject_Z lo <= q <= inject_Z hi ->
  (lo <= round_half_even q <= hi)%Z.
Proof.
  intros [Hlo Hhi]. unfold round_half_even.
  pose proof (Qfloor_le q) as Hfl.
  assert (Hge : (lo <= Qfloor q)%Z).
  { rewrite <- (Qfloor_Z lo). now apply Qfloor_resp_le. }
  assert (Hle : (Qfloor q <= hi)%Z).
  { rewrite <- (Qfloor_Z hi). now apply Qfloor_resp_le. }
  destruct (Z.eq_dec (Qfloor q) hi) as [Heq | Hne].
  - assert (Hfrac : q - inject_Z (Qfloor q) < 1 # 2).
    { rewrite Heq. lra. }
    destruct (Qcompare_spec (q - inject_Z (Qfloor q)) (1 # 2)) as [E | _ | G];
      [rewrite E in Hfrac; lra | lia | lra].
  - destruct (Qcompare (q - inject_Z (Qfloor q)) (1 # 2));
      [destruct (Z.even (Qfloor q)) | |]; lia.
Qed.

Lemma round_between (q : Q) (hi : Z) :
  0 <= q <= inject_Z hi ->
  between 0 (inject_Z hi) (round (Fin q) 1).
Proof.
  intros [Hlo Hhi]. unfold between, round. eexists. split; [reflexivity |].
  change (inject_Z (10 ^ Z.of_nat 1)) with (inject_Z 10).
  assert (Hb : (0 * 10 <= round_half_even (q * inject_Z 10) <= hi * 10)%Z).
  { apply round_half_even_bounds. rewrite !inject_Z_mult.
    change (inject_Z 0) with 0. change (inject_Z 10) with 10. split; nra. }
  destruct Hb as [Hb0 Hb1].
  rewrite Zle_Qle in Hb0, Hb1.
  rewrite inject_Z_mult in Hb1. change (inject_Z (0 * 10)) with 0 in Hb0.
  change (inject_Z 10) with 10 in *.
  rewrite Qred_correct. split.
  - apply Qle_shift_div_l; lra.
  - apply Qle_shift_div_r; lra.
Qed.

Lemma weighted_sum_between (w : weights_t) (s : subscores) :
  normalised_weights w ->
  between 0 1 (sub_drawdown90 s) -> between 0 1 (sub_rsi14 s) ->
  between 0 1 (sub_dist_ma50 s) -> between 0 1 (sub_momentum30 s) ->
  between 0 1 (sub_trend_ma200 s) -> between 0 1 (sub_volatility20 s) ->
  between 0 1 (weighted_sum w s).
Proof.
  intros (a & b & c & d & e & f & -> & Ha & Hb & Hc & Hd & He & Hf & Hsum)
         (s1 & E1 & H1) (s2 & E2 & H2) (s3 & E3 & H3)
         (s4 & E4 & H4) (s5 & E5 & H5) (s6 & E6 & H6).
  unfold weighted_sum. cbn. rewrite E1, E2, E3, E4, E5, E6. cbn.
  eexists. split; [reflexivity |].
  split; nra.
Qed.

(** C3, as stated, fails: with the six sub-scores at 1 and the weight of
    [rsi14] raised to 0.5 beside the other five defaults, the snapshot of a
    200-bar series has score 125. *)
Lemma score_bound_counterexample :
  ~ (forall (ext : Externals) (cfg : config_t) (df : list bar) (i : Z) (s : snapshot),
        normalised_scores ext ->
        compute_score_at_date df i cfg = Some s ->
        between 0 100 (score s)).
Proof.
  intros H.
  pose (cfg := {| drawdown_cap := Fin (25 # 100); volatility_cap := Fin (10 # 100);
                  weights := mkWeights (Fin (25 # 100)) (Fin (50 # 100)) (Fin (20 # 100))
                                       (Fin (15 # 100)) (Fin (10 # 100)) (Fin (5 # 100)) |}).
  destruct (compute_score_at_date (ext := Sample.saturated) (Sample.flat_frame 200 100) 199 cfg)
    as [s |] eqn:E; [| vm_compute in E; discriminate].
  specialize (H Sample.saturated cfg (Sample.flat_frame 200 100) 199%Z s).
  destruct H as (q & Hq & _ & Hle).
  - repeat split; intros; exists 1; (split; [reflexivity | split; discriminate]).
  - exact E.
  - vm_compute in E. injection E as <-. cbn in Hq. injection Hq as <-.
    vm_compute in Hle. apply Hle. reflexivity.
Qed.

Section ScoreBound.

Context {ext : Externals}.

(** C3, amended. When the six weights are non-negative and sum to at most
    1, and the six normalisation functions return values of [[0,1]], every
    snapshot has its score in [[0,100]]. *)
Theorem score_bound_normalised (cfg : config_t) (df : list bar) (i : Z) (s : snapshot) :
  normalised_scores ext ->
  normalised_weights (weights cfg) ->
  compute_score_at_date df i cfg = Some s ->
  between 0 100 (score s).
Proof.
  intros (Hd & Hr & Hm50 & Hmo & Ht & Hv) Hw Hs.
  rewrite (score_of_snapshot _ _ _ Hs). unfold spec_score.
  assert (Hc : between 0 1 (weighted_sum (weights cfg)
                              (spec_subscores cfg (spec_indicators (iloc_upto df (i + 1))))))
    by (apply weighted_sum_between; cbn; auto).
  destruct Hc as (c & -> & Hc0 & Hc1). cbn [mul].
  apply (round_between (q := 100 * c) (hi := 100)).
  change (inject_Z 100) with 100. split; lra.
Qed.

End ScoreBound.

(** ** Walk-forward simulator *)

Lemma py_range_positive (start stop step : Z) :
  (0 < step)%Z ->
  exists count : nat,
    py_range start stop step
    = Returned (map (fun k => (start + Z.of_nat k * step)%Z) (seq 0 count)) /\
    (forall k : nat, (k < count)%nat <-> (start + Z.of_nat k * step < stop)%Z).
Proof.
  intros Hstep. unfold py_range.
  destruct (Z.eqb_spec step 0) as [-> | _]; [lia |].
  destruct (Z.ltb_spec 0 step) as [_ | ?]; [| lia].
  eexists. split; [reflexivity |].
  intros k. destruct (Z.ltb_spec start stop) as [Hlt | Hge].
  - pose proof (Z.div_mod (stop - 1 - start) step ltac:(lia)) as Hdm.
    pose proof (Z.mod_pos_bound (stop - 1 - start) step Hstep) as Hmod.
    assert (Hq : (0 <= (stop - 1 - start) / step)%Z) by (apply Z.div_pos; lia).
    split; intros H; nia.
  - change (Z.to_nat 0) with 0%nat. split; intros H; nia.
Qed.

(** Index form of sortedness. *)
Lemma StronglySorted_nth (a : list Z) :
  StronglySorted Z.le a ->
  forall j k : nat, (j <= k < length a)%nat -> (nth j a 0 <= nth k a 0)%Z.
Proof.
  induction 1 as [| x l Hl IH Hx]; intros j k Hjk; simpl in Hjk; [lia |].
  destruct j as [| j], k as [| k]; simpl; try lia.
  - rewrite Forall_forall in Hx. apply Hx, nth_In. lia.
  - apply IH. lia.
Qed.

Lemma StronglySorted_filter (A : Type) (R : A -> A -> Prop) (f : A -> bool) (l : list A) :
  StronglySorted R l -> StronglySorted R (filter f l).
Proof.
  induction 1 as [| x l Hl IH Hx]; simpl; [constructor |].
  destruct (f x); [| assumption].
  constructor; [assumption |].
  rewrite Forall_forall in *. intros y Hy. apply filter_In in Hy. now apply Hx.
Qed.

Lemma StronglySorted_map_filter (f : bar -> bool) (df : list bar) :
  StronglySorted Z.le (map timestamp df) ->
  StronglySorted Z.le (map timestamp (filter f df)).
Proof.
  induction df as [| b df IH]; simpl; intros H; [constructor |].
  apply StronglySorted_inv in H as [Hs Hb].
  destruct (f b); simpl; [| now apply IH].
  constructor; [now apply IH |].
  rewrite Forall_forall in *. intros t Ht.
  apply in_map_iff in Ht as (b' & <- & Hb'). apply filter_In in Hb' as [Hb' _].
  apply Hb. now apply in_map.
Qed.

(** The binary search keeps its invariant and ends on the insertion
    point, provided the fuel covers the interval. *)
Lemma bisect_left_spec (a : list Z) (key : Z) :
  (forall j k : nat, (j <= k < length a)%nat -> (nth j a 0 <= nth k a 0)%Z) ->
  forall (fuel : nat) (lo hi : Z),
    (0 <= lo <= hi)%Z -> (hi <= Z.of_nat (length a))%Z ->
    (hi - lo < Z.of_nat fuel)%Z ->
    (forall j : nat, (Z.of_nat j < lo)%Z -> (nth j a 0 < key)%Z) ->
    (forall j : nat, (hi <= Z.of_nat j < Z.of_nat (length a))%Z -> (key <= nth j a 0)%Z) ->
    let r := bisect_left fuel a key lo hi in
    (lo <= r <= hi)%Z /\
    (forall j : nat, (Z.of_nat j < r)%Z -> (nth j a 0 < key)%Z) /\
    (forall j : nat, (r <= Z.of_nat j < Z.of_nat (length a))%Z -> (key <= nth j a 0)%Z).
Proof.
  intros Hsorted. induction fuel as [| fuel IH]; intros lo hi Hlo Hhi Hfuel Hbelow Habove.
  - lia.
  - cbn [bisect_left]. destruct (Z.ltb_spec lo hi) as [Hlt | Hge].
    + rewrite Z.shiftr_div_pow2 by lia. change (2 ^ 1)%Z with 2%Z.
      set (mid := (lo + (hi - lo) / 2)%Z).
      assert (Hmid : (lo <= mid < hi)%Z).
      { unfold mid. pose proof (Z.div_mod (hi - lo) 2 ltac:(lia)).
        pose proof (Z.mod_pos_bound (hi - lo) 2 ltac:(lia)). lia. }
      destruct (Z.ltb_spec (nth (Z.to_nat mid) a 0%Z) key) as [Hless | Hnotless].
      * destruct (IH (mid + 1)%Z hi) as (Hr & Hb & Ha); try lia.
        -- intros j Hj. apply Z.le_lt_trans with (nth (Z.to_nat mid) a 0%Z); [| assumption].
           apply Hsorted. lia.
        -- assumption.
        -- repeat split; try lia; assumption.
      * destruct (IH lo mid) as (Hr & Hb & Ha); try lia.
        -- assumption.
        -- intros j Hj. apply Z.le_trans with (nth (Z.to_nat mid) a 0%Z); [lia |].
           apply Hsorted. lia.
        -- repeat split; try lia; assumption.
    + assert (lo = hi) by lia. subst hi. repeat split; try lia; assumption.
Qed.

(** On a sorted index, [searchsorted] is the first position whose
    timestamp is not before the key. *)
Lemma searchsorted_spec (a : list Z) (key : Z) :
  Sorted Z.le a ->
  (0 <= searchsorted a key <= Z.of_nat (length a))%Z /\
  (forall j : nat, (Z.of_nat j < searchsorted a key)%Z -> (nth j a 0 < key)%Z) /\
  (forall j : nat, (searchsorted a key <= Z.of_nat j < Z.of_nat (length a))%Z ->
                   (key <= nth j a 0)%Z).
Proof.
  intros Hs. unfold searchsorted.
  apply bisect_left_spec; try lia.
  apply StronglySorted_nth, Sorted_StronglySorted; [| assumption].
  intros x y z; apply Z.le_trans.
Qed.

Section WalkForwardProperties.

Variable engine_score_at_date : list bar -> Z -> option snapshot.
Variable yf_download : string -> Z -> Z -> download_result.

(** What one index contributes: a single record when the engine gives a
    snapshot and the row 30 places ahead exists, nothing otherwise. *)
Lemma signal_at_emits (df : list bar) (i : Z) (s : snapshot) :
  (0 <= i)%Z ->
  engine_score_at_date df i = Some s -> valid_index df (i + 30) ->
  signal_at engine_score_at_date df i = [emitted s (spec_return_30d df i)].
Proof.
  intros Hi Hs [_ Hv]. unfold signal_at. rewrite Hs.
  destruct (Z.ltb_spec (i + 30) (Z.of_nat (length df))); [reflexivity | lia].
Qed.

Lemma signal_at_skips (df : list bar) (i : Z) :
  (0 <= i)%Z ->
  engine_score_at_date df i = None \/ ~ valid_index df (i + 30) ->
  signal_at engine_score_at_date df i = [].
Proof.
  intros Hi H. unfold signal_at.
  destruct (engine_score_at_date df i) as [s |]; [| reflexivity].
  destruct (Z.ltb_spec (i + 30) (Z.of_nat (length df))) as [Hlt | _]; [| reflexivity].
  destruct H as [H | H]; [discriminate |]. exfalso. apply H. split; lia.
Qed.

(** C4. On a downloaded series with an increasing time index and for a
    positive interval, [run_backtest] returns a frame and raises nothing;
    the walk starts at the first index whose timestamp is not before
    [start_date], visits the indices [start_idx + k * interval_days] below
    the length of the series, and emits at a visited index [i] exactly one
    record, with [return_30d = round((close[i+30] - close[i]) / close[i] *
    100, 2)], when the engine gives a snapshot at [i] and [i + 30] is a
    valid index, and no record otherwise. *)
Theorem walk_forward_emission (t : string) (start_date end_date interval_days : Z)
  (df : list bar) :
  (0 < interval_days)%Z ->
  yf_download t (start_date - 400)%Z end_date = Downloaded df ->
  df <> [] ->
  Sorted Z.le (map timestamp df) ->
  let clean := dropna df in
  let n := Z.of_nat (length clean) in
  exists (start_idx : Z) (count : nat) (results : frame),
    run_backtest engine_score_at_date yf_download t start_date end_date interval_days
    = ([(INFO, MsgBacktesting t)], Returned (Some results)) /\
    (0 <= start_idx <= n)%Z /\
    (forall j : Z, (0 <= j < start_idx)%Z -> (timestamp_at clean j < start_date)%Z) /\
    (forall j : Z, (start_idx <= j < n)%Z -> (start_date <= timestamp_at clean j)%Z) /\
    (forall k : nat, (k < count)%nat <-> (start_idx + Z.of_nat k * interval_days < n)%Z) /\
    results = flat_map (fun k => signal_at engine_score_at_date clean
                                   (start_idx + Z.of_nat k * interval_days)%Z)
                       (seq 0 count) /\
    forall i : Z, (start_idx <= i)%Z ->
      (forall s, engine_score_at_date clean i = Some s -> valid_index clean (i + 30) ->
                 signal_at engine_score_at_date clean i = [emitted s (spec_return_30d clean i)]) /\
      (engine_score_at_date clean i = None \/ ~ valid_index clean (i + 30) ->
       signal_at engine_score_at_date clean i = []).
Proof.
  intros Hstep Hdl Hne Hsorted clean n.
  assert (Hclean : Sorted Z.le (map timestamp clean)).
  { apply StronglySorted_Sorted, StronglySorted_map_filter, Sorted_StronglySorted;
      [intros x y z; apply Z.le_trans | assumption]. }
  destruct (searchsorted_spec start_date Hclean) as (Hrange & Hbelow & Habove).
  rewrite length_map in Hrange, Habove.
  destruct (py_range_positive (searchsorted (map timestamp clean) start_date) n Hstep)
    as (count & Hrng & Hcount).
  exists (searchsorted (map timestamp clean) start_date), count.
  eexists. split; [| split; [exact Hrange | split; [| split; [| split; [exact Hcount | split]]]]].
  - unfold run_backtest. rewrite Hdl.
    destruct df as [| b df']; [contradiction |].
    unfold simulate. fold clean. fold n. rewrite Hrng.
    rewrite flat_map_concat_map, map_map, <- flat_map_concat_map. reflexivity.
  - intros j Hj. unfold timestamp_at. apply Hbelow. lia.
  - intros j Hj. unfold timestamp_at. apply Habove. lia.
  - reflexivity.
  - intros i Hi. split.
    + intros s Hs Hv. apply signal_at_emits; [lia | assumption | assumption].
    + intros H. apply signal_at_skips; [lia | assumption].
Qed.

End WalkForwardProperties.

(** The legacy [backtest_ticker] is the same walk, scored by
    [compute_score_at_date], with an interval of 7 rows. *)
Lemma backtest_ticker_walk {ext : Externals}
  (yf_download : string -> Z -> Z -> download_result)
  (t : string) (cfg : config_t) (start_date end_date : Z) (df : list bar) :
  yf_download t (start_date - 400)%Z end_date = Downloaded df ->
  df <> [] ->
  backtest_ticker yf_download t cfg start_date end_date
  = snd (run_backtest (fun df i => compute_score_at_date df i cfg) yf_download
                      t start_date end_date 7).
Proof.
  intros Hdl Hne. unfold backtest_ticker, run_backtest. rewrite Hdl.
  destruct df as [| b df]; [contradiction |].
  now destruct (simulate _ _ _ _).
Qed.

(** ** Multi-ticker run *)

Section MultiTickerProperties.

Context {stats : Stats}.
Variable engine_score_at_date : list bar -> Z -> option snapshot.
Variable yf_download : string -> Z -> Z -> download_result.

Local Notation "'run'" := (run_default engine_score_at_date yf_download).
Local Notation "'single'" := (single_run engine_score_at_date yf_download).
Local Notation "'added'" := (added_frames engine_score_at_date yf_download).

(** With the default interval a single run never raises. *)
Lemma run_backtest_returns (t : string) (start_date end_date : Z) :
  exists r, snd (run t start_date end_date) = Returned r.
Proof.
  unfold run_default, run_backtest.
  destruct (yf_download t (start_date - 400)%Z end_date) as [| [| b df]];
    [eexists; reflexivity .. |].
  unfold simulate.
  destruct (py_range_positive
              (searchsorted (map timestamp (dropna (b :: df))) start_date)
              (Z.of_nat (length (dropna (b :: df)))) (step := 7) ltac:(lia))
    as (count & -> & _).
  eexists; reflexivity.
Qed.

Lemma core_columns_analyzed (f : frame) :
  map core_columns (snd (analyze_results f)) = map core_columns f.
Proof.
  destruct f as [| r f]; [reflexivity |].
  unfold analyze_results. cbn [snd]. unfold assign_score_category.
  now rewrite map_map.
Qed.

Lemma core_columns_tagged (t : string) (f : frame) :
  map core_columns (set_ticker t f) = map (fun r => (Some t, snap r, return_30d r)) f.
Proof. unfold set_ticker. now rewrite map_map. Qed.

Lemma multi_step_spec (start_date end_date : Z) (s : multi_state) (t : string) :
  exists s',
    multi_step engine_score_at_date yf_download start_date end_date (Returned s) t
    = Returned s' /\
    ms_log s' = ms_log s ++ fst (run t start_date end_date) /\
    all_results s' = all_results s ++ added start_date end_date t.
Proof.
  unfold multi_step, added_frames, single_run.
  fold (run t start_date end_date).
  destruct (run_backtest_returns t start_date end_date) as (r & Hr).
  destruct (run t start_date end_date) as [lg res]. cbn [fst snd] in *. subst res.
  destruct r as [[| r0 results] |].
  - eexists. split; [reflexivity |]. cbn. now rewrite app_nil_r.
  - destruct (analyze_results (set_ticker t (r0 :: results))) as [an f] eqn:E.
    eexists. split; [reflexivity |]. cbn [ms_log all_results snd]. now split.
  - eexists. split; [reflexivity |]. cbn. now rewrite app_nil_r.
Qed.

Lemma multi_loop_spec (start_date end_date : Z) (tickers : list string) (s : multi_state) :
  exists s',
    fold_left (multi_step engine_score_at_date yf_download start_date end_date)
              tickers (Returned s) = Returned s' /\
    ms_log s' = ms_log s ++ flat_map (fun t => fst (run t start_date end_date)) tickers /\
    all_results s' = all_results s ++ flat_map (added start_date end_date) tickers.
Proof.
  revert s. induction tickers as [| t tickers IH]; intros s.
  - exists s. cbn. now rewrite !app_nil_r.
  - destruct (multi_step_spec start_date end_date s t) as (s1 & E1 & L1 & R1).
    destruct (IH s1) as (s2 & E2 & L2 & R2).
    exists s2. cbn [fold_left flat_map]. rewrite E1, E2.
    split; [reflexivity |]. rewrite L2, R2, L1, R1, <- !app_assoc. now split.
Qed.

Lemma core_columns_added (start_date end_date : Z) (tickers : list string) :
  map core_columns (concat (flat_map (added start_date end_date) tickers))
  = flat_map (fun t => map (fun r => (Some t, snap r, return_30d r))
                           (single t start_date end_date)) tickers.
Proof.
  induction tickers as [| t tickers IH]; [reflexivity |].
  cbn [flat_map]. rewrite concat_app, map_app, IH. f_equal.
  unfold added_frames. destruct (single t start_date end_date) as [| r0 results]; [reflexivity |].
  cbn [concat]. now rewrite app_nil_r, core_columns_analyzed, core_columns_tagged.
Qed.

Lemma run_backtest_logs_failure (t : string) (start_date end_date : Z) :
  (yf_download t (start_date - 400)%Z end_date = DownloadRaises ->
   In (ERROR, MsgDownloadError t) (fst (run t start_date end_date))) /\
  (yf_download t (start_date - 400)%Z end_date = Downloaded [] ->
   In (WARNING, MsgNoData t) (fst (run t start_date end_date))).
Proof.
  unfold run_default, run_backtest. split; intros ->; cbn; auto.
Qed.

(** [run_multi_ticker_backtest] never aborts on a download that raises or
    comes back empty: it returns, the failed ticker is reported in the log,
    and the combined frame holds, for each ticker in turn, exactly the
    records of its single-ticker run, tagged with the ticker. *)
Lemma run_multi_ticker_backtest_isolates (tickers : list string) (start_date end_date : Z) :
  exists (lg : log) (combined : option frame) (analyses : list (string * option analysis)),
    run_multi_ticker_backtest engine_score_at_date yf_download tickers start_date end_date
    = Returned (lg, (combined, analyses)) /\
    map core_columns (frame_of combined)
    = flat_map (fun t => map (fun r => (Some t, snap r, return_30d r))
                             (single t start_date end_date)) tickers /\
    (forall t, In t tickers ->
       (yf_download t (start_date - 400)%Z end_date = DownloadRaises ->
        In (ERROR, MsgDownloadError t) lg /\ single t start_date end_date = []) /\
       (yf_download t (start_date - 400)%Z end_date = Downloaded [] ->
        In (WARNING, MsgNoData t) lg /\ single t start_date end_date = [])).
Proof.
  destruct (multi_loop_spec start_date end_date tickers
              {| ms_log := []; all_results := []; all_analyses := [] |})
    as (s & E & L & R).
  cbn [ms_log all_results] in L, R. rewrite app_nil_l in L, R.
  assert (Hlog : forall t, In t tickers ->
     (yf_download t (start_date - 400)%Z end_date = DownloadRaises ->
      In (ERROR, MsgDownloadError t) (ms_log s) /\ single t start_date end_date = []) /\
     (yf_download t (start_date - 400)%Z end_date = Downloaded [] ->
      In (WARNING, MsgNoData t) (ms_log s) /\ single t start_date end_date = [])).
  { intros t Ht. rewrite L.
    destruct (run_backtest_logs_failure t start_date end_date) as [H1 H2].
    split; intros Hd; (split;
      [ apply in_flat_map; exists t; split; [assumption | auto]
      | unfold single_run, run_default, run_backtest; now rewrite Hd ]). }
  pose proof (core_columns_added start_date end_date tickers) as Hcore.
  rewrite <- R in Hcore.
  unfold run_multi_ticker_backtest. rewrite E.
  destruct (all_results s) as [| f fs] eqn:Eres.
  - exists (ms_log s), None, []. split; [reflexivity |]. split; [exact Hcore | exact Hlog].
  - destruct (analyze_results (concat (f :: fs))) as [an combined] eqn:Ean.
    exists (ms_log s), (Some combined), (dict_set "_global" an (all_analyses s)).
    split; [reflexivity |]. split; [| exact Hlog].
    cbn [frame_of]. rewrite <- Hcore.
    change combined with (snd (an, combined)). rewrite <- Ean.
    apply core_columns_analyzed.
Qed.

End MultiTickerProperties.

(** *** The script's loop *)

Lemma core_columns_script_analyzed (f : frame) :
  map core_columns (Script.analyze_results f) = map core_columns f.
Proof.
  destruct f as [| r f]; [reflexivity |].
  unfold Script.analyze_results, assign_score_category. now rewrite map_map.
Qed.

(** [backtest_ticker] raises exactly when the download does. *)
Lemma backtest_ticker_outcome {ext : Externals}
  (yf_download : string -> Z -> Z -> download_result)
  (t : string) (cfg : config_t) (start_date end_date : Z) :
  match yf_download t (start_date - 400)%Z end_date with
  | DownloadRaises =>
      backtest_ticker yf_download t cfg start_date end_date = Raised DownloadFailure
  | Downloaded _ =>
      exists r, backtest_ticker yf_download t cfg start_date end_date = Returned r
  end.
Proof.
  unfold backtest_ticker.
  destruct (yf_download t (start_date - 400)%Z end_date) as [| [| b df]];
    [reflexivity | eexists; reflexivity |].
  unfold simulate.
  destruct (py_range_positive
              (searchsorted (map timestamp (dropna (b :: df))) start_date)
              (Z.of_nat (length (dropna (b :: df)))) (step := 7) ltac:(lia))
    as (count & -> & _).
  eexists; reflexivity.
Qed.

Lemma main_step_returns {ext : Externals}
  (yf_download : string -> Z -> Z -> download_result)
  (cfg : config_t) (start_date end_date : Z) (acc : list frame) (t : string) :
  yf_download t (start_date - 400)%Z end_date <> DownloadRaises ->
  Script.main_step yf_download cfg start_date end_date acc t
  = Returned (acc ++ script_added_frames yf_download cfg start_date end_date t).
Proof.
  intros Hok. unfold Script.main_step, script_added_frames, script_single_run.
  pose proof (backtest_ticker_outcome yf_download t cfg start_date end_date) as H.
  destruct (yf_download t (start_date - 400)%Z end_date); [contradiction |].
  destruct H as (r & ->). cbn [bind].
  destruct r as [[| r0 results] |]; [| reflexivity |]; now rewrite app_nil_r.
Qed.

Lemma main_loop_returns {ext : Externals}
  (yf_download : string -> Z -> Z -> download_result)
  (cfg : config_t) (start_date end_date : Z) (tickers : list string) :
  (forall t, In t tickers -> yf_download t (start_date - 400)%Z end_date <> DownloadRaises) ->
  forall acc,
    Script.main_loop yf_download cfg start_date end_date tickers acc
    = Returned (acc ++ flat_map (script_added_frames yf_download cfg start_date end_date)
                                tickers).
Proof.
  induction tickers as [| t tickers IH]; intros Hok acc.
  - cbn. now rewrite app_nil_r.
  - cbn [Script.main_loop flat_map].
    rewrite main_step_returns by (apply Hok; now left). cbn [bind].
    rewrite IH by (intros t' Ht'; apply Hok; now right).
    now rewrite <- app_assoc.
Qed.

(** The loop is left at the first ticker whose download raises, whatever
    the tickers before it gave. *)
Lemma main_loop_raises {ext : Externals}
  (yf_download : string -> Z -> Z -> download_result)
  (cfg : config_t) (start_date end_date : Z) (tickers : list string) :
  (exists t, In t tickers /\ yf_download t (start_date - 400)%Z end_date = DownloadRaises) ->
  forall acc,
    Script.main_loop yf_download cfg start_date end_date tickers acc
    = Raised DownloadFailure.
Proof.
  induction tickers as [| t tickers IH]; intros (t0 & Hin & Hraise) acc;
    [contradiction |].
  cbn [Script.main_loop].
  destruct (yf_download t (start_date - 400)%Z end_date) as [| df] eqn:Hd.
  - unfold Script.main_step.
    pose proof (backtest_ticker_outcome yf_download t cfg start_date end_date) as H.
    rewrite Hd in H. now rewrite H.
  - rewrite main_step_returns by (rewrite Hd; discriminate). cbn [bind].
    apply IH. exists t0. split; [| exact Hraise].
    destruct Hin as [-> | Hin]; [congruence | exact Hin].
Qed.

Lemma core_columns_script_added {ext : Externals}
  (yf_download : string -> Z -> Z -> download_result)
  (cfg : config_t) (start_date end_date : Z) (tickers : list string) :
  map core_columns
      (concat (flat_map (script_added_frames yf_download cfg start_date end_date) tickers))
  = flat_map (fun t => map (fun r => (Some t, snap r, return_30d r))
                           (script_single_run yf_download cfg t start_date end_date))
             tickers.
Proof.
  induction tickers as [| t tickers IH]; [reflexivity |].
  cbn [flat_map]. rewrite concat_app, map_app, IH. f_equal.
  unfold script_added_frames.
  destruct (script_single_run yf_download cfg t start_date end_date) as [| r0 results];
    [reflexivity |].
  cbn [concat]. rewrite app_nil_r, core_columns_script_analyzed.
  unfold set_ticker. now rewrite map_map.
Qed.

(** C9. The isolation holds in [BacktestEngine.run_multi_ticker_backtest]
    and not in the script: the engine never aborts on a download that raises
    or comes back empty, reports the failed ticker in the log, and its
    combined frame holds, for each ticker in turn, exactly the records of its
    single-ticker run, tagged with the ticker; the script does the same as
    long as no download raises (an empty result is skipped), but a download
    that raises for any one ticker aborts its whole run, and nothing is
    written for the other tickers. *)
Theorem multi_ticker_isolation {stats : Stats} {ext : Externals}
  (engine_score_at_date : list bar -> Z -> option snapshot)
  (yf_download : string -> Z -> Z -> download_result)
  (cfg : config_t) (tickers : list string) (start_date end_date : Z) :
  (exists (lg : log) (combined : option frame) (analyses : list (string * option analysis)),
     run_multi_ticker_backtest engine_score_at_date yf_download tickers start_date end_date
     = Returned (lg, (combined, analyses)) /\
     map core_columns (frame_of combined)
     = flat_map (fun t => map (fun r => (Some t, snap r, return_30d r))
                              (single_run engine_score_at_date yf_download
                                          t start_date end_date)) tickers /\
     (forall t, In t tickers ->
        (yf_download t (start_date - 400)%Z end_date = DownloadRaises ->
         In (ERROR, MsgDownloadError t) lg /\
         single_run engine_score_at_date yf_download t start_date end_date = []) /\
        (yf_download t (start_date - 400)%Z end_date = Downloaded [] ->
         In (WARNING, MsgNoData t) lg /\
         single_run engine_score_at_date yf_download t start_date end_date = []))) /\
  ((forall t, In t tickers ->
      yf_download t (start_date - 400)%Z end_date <> DownloadRaises) ->
   exists combined : option frame,
     Script.main yf_download cfg tickers start_date end_date = Returned combined /\
     map core_columns (frame_of combined)
     = flat_map (fun t => map (fun r => (Some t, snap r, return_30d r))
                              (script_single_run yf_download cfg t start_date end_date))
                tickers /\
     (forall t, In t tickers ->
        yf_download t (start_date - 400)%Z end_date = Downloaded [] ->
        script_single_run yf_download cfg t start_date end_date = [])) /\
  ((exists t, In t tickers /\
              yf_download t (start_date - 400)%Z end_date = DownloadRaises) ->
   Script.main yf_download cfg tickers start_date end_date = Raised DownloadFailure).
Proof.
  split; [apply run_multi_ticker_backtest_isolates |]. split.
  - intros Hok. unfold Script.main.
    rewrite (@main_loop_returns ext yf_download cfg start_date end_date tickers Hok []). cbn [bind app].
    pose proof (core_columns_script_added yf_download cfg start_date end_date tickers)
      as Hcore.
    assert (Hempty : forall t, In t tickers ->
              yf_download t (start_date - 400)%Z end_date = Downloaded [] ->
              script_single_run yf_download cfg t start_date end_date = []).
    { intros t _ Hd. unfold script_single_run, backtest_ticker. now rewrite Hd. }
    destruct (flat_map (script_added_frames yf_download cfg start_date end_date) tickers)
      as [| f fs].
    + exists None. split; [reflexivity |]. split; [exact Hcore | exact Hempty].
    + exists (Some (concat (f :: fs))). split; [reflexivity |].
      split; [exact Hcore | exact Hempty].
  - intros Hraise. unfold Script.main.
    now rewrite (@main_loop_raises ext yf_download cfg start_date end_date tickers Hraise []).
Qed.

(** ** Weight profiles *)

Lemma dict_get_set_same (A : Type) (k : string) (v : A) (d : list (string * A)) :
  dict_get k (dict_set k v d) = Some v.
Proof.
  induction d as [| [k' v'] d IH]; simpl.
  - now rewrite String.eqb_refl.
  - destruct (String.eqb k k') eqn:E; simpl; rewrite ?String.eqb_refl, ?E; auto.
Qed.

Lemma dict_get_set_other (A : Type) (k k' : string) (v : A) (d : list (string * A)) :
  k <> k' -> dict_get k (dict_set k' v d) = dict_get k d.
Proof.
  intros Hne. induction d as [| [k0 v0] d IH]; simpl.
  - destruct (String.eqb_spec k k'); [contradiction | reflexivity].
  - destruct (String.eqb_spec k' k0) as [-> | Hk0]; simpl.
    + destruct (String.eqb_spec k k0); [contradiction | reflexivity].
    + destruct (String.eqb_spec k k0); [reflexivity | assumption].
Qed.

Lemma load_weight_set (weights : list (string * float)) (name : string) (w : float)
  (now : Z) (f : formula_row) :
  load_weight (dict_set name w weights) now f
  = if String.eqb (f_name f) name then reweighted w now (load_weight weights now f)
    else load_weight weights now f.
Proof.
  unfold load_weight. destruct (String.eqb_spec (f_name f) name) as [<- | Hne].
  - rewrite dict_get_set_same. now destruct (dict_get (f_name f) weights).
  - now rewrite dict_get_set_other.
Qed.

(** The loop of [UPDATE formulas] statements amounts to loading, into each
    formula row, the weight that the profile's dictionary gives it. *)
Lemma update_loop_load (now : Z) (rows : list profile_weight_row)
  (weights : list (string * float)) (formulas : list formula_row) :
  fold_left (fun fs r => update_formula_weight (pw_weight r) (pw_formula_name r) now fs)
            rows (map (load_weight weights now) formulas)
  = map (load_weight
           (fold_left (fun ws r => dict_set (pw_formula_name r) (pw_weight r) ws) rows weights)
           now) formulas.
Proof.
  revert weights. induction rows as [| r rows IH]; intros weights; [reflexivity |].
  cbn [fold_left]. rewrite <- IH. f_equal.
  unfold update_formula_weight. rewrite map_map. apply map_ext. intros f.
  rewrite load_weight_set.
  assert (Hname : f_name (load_weight weights now f) = f_name f).
  { unfold load_weight. now destruct (dict_get (f_name f) weights). }
  unfold reweighted. rewrite Hname. reflexivity.
Qed.

Lemma set_active_profile_formulas (profile_id now : Z) (d : database) :
  formulas_table (set_active_profile profile_id now d)
  = map (load_weight (get_profile_weights profile_id d) now) (formulas_table d).
Proof.
  unfold set_active_profile, get_profile_weights. cbn [formulas_table].
  rewrite <- update_loop_load. f_equal.
  rewrite <- (map_id (formulas_table d)) at 1. apply map_ext. reflexivity.
Qed.

Lemma set_active_profile_profiles (profile_id now : Z) (d : database) (p : profile_row) :
  In p (weight_profiles_table (set_active_profile profile_id now d)) ->
  (p_is_active p = true <-> p_id p = profile_id).
Proof.
  unfold set_active_profile. cbn [weight_profiles_table]. rewrite map_map.
  intros Hin. apply in_map_iff in Hin as (q & <- & _).
  unfold activate, deactivate. cbn [p_id].
  destruct (Z.eqb_spec (p_id q) profile_id) as [E | E]; cbn; split; auto; discriminate.
Qed.

(** C7, as stated, fails on its last clause: activating profile 1 at time
    20 rewrites [updated_at] of the formula [rsi14], which the profile
    names, from 10 to 20. *)
Lemma profile_activation_counterexample :
  ~ activation_frame_as_stated one_profile_db 1 20.
Proof.
  intros [_ H].
  destruct (H 0%nat
              (mkFormulaRow "rsi14" "score_rsi(rsi14)" (Fin (25 # 100)) "" 10)
              (mkFormulaRow "rsi14" "score_rsi(rsi14)" (Fin (50 # 100)) "" 20)
              eq_refl eq_refl)
    as (_ & _ & _ & _ & Hupd).
  discriminate Hupd.
Qed.

(** C7, amended. After [set_active_profile(P)] for an existing profile,
    [P] is active and no other profile is; every formula row keeps its name,
    formula and description; a formula named in the saved weights of [P]
    has the recorded weight and a refreshed [updated_at]; a formula not
    named in [P] is unchanged, weight included; the other tables are
    untouched. *)
Theorem profile_activation_frame (d : database) (profile_id now : Z) :
  profile_exists profile_id d ->
  let d' := set_active_profile profile_id now d in
  (exists p, In p (weight_profiles_table d') /\ p_id p = profile_id /\ p_is_active p = true) /\
  (forall p, In p (weight_profiles_table d') -> (p_is_active p = true <-> p_id p = profile_id)) /\
  (forall n f, nth_error (formulas_table d) n = Some f ->
     exists f', nth_error (formulas_table d') n = Some f' /\
       f_name f' = f_name f /\ f_formula f' = f_formula f /\
       f_description f' = f_description f /\
       match dict_get (f_name f) (get_profile_weights profile_id d) with
       | Some w => f_weight f' = w /\ f_updated_at f' = now
       | None => f' = f
       end) /\
  length (formulas_table d') = length (formulas_table d) /\
  config_table d' = config_table d /\
  tickers_table d' = tickers_table d /\
  profile_weights_table d' = profile_weights_table d.
Proof.
  intros (p & Hp & Hid) d'. subst d'.
  split; [| split; [| split; [| split; [| now repeat split]]]].
  - exists (activate profile_id now (deactivate p)).
    unfold set_active_profile. cbn [weight_profiles_table]. rewrite map_map.
    split; [apply in_map_iff; now exists p |].
    unfold activate, deactivate. cbn [p_id]. rewrite Hid, Z.eqb_refl. now split.
  - apply set_active_profile_profiles.
  - intros n f Hn. rewrite set_active_profile_formulas.
    exists (load_weight (get_profile_weights profile_id d) now f).
    split; [now apply map_nth_error |].
    unfold load_weight.
    destruct (dict_get (f_name f) (get_profile_weights profile_id d)); cbn; auto.
  - rewrite set_active_profile_formulas. apply length_map.
Qed.

(** ** Results analyzer *)

(** C5. The bands of [pd.cut] are [(0,45]], [(45,55]] and [(55,100]]: a
    score of 45 is grouped under the label "Défavorable (<45)" and a score
    of 0 under no label, while the detail breakdowns use [score < 45] and
    [score > 55].  On a frame with one record of score 45 (return 1) and
    one of score 0 (return 2), the grouped statistics count the first as
    unfavorable and the unfavorable breakdown counts the second. *)
Theorem banding_at_the_edges {stats : Stats} (s : snapshot) :
  cut score_bins score_labels (Fin 45) = Some Unfavorable /\
  cut score_bins score_labels (Fin 0) = None /\
  cut score_bins score_labels (Fin 55) = Some Neutral /\
  cut score_bins score_labels (Fin 100) = Some Favorable /\
  let at_score x := mkSnapshot (date s) (Fin x) (close s) (rsi14 s) (ma50 s) (ma200 s) in
  let results := [emitted (at_score 45) (Fin 1); emitted (at_score 0) (Fin 2)] in
  exists a,
    fst (analyze_results results) = Some a /\
    map (fun g => (fst g, cat_count (snd g), cat_mean (snd g))) (by_category a)
    = [(Unfavorable, 1%nat, Fin 1); (Neutral, 0%nat, NaN); (Favorable, 0%nat, NaN)] /\
    option_map (fun u => (unf_count u, unf_mean_return u)) (unfavorable a)
    = Some (1%nat, Fin 2) /\
    map score_category (snd (analyze_results results))
    = [Some (Some Unfavorable); Some None].
Proof.
  repeat (split; [reflexivity |]).
  intros at_score results. eexists. split; [reflexivity |].
  split; [| split]; vm_compute; reflexivity.
Qed.

(** ** Configuration resolver *)

(** C6. A stored string that is not JSON is kept under the key as it is
    written, dots included, at the top level of the configuration: it is
    not merged at the nested path, and [get_config_value] does not find
    it.  A decoded value is merged: ["weights.rsi14" = 0.5] gives
    [weights.rsi14 = 0.5] and leaves the five other default weights. *)
Theorem dotted_raw_override_stays_flat :
  let st := config_store [("weights.rsi14", "0.5"); ("weights.note", "high-beta")]%string in
  let file := YamlLoaded (VDict []) in
  exists d w,
    get_config (json := Sample.json) file st = ([], Returned (VDict d)) /\
    dict_get "weights.note" d = Some (VStr "high-beta") /\
    dict_get "weights" d = Some (VDict w) /\
    dict_get "note" w = None /\
    get_config_value (json := Sample.json) file st "weights.note" VNone = Returned VNone /\
    get_config_value (json := Sample.json) file st "weights.rsi14" VNone
    = Returned (decimal 5 10) /\
    map fst w = ["drawdown90"; "rsi14"; "dist_ma50"; "momentum30"; "trend_ma200";
                 "volatility20"]%string /\
    map (fun k => dict_get k w) ["drawdown90"; "dist_ma50"; "momentum30"; "trend_ma200";
                                 "volatility20"]%string
    = [Some (decimal 25 100); Some (decimal 20 100); Some (decimal 15 100);
       Some (decimal 10 100); Some (decimal 5 100)].
Proof.
  intros st file. eexists. eexists.
  split; [vm_compute; reflexivity |].
  repeat split; vm_compute; reflexivity.
Qed.

Lemma lower_precedence_of_empty_file :
  lower_precedence (YamlLoaded (VDict [])) = Returned defaults_only.
Proof. vm_compute. reflexivity. Qed.

(** C8, as stated, fails: with the rows [drawdown_cap = 0.5] and
    [drawdown_cap.x = 1], the second row raises ([0.5] is not a mapping) and
    the resolution stops, but the first override stays in the result. *)
Lemma store_failure_counterexample :
  ~ degradation_as_stated (json := Sample.json) (YamlLoaded (VDict []))
      (config_store [("drawdown_cap", "0.5"); ("drawdown_cap.x", "1")]%string).
Proof.
  intros H.
  destruct (H defaults_only lower_precedence_of_empty_file) as (lg & cfg & Hget & Hfail).
  assert (Hcfg : cfg = defaults_only) by (apply Hfail; vm_compute; reflexivity).
  subst cfg.
  assert (Hlook :
            match snd (get_config (json := Sample.json) (YamlLoaded (VDict []))
                         (config_store [("drawdown_cap", "0.5");
                                        ("drawdown_cap.x", "1")]%string)) with
            | Returned c => lookup "drawdown_cap" VNone c
            | Raised _ => VNone
            end = lookup "drawdown_cap" VNone defaults_only)
    by (now rewrite Hget).
  vm_compute in Hlook. discriminate Hlook.
Qed.

Section ResolverProperties.

Context {json : Json}.

Lemma apply_rows_app (config : value) (rows1 rows2 : list config_row) :
  apply_rows config (rows1 ++ rows2)
  = match apply_rows config rows1 with
    | (config1, None) => apply_rows config1 rows2
    | (config1, Some e) => (config1, Some e)
    end.
Proof.
  revert config. induction rows1 as [| r rows1 IH]; intros config; [reflexivity |].
  simpl. destruct (apply_row config (c_key r) (c_value r)); [reflexivity | apply IH].
Qed.

(** When the loop is left by an exception, it is the exception of the
    first row that raises, and the configuration is the one that the rows
    before that row have built. *)
Lemma apply_rows_first_failure (config : value) (rows : list config_row)
  (c1 : value) (e : exn) :
  apply_rows config rows = (c1, Some e) ->
  exists n r,
    nth_error rows n = Some r /\
    apply_rows config (firstn n rows) = (c1, None) /\
    apply_row c1 (c_key r) (c_value r) = Raised e.
Proof.
  revert config. induction rows as [| r rows IH]; intros config; [discriminate |].
  cbn [apply_rows].
  destruct (apply_row config (c_key r) (c_value r)) as [e' | config'] eqn:E.
  - intros H. injection H as <- <-. exists 0%nat, r. now repeat split.
  - intros H. destruct (IH config' H) as (n & r' & Hnth & Hpre & Hrow).
    exists (S n), r'. split; [exact Hnth |]. split; [| exact Hrow].
    cbn [firstn apply_rows]. now rewrite E.
Qed.

(** C8, amended. Whatever the state of the store, [get_config] returns a
    configuration once the static file has given the lower-precedence one;
    a failed access is logged; when the connection or the read of the
    [config] table fails the result is the lower-precedence configuration;
    when a later access fails nothing is rolled back, and the result is
    fixed by the place of the failure: if a row of [config] raises, it is
    the configuration built by all the rows before the first row that
    raises; if the rows all apply and the formulas cannot be read, it is the
    configuration built by all the rows; if the formulas were read and the
    tickers cannot be, it is that configuration with the formulas in it. *)
Theorem store_failure_degradation (f : yaml_file) (st : store) (c0 : value) :
  lower_precedence f = Returned c0 ->
  exists lg cfg,
    get_config f st = (lg, Returned cfg) /\
    (store_failed st c0 = true -> In (ERROR, MsgDbReadError) lg) /\
    (connects st = false \/ readable st TConfig = false ->
     store_failed st c0 = true /\ cfg = c0) /\
    (store_failed st c0 = true ->
     connects st = true -> readable st TConfig = true ->
     (exists n r c1 e,
        nth_error (config_table (data st)) n = Some r /\
        apply_rows c0 (firstn n (config_table (data st))) = (c1, None) /\
        apply_row c1 (c_key r) (c_value r) = Raised e /\
        cfg = c1) \/
     (exists c1,
        apply_rows c0 (config_table (data st)) = (c1, None) /\
        ((cfg = c1 /\
          (readable st TFormulas = false \/
           exists e, formulas_block (formulas_table (data st)) c1 = Raised e)) \/
         (exists c2,
            readable st TFormulas = true /\
            formulas_block (formulas_table (data st)) c1 = Returned c2 /\
            cfg = c2 /\
            (readable st TTickers = false \/
             exists e, tickers_block (tickers_table (data st)) c2 = Raised e))))).
Proof.
  unfold lower_precedence, get_config, store_failed. intros Hc0.
  destruct (load_yaml_config f) as [lg cfg0]. cbn [snd] in Hc0. rewrite Hc0.
  destruct (db_overrides st c0) as [cfg failed] eqn:Hdb.
  exists (if failed then lg ++ [(ERROR, MsgDbReadError)] else lg), cfg.
  split; [reflexivity |]. cbn [snd]. split; [| split].
  - intros ->. apply in_or_app. right. now left.
  - intros Hbroken. unfold db_overrides in Hdb.
    destruct (connects st); cbn [negb] in Hdb; [| now injection Hdb as <- <-].
    destruct Hbroken as [Hbroken | Hbroken]; [discriminate |].
    rewrite Hbroken in Hdb. cbn [negb] in Hdb. now injection Hdb as <- <-.
  - intros -> Hconn Hread. unfold db_overrides in Hdb.
    rewrite Hconn, Hread in Hdb. cbn [negb] in Hdb.
    destruct (apply_rows c0 (config_table (data st))) as [c1 [e |]] eqn:Hrows.
    + injection Hdb as <-. left.
      destruct (apply_rows_first_failure _ _ Hrows) as (n & r & Hnth & Hpre & Hrow).
      exists n, r, c1, e. now repeat split.
    + right. exists c1. split; [reflexivity |].
      unfold tables_overrides in Hdb.
      destruct (readable st TFormulas); cbn [negb] in Hdb;
        [| injection Hdb as <-; left; split; [reflexivity | now left]].
      destruct (formulas_block (formulas_table (data st)) c1) as [e | c2] eqn:Hf;
        [injection Hdb as <-; left; split; [reflexivity | right; now exists e] |].
      right. exists c2. split; [reflexivity |]. split; [reflexivity |].
      destruct (readable st TTickers); cbn [negb] in Hdb;
        [| injection Hdb as <-; split; [reflexivity | now left]].
      destruct (tickers_block (tickers_table (data st)) c2) as [e | c3] eqn:Ht;
        [injection Hdb as <-; split; [reflexivity | right; now exists e]
        | discriminate Hdb].
Qed.

End ResolverProperties.

(** ** Set/get round trip *)

Lemma split_nonempty (sep : ascii) (s : string) : split sep s <> [].
Proof.
  destruct s as [| c s]; simpl; [discriminate |].
  destruct (Ascii.eqb c sep); [discriminate |].
  destruct (split sep s); discriminate.
Qed.

Lemma split_without_sep (sep : ascii) (s : string) :
  contains sep s = false -> split sep s = [s].
Proof.
  induction s as [| c s IH]; simpl; [reflexivity |].
  destruct (Ascii.eqb c sep); [discriminate |]. simpl.
  intros H. now rewrite (IH H).
Qed.

Lemma split_parts_without_sep (sep : ascii) (s : string) :
  Forall (fun p => contains sep p = false) (split sep s).
Proof.
  induction s as [| c s IH]; simpl; [now repeat constructor |].
  destruct (Ascii.eqb c sep) eqn:E; [now constructor |].
  destruct (split sep s) as [| p ps].
  - constructor; [simpl; now rewrite E | constructor].
  - inversion IH as [| ? ? Hp Hps]; subst. constructor; [| assumption].
    simpl. now rewrite E.
Qed.

(** The first part of a dotted key is not the key itself. *)
Lemma split_head_differs (sep : ascii) (s : string) :
  contains sep s = true -> hd EmptyString (split sep s) <> s.
Proof.
  intros Hs Heq. pose proof (split_parts_without_sep sep s) as Hall.
  destruct (split sep s) as [| p ps]; simpl in Heq.
  - subst s. discriminate.
  - inversion Hall as [| ? ? Hp _]; subst. congruence.
Qed.

Lemma get_nested_empty_dict (parts : list string) :
  parts <> [] -> get_nested parts (VDict []) = None.
Proof. destruct parts; [contradiction | reflexivity]. Qed.

(** Along a path whose proper prefixes are absent or mappings, the nested
    assignment succeeds, and the walk of [get_config_value] then finds the
    value. *)
Lemma set_nested_get (v : value) (parts : list string) :
  parts <> [] ->
  forall d, proper_prefixes_ok parts (VDict d) ->
  exists d', set_nested parts v (VDict d) = Returned (VDict d') /\
             get_nested parts (VDict d') = Some v /\
             forall k, k <> hd EmptyString parts -> dict_get k d' = dict_get k d.
Proof.
  induction parts as [| part rest IH]; intros Hne d Hok; [contradiction |].
  destruct rest as [| part' rest'].
  - exists (dict_set part v d). cbn. rewrite dict_get_set_same.
    repeat split. intros k Hk. now apply dict_get_set_other.
  - assert (Hchild : exists c, (match dict_get part d with Some c => c | None => VDict [] end)
                               = VDict c).
    { specialize (Hok 1%nat ltac:(cbn; lia)). cbn in Hok.
      destruct (dict_get part d) as [[] |]; cbn in Hok; try discriminate; eauto. }
    destruct Hchild as (c & Hc).
    destruct (IH ltac:(discriminate) c) as (c' & Hset & Hget & _).
    { intros n Hn. specialize (Hok (S n) ltac:(cbn in *; lia)).
      change (firstn (S n) (part :: part' :: rest'))
        with (part :: firstn n (part' :: rest')) in Hok.
      cbn [get_nested] in Hok.
      destruct (dict_get part d) as [x |].
      - subst x. exact Hok.
      - injection Hc as <-. rewrite get_nested_empty_dict; [exact I |].
        destruct n; [lia | discriminate]. }
    exists (dict_set part (VDict c') d).
    change (set_nested (part :: part' :: rest') v (VDict d))
      with (child' <- set_nested (part' :: rest') v
                        (match dict_get part d with Some c => c | None => VDict [] end) ;;
            Returned (VDict (dict_set part child' d))).
    rewrite Hc, Hset. cbn [bind get_nested]. rewrite dict_get_set_same.
    repeat split; [assumption |]. intros k Hk. now apply dict_get_set_other.
Qed.

Section RoundTrip.

Context {json : Json}.

Lemma apply_defaults_dict (config c0 : value) :
  apply_defaults config = Returned c0 -> is_dict c0 = true.
Proof.
  unfold apply_defaults.
  repeat match goal with
         | |- context [setdefault ?k ?v ?c] =>
             let E := fresh "E" in
             destruct (setdefault k v c) eqn:E; cbn [bind]; [discriminate |]
         | |- context [match ?c with VDict _ => _ | _ => _ end] =>
             destruct c; try discriminate
         | |- context [match dict_get ?k ?d with Some _ => _ | None => _ end] =>
             destruct (dict_get k d); try discriminate
         end.
  now intros [= <-].
Qed.

Lemma apply_row_dict (config : value) (k : string) (c : cell) (config' : value) :
  is_dict config = true -> apply_row config k c = Returned config' -> is_dict config' = true.
Proof.
  destruct config as [| | | | | | | d]; try discriminate. intros _.
  unfold apply_row. destruct (json_loads c); try discriminate.
  - destruct (contains dot k).
    + destruct (split dot k) as [| p ps]; cbn; [now intros [= <-] |].
      destruct ps; [now intros [= <-] |].
      destruct (set_nested _ _ _); cbn; [discriminate | now intros [= <-]].
    + cbn. now intros [= <-].
  - cbn. now intros [= <-].
Qed.

Lemma apply_rows_dict (rows : list config_row) (config : value) :
  is_dict config = true -> is_dict (fst (apply_rows config rows)) = true.
Proof.
  revert config. induction rows as [| r rows IH]; intros config Hd; [assumption |].
  cbn [apply_rows]. destruct (apply_row config (c_key r) (c_value r)) eqn:E; [assumption |].
  apply IH. eapply apply_row_dict; eassumption.
Qed.

(** The tables write only their own keys. *)
Lemma tables_overrides_get (st : store) (d : dict) :
  exists d', fst (tables_overrides st (VDict d)) = VDict d' /\
             forall h, ~ In h (table_keys st) -> dict_get h d' = dict_get h d.
Proof.
  unfold tables_overrides, table_keys, formulas_block, tickers_block.
  destruct (readable st TFormulas); cbn [negb andb]; [| now exists d].
  assert (Hf : formulas_dict (formulas_table (data st)) <> [] ->
               formulas_table (data st) <> []).
  { intros H E. apply H. now rewrite E. }
  destruct (formulas_dict (formulas_table (data st))) as [| p ps];
    [clear Hf | specialize (Hf ltac:(discriminate))];
    destruct (formulas_table (data st)) as [| fr frs]; try contradiction;
    cbn [set_item bind];
    (destruct (readable st TTickers); cbn [negb];
     [destruct (enabled_tickers (tickers_table (data st))) as [| t ts] |]);
    cbn [set_item fst];
    (eexists; split; [reflexivity |]; intros h Hh;
     rewrite ?dict_get_set_other; [reflexivity | ..];
     intros ->; apply Hh; cbn; auto 10).
Qed.

Lemma lookup_tables (st : store) (d : dict) (k : string) (default : value) :
  ~ In (hd EmptyString (split dot k)) (table_keys st) ->
  lookup k default (fst (tables_overrides st (VDict d))) = lookup k default (VDict d).
Proof.
  intros Hk. destruct (tables_overrides_get st d) as (d' & -> & Hd').
  unfold lookup. destruct (contains dot k) eqn:Ek.
  - destruct (split dot k) as [| h rest] eqn:Es; [now apply split_nonempty in Es |].
    cbn [get_nested]. now rewrite (Hd' h Hk).
  - rewrite (split_without_sep _ _ Ek) in Hk. now rewrite (Hd' k Hk).
Qed.

(** On a store that answers, [get_config_value] looks the key up in the
    configuration left by the rows, the tables permitting. *)
Lemma get_config_value_rows (f : yaml_file) (st : store) (c0 : value) (d : dict)
  (k : string) (default : value) :
  connects st = true -> readable st TConfig = true ->
  lower_precedence f = Returned c0 ->
  apply_rows c0 (config_table (data st)) = (VDict d, None) ->
  ~ In (hd EmptyString (split dot k)) (table_keys st) ->
  get_config_value f st k default = Returned (lookup k default (VDict d)).
Proof.
  intros Hconn Hread Hc0 Hrows Hk.
  unfold get_config_value, get_config. unfold lower_precedence in Hc0.
  destruct (load_yaml_config f) as [lg cfg0]. cbn [snd] in Hc0. rewrite Hc0.
  unfold db_overrides. rewrite Hconn, Hread, Hrows. cbn [negb].
  pose proof (lookup_tables st d k default Hk) as Hl.
  destruct (tables_overrides_get st d) as (d' & Hd' & _).
  destruct (tables_overrides st (VDict d)) as [cfg failed]. cbn [fst] in *. subst cfg.
  cbn [snd bind]. rewrite <- Hl. unfold lookup.
  destruct (contains dot k).
  - now destruct (get_nested (split dot k) (VDict d')).
  - now destruct (dict_get k d').
Qed.

End RoundTrip.

(** C10, as stated, fails: a store with an enabled ticker replaces the
    [tickers] entry on every read, so the value written under the key
    [tickers] does not come back. *)
Lemma set_get_counterexample :
  ~ round_trip_as_stated (json := Sample.json) (YamlLoaded (VDict []))
      (ticker_store [] "MSFT") "tickers" (VInt 5).
Proof.
  intros H.
  destruct (H eq_refl) with (description := ""%string) (now := 0%Z) (default := VNone)
    as (st' & Hset & Hget).
  - exists "5"%string. now split.
  - intros cfg _ n Hn. cbn in Hn. lia.
  - vm_compute in Hset. injection Hset as <-. vm_compute in Hget. discriminate Hget.
Qed.

Section RoundTripTheorem.

Context {json : Json}.

Lemma table_keys_with_config_table (rows : list config_row) (st : store) :
  table_keys (with_config_table rows st) = table_keys st.
Proof. reflexivity. Qed.

(** Reading back a store whose last row is [(k, text)], the rows before it
    having given the configuration [VDict d1]. *)
Lemma get_after_last_row (f : yaml_file) (st : store) (c0 : value) (d1 d2 : dict)
  (k : string) (r : config_row) (default : value) :
  connects st = true -> readable st TConfig = true ->
  lower_precedence f = Returned c0 ->
  apply_rows c0 (other_rows k (config_table (data st))) = (VDict d1, None) ->
  ~ In (hd EmptyString (split dot k)) (table_keys st) ->
  apply_row (VDict d1) (c_key r) (c_value r) = Returned (VDict d2) ->
  get_config_value f (with_config_table (other_rows k (config_table (data st)) ++ [r]) st)
                   k default
  = Returned (lookup k default (VDict d2)).
Proof.
  intros Hconn Hread Hc0 Hrows Hk Hrow.
  apply (get_config_value_rows f _ k default (c0 := c0)); try assumption.
  cbn [with_config_table data config_table].
  rewrite apply_rows_app, Hrows. cbn [apply_rows]. now rewrite Hrow.
Qed.

(** C10, amended. On a store that answers, whose other override rows apply
    without error and give the configuration [VDict d1], and for a key
    whose first component is not overwritten from the formulas or tickers
    tables, [set_config_value(k, v)] succeeds and [get_config_value(k)]
    then returns: [v], for a value that is not a string, whose JSON text
    decodes back to it, when every proper dotted prefix of [k] is absent
    from [VDict d1] or a mapping; for a string, the string itself when it is
    not JSON and [k] has no dot, the decoded value when it is JSON, and,
    when it is not JSON and [k] is dotted, what the key resolves to without
    any row for [k] (the string is stored under the flat key). *)
Theorem set_get_round_trip (f : yaml_file) (st : store) (k : string) (v : value)
  (description : string) (now : Z) (default : value) (c0 : value) (d1 : dict) :
  connects st = true -> readable st TConfig = true ->
  lower_precedence f = Returned c0 ->
  apply_rows c0 (other_rows k (config_table (data st))) = (VDict d1, None) ->
  ~ In (hd EmptyString (split dot k)) (table_keys st) ->
  (exists text, stored_text v = Some text) ->
  exists st',
    set_config_value k v description now st = Returned st' /\
    (is_str v = false ->
     (exists text, json_dumps v = Some text /\ json_loads (CText text) = Decoded v) ->
     proper_prefixes_ok (split dot k) (VDict d1) ->
     get_config_value f st' k default = Returned v) /\
    (forall s, v = VStr s ->
       (json_loads (CText s) = JSONDecodeError -> contains dot k = false ->
        get_config_value f st' k default = Returned (VStr s)) /\
       (forall j, json_loads (CText s) = Decoded j ->
                  proper_prefixes_ok (split dot k) (VDict d1) ->
                  get_config_value f st' k default = Returned j) /\
       (json_loads (CText s) = JSONDecodeError -> contains dot k = true ->
        get_config_value f st' k default
        = get_config_value f (with_config_table (other_rows k (config_table (data st))) st)
                           k default)).
Proof.
  intros Hconn Hread Hc0 Hrows Hk (text & Htext).
  set (r := {| c_key := k; c_value := CText text; c_description := description;
               c_updated_at := now |}).
  exists (with_config_table (other_rows k (config_table (data st)) ++ [r]) st).
  assert (Hdecoded : forall j, json_loads (CText text) = Decoded j ->
            proper_prefixes_ok (split dot k) (VDict d1) ->
            get_config_value f
              (with_config_table (other_rows k (config_table (data st)) ++ [r]) st) k default
            = Returned j).
  { intros j Hj Hok. destruct (contains dot k) eqn:Hdot.
    - destruct (set_nested_get j (split_nonempty dot k) Hok) as (d2 & Hset & Hget & _).
      rewrite (get_after_last_row (d2 := d2) f st k r default Hconn Hread Hc0 Hrows Hk).
      + unfold lookup. now rewrite Hdot, Hget.
      + unfold apply_row. cbn [c_key c_value r]. now rewrite Hj, Hdot.
    - rewrite (get_after_last_row (d2 := dict_set k j d1) f st k r default Hconn Hread Hc0 Hrows Hk).
      + unfold lookup. now rewrite Hdot, dict_get_set_same.
      + unfold apply_row. cbn [c_key c_value r]. now rewrite Hj, Hdot. }
  assert (Hraw : json_loads (CText text) = JSONDecodeError ->
            get_config_value f
              (with_config_table (other_rows k (config_table (data st)) ++ [r]) st) k default
            = Returned (lookup k default (VDict (dict_set k (VStr text) d1)))).
  { intros Hj. apply (get_after_last_row f st k r default Hconn Hread Hc0 Hrows Hk).
    unfold apply_row. cbn [c_key c_value r]. now rewrite Hj. }
  split; [| split].
  - unfold set_config_value. rewrite Hconn, Hread. cbn [negb].
    unfold stored_text in Htext.
    assert (Hdump : match v with
                    | VStr s => Returned s
                    | _ => match json_dumps v with
                           | Some s => Returned s
                           | None => Raised TypeError
                           end
                    end = Returned text).
    { destruct v; try (now rewrite Htext); now injection Htext as ->. }
    rewrite Hdump. reflexivity.
  - intros Hstr (text' & Hdumps & Hloads) Hok. apply Hdecoded; [| assumption].
    assert (text' = text) as ->; [| assumption].
    unfold stored_text in Htext. destruct v; try discriminate; congruence.
  - intros s ->. cbn in Htext. injection Htext as <-.
    split; [| split].
    + intros Hj Hdot. rewrite (Hraw Hj). unfold lookup.
      now rewrite Hdot, dict_get_set_same.
    + exact Hdecoded.
    + intros Hj Hdot. rewrite (Hraw Hj).
      rewrite (get_config_value_rows f
                 (with_config_table (other_rows k (config_table (data st))) st)
                 k default Hconn Hread Hc0 Hrows Hk).
      unfold lookup. rewrite Hdot. f_equal.
      pose proof (@split_head_differs dot k Hdot) as Hhead.
      destruct (split dot k) as [| h rest] eqn:Es; [now apply split_nonempty in Es |].
      cbn [get_nested hd] in *. rewrite dict_get_set_other; [reflexivity | assumption].
Qed.

End RoundTripTheorem.

(** ** The theorems at concrete inputs *)

Lemma flat_frame_sorted (n : nat) (price : Q) :
  Sorted Z.le (map timestamp (Sample.flat_frame n price)).
Proof.
  unfold Sample.flat_frame. rewrite map_map. cbn [timestamp].
  generalize 0%nat. induction n as [| n IH]; intros a; cbn [seq map]; [constructor |].
  constructor; [apply IH |].
  destruct n; cbn [seq map]; constructor. lia.
Qed.

Lemma no_lookahead_witness :
  compute_score_at_date (ext := Sample.externals)
    (Sample.flat_frame 200 100 ++ [mkBar 200 (Fin 50)]) 199 Sample.default_config
  = compute_score_at_date (ext := Sample.externals)
      (Sample.flat_frame 200 100 ++ [mkBar 200 (Fin 150); mkBar 201 (Fin 1)]) 199
      Sample.default_config.
Proof.
  apply no_lookahead; [lia |].
  intros j Hj.
  rewrite !nth_error_app1; [reflexivity | |];
    unfold Sample.flat_frame; rewrite length_map, length_seq; lia.
Defined.

Lemma score_assembler_contract_witness :
  exists s,
    compute_score_at_date (ext := Sample.externals) (Sample.flat_frame 250 100) 249
      Sample.default_config = Some s /\
    score s = spec_score (ext := Sample.externals) Sample.default_config
                (firstn (Z.to_nat (249 + 1)) (Sample.flat_frame 250 100)).
Proof.
  apply (score_assembler_contract (ext := Sample.externals)
           (Sample.flat_frame 250 100) (i := 249) Sample.default_config); [lia |].
  unfold Sample.flat_frame. rewrite length_map, length_seq. lia.
Defined.

Lemma score_bound_normalised_witness :
  exists s,
    compute_score_at_date (ext := Sample.saturated) (Sample.flat_frame 200 100) 199
      Sample.default_config = Some s /\
    between 0 100 (score s).
Proof.
  destruct (compute_score_at_date (ext := Sample.saturated) (Sample.flat_frame 200 100) 199
              Sample.default_config) as [s |] eqn:E; [| vm_compute in E; discriminate].
  exists s. split; [reflexivity |].
  apply (score_bound_normalised (ext := Sample.saturated) Sample.default_config
           (Sample.flat_frame 200 100) 199); [| | exact E].
  - repeat split; intros; exists 1; (split; [reflexivity | split; discriminate]).
  - exists (25 # 100), (25 # 100), (20 # 100), (15 # 100), (10 # 100), (5 # 100).
    repeat split; discriminate.
Defined.

Lemma walk_forward_emission_witness :
  exists results,
    run_backtest
      (fun df i => compute_score_at_date (ext := Sample.externals) df i Sample.default_config)
      (fun _ _ _ => Downloaded (Sample.flat_frame 260 100)) "SPY" 200 260 7
    = ([(INFO, MsgBacktesting "SPY")], Returned (Some results)).
Proof.
  destruct (walk_forward_emission
              (fun df i => compute_score_at_date (ext := Sample.externals) df i
                             Sample.default_config)
              (fun _ _ _ => Downloaded (Sample.flat_frame 260 100))
              "SPY" 200 260 (interval_days := 7) (df := Sample.flat_frame 260 100))
    as (start_idx & count & results & Hrun & _).
  - lia.
  - reflexivity.
  - discriminate.
  - apply flat_frame_sorted.
  - exists results. exact Hrun.
Defined.

Lemma script_run_of_spy :
  length (script_single_run (ext := Sample.externals) Sample.one_failing_download
            Sample.default_config "SPY" 200 260) = 5%nat.
Proof. vm_compute. reflexivity. Qed.

Lemma multi_ticker_isolation_witness :
  Script.main (ext := Sample.externals) Sample.one_failing_download Sample.default_config
    ["BAD"; "SPY"]%string 200 260
  = Raised DownloadFailure /\
  length (script_single_run (ext := Sample.externals) Sample.one_failing_download
            Sample.default_config "SPY" 200 260) = 5%nat /\
  exists lg combined analyses,
    run_multi_ticker_backtest (stats := Sample.stats)
      (fun df i => compute_score_at_date (ext := Sample.externals) df i Sample.default_config)
      Sample.one_failing_download ["BAD"; "SPY"]%string 200 260
    = Returned (lg, (combined, analyses)) /\
    In (ERROR, MsgDownloadError "BAD") lg.
Proof.
  destruct (multi_ticker_isolation (stats := Sample.stats) (ext := Sample.externals)
              (fun df i => compute_score_at_date (ext := Sample.externals) df i
                             Sample.default_config)
              Sample.one_failing_download Sample.default_config
              ["BAD"; "SPY"]%string 200 260)
    as ((lg & combined & analyses & Hrun & _ & Hlog) & _ & Hscript).
  split; [apply Hscript; exists "BAD"%string; split; [now left | reflexivity] |].
  split; [exact script_run_of_spy |].
  exists lg, combined, analyses. split; [exact Hrun |].
  apply (Hlog "BAD"%string); [now left | reflexivity].
Defined.

Lemma profile_activation_frame_witness :
  exists p,
    In p (weight_profiles_table (set_active_profile 1 20 one_profile_db)) /\
    p_id p = 1%Z /\ p_is_active p = true.
Proof.
  apply (@profile_activation_frame one_profile_db 1 20).
  exists (mkProfileRow 1 "aggressive" "" false 5 5). split; [left; reflexivity | reflexivity].
Defined.

Lemma store_failure_degradation_witness :
  exists lg cfg,
    get_config (json := Sample.json) (YamlLoaded (VDict []))
      (config_store [("drawdown_cap", "0.5"); ("drawdown_cap.x", "1")]%string)
    = (lg, Returned cfg) /\
    In (ERROR, MsgDbReadError) lg /\
    exists n r c1 e,
      nth_error (config_table (data (config_store [("drawdown_cap", "0.5");
                                                   ("drawdown_cap.x", "1")]%string))) n
      = Some r /\
      apply_rows (json := Sample.json) defaults_only
        (firstn n (config_table (data (config_store [("drawdown_cap", "0.5");
                                                     ("drawdown_cap.x", "1")]%string))))
      = (c1, None) /\
      apply_row (json := Sample.json) c1 (c_key r) (c_value r) = Raised e /\
      cfg = c1.
Proof.
  destruct (store_failure_degradation (json := Sample.json) (YamlLoaded (VDict []))
              (config_store [("drawdown_cap", "0.5"); ("drawdown_cap.x", "1")]%string)
              lower_precedence_of_empty_file)
    as (lg & cfg & Hget & Hlog & _ & Hkept).
  exists lg, cfg. split; [exact Hget |].
  split; [apply Hlog; vm_compute; reflexivity |].
  destruct Hkept as [Hrow | (c1 & Hall & _)];
    [vm_compute; reflexivity | reflexivity | reflexivity | exact Hrow |].
  apply (f_equal snd) in Hall. vm_compute in Hall. discriminate Hall.
Defined.

Lemma set_get_round_trip_witness :
  exists st',
    set_config_value (json := Sample.json) "weights.rsi14" (VInt 1) "" 0
      (config_store [("weights.rsi14", "0.5"); ("dev_mode", "true")]%string)
    = Returned st' /\
    get_config_value (json := Sample.json) (YamlLoaded (VDict [])) st' "weights.rsi14" VNone
    = Returned (VInt 1).
Proof.
  edestruct (set_get_round_trip (json := Sample.json) (YamlLoaded (VDict []))
               (config_store [("weights.rsi14", "0.5"); ("dev_mode", "true")]%string)
               "weights.rsi14" (VInt 1) ""%string 0 VNone (c0 := defaults_only))
    as (st' & Hset & Hget & _).
  - reflexivity.
  - reflexivity.
  - exact lower_precedence_of_empty_file.
  - vm_compute. reflexivity.
  - vm_compute. intros [].
  - exists "1"%string. reflexivity.
  - exists st'. split; [exact Hset |]. apply Hget.
    + reflexivity.
    + exists "1"%string. split; vm_compute; reflexivity.
    + intros [| [| n]] Hn; cbn in Hn; try lia. vm_compute. reflexivity.
Defined.

(** * Further properties of the code *)

(** ** Defaults and the static file ([get_config], [load_yaml_config]) *)

Lemma dict_get_app (A : Type) (k : string) (d e : list (string * A)) :
  dict_get k (d ++ e)
  = match dict_get k d with Some x => Some x | None => dict_get k e end.
Proof.
  induction d as [| [k' v'] d IH]; simpl; [reflexivity |].
  now destruct (String.eqb k k').
Qed.

Lemma dict_get_setdefaults (k : string) (defaults d : dict) :
  dict_get k (setdefaults defaults d) = completed defaults d k.
Proof.
  unfold completed, setdefaults. revert d.
  induction defaults as [| [k0 v0] defaults IH]; intros d; cbn [fold_left].
  - now destruct (dict_get k d).
  - rewrite IH. cbn [fst dict_get]. unfold dict_in.
    destruct (dict_get k0 d) eqn:E0.
    + destruct (dict_get k d) eqn:E; [reflexivity |].
      destruct (String.eqb_spec k k0) as [-> | _]; [congruence | reflexivity].
    + rewrite dict_get_app. cbn [dict_get].
      destruct (dict_get k d); [reflexivity |].
      now destruct (String.eqb k k0).
Qed.

(** [apply_defaults] on a mapping, as two chains of [setdefault]. *)
Lemma apply_defaults_chain (d : dict) :
  apply_defaults (VDict d)
  = let d9 := setdefaults top_defaults d in
    let d10 := if dict_in "weights" d9 then d9 else dict_set "weights" (VDict []) d9 in
    match dict_get "weights" d10 with
    | Some (VDict w) =>
        Returned (VDict (dict_set "weights" (VDict (setdefaults weight_defaults w)) d10))
    | _ => Raised AttributeError
    end.
Proof.
  unfold apply_defaults. cbn [setdefault bind].
  change (if dict_in "schedule_minute" _ then _ else _) with (setdefaults top_defaults d).
  cbv zeta.
  destruct (dict_get "weights"
              (if dict_in "weights" (setdefaults top_defaults d)
               then setdefaults top_defaults d
               else dict_set "weights" (VDict []) (setdefaults top_defaults d)))
    as [[] |]; reflexivity.
Qed.

Lemma weights_after_defaults (d : dict) :
  let d9 := setdefaults top_defaults d in
  dict_get "weights" (if dict_in "weights" d9 then d9 else dict_set "weights" (VDict []) d9)
  = match dict_get "weights" d with Some w => Some w | None => Some (VDict []) end.
Proof.
  cbv zeta. unfold dict_in. rewrite dict_get_setdefaults. unfold completed.
  destruct (dict_get "weights" d) eqn:E; cbv beta iota; change (dict_get "weights" top_defaults) with (@None value); cbv beta iota.
  - rewrite dict_get_setdefaults. unfold completed. now rewrite E.
  - now rewrite dict_get_set_same.
Qed.

Lemma Returned_inj (A : Type) (a b : A) : Returned a = Returned b -> a = b.
Proof. congruence. Qed.

(** X1. Values of the static file win over the compiled-in defaults, and
    the defaults only fill what the file leaves out, at the top level and
    inside [weights]. *)
Theorem file_values_win (d : dict) (c : value) :
  lower_precedence (YamlLoaded (VDict d)) = Returned c ->
  exists dc wc,
    c = VDict dc /\
    (forall k, k <> "weights"%string -> dict_get k dc = completed top_defaults d k) /\
    dict_get "weights" dc = Some (VDict wc) /\
    (forall k, dict_get k wc = completed weight_defaults (file_weights d) k).
Proof.
  unfold lower_precedence, load_yaml_config. cbn [snd].
  assert (Hd : (if truthy (VDict d) then VDict d else VDict []) = VDict d)
    by (now destruct d).
  rewrite Hd, apply_defaults_chain. cbv zeta. rewrite weights_after_defaults.
  unfold file_weights.
  assert (Hin : dict_get "weights" (setdefaults top_defaults d) = dict_get "weights" d).
  { rewrite dict_get_setdefaults. unfold completed. now destruct (dict_get "weights" d). }
  unfold dict_in. rewrite Hin.
  destruct (dict_get "weights" d) as [[] |] eqn:Ew; try discriminate;
    intros H; apply Returned_inj in H; subst c;
    (eexists; eexists; split; [reflexivity |]; split; [| split];
     [ intros k Hk; rewrite ?dict_get_set_other by assumption;
       apply dict_get_setdefaults
     | apply dict_get_set_same
     | intros k; apply dict_get_setdefaults ]).
Qed.

(** X2. [get_config] gets past the defaults exactly when the static file
    is missing, unreadable, empty, or a mapping whose [weights] entry, if
    any, is a mapping; any other file makes it raise [AttributeError],
    before the store is opened. *)
Theorem static_file_shape {json : Json} (f : yaml_file) (st : store) :
  if file_ok f
  then exists lg c, get_config f st = (lg, Returned c)
  else exists lg, get_config f st = (lg, Raised AttributeError).
Proof.
  unfold get_config.
  assert (H : if file_ok f
              then exists c, apply_defaults (snd (load_yaml_config f)) = Returned c
              else apply_defaults (snd (load_yaml_config f)) = Raised AttributeError).
  { destruct f as [| | cfg]; cbn [file_ok load_yaml_config snd];
      try (eexists; vm_compute; reflexivity).
    destruct (truthy cfg) eqn:Ht; [| eexists; vm_compute; reflexivity].
    destruct cfg; try reflexivity.
    rewrite apply_defaults_chain. cbv zeta. rewrite weights_after_defaults.
    destruct (dict_get "weights" d) as [[] |]; cbn [is_dict]; try reflexivity;
      eexists; reflexivity. }
  destruct (load_yaml_config f) as [lg cfg]. cbn [snd] in H.
  destruct (file_ok f).
  - destruct H as (c & ->). destruct (db_overrides st c) as [c' failed]. eauto.
  - rewrite H. eauto.
Qed.

Lemma file_values_win_witness :
  exists dc wc,
    lower_precedence
      (YamlLoaded (VDict [("drawdown_cap", decimal 30 100);
                          ("weights", VDict [("rsi14", decimal 50 100)])]%string))
    = Returned (VDict dc) /\
    dict_get "drawdown_cap" dc = Some (decimal 30 100) /\
    dict_get "volatility_cap" dc = Some (decimal 10 100) /\
    dict_get "weights" dc = Some (VDict wc) /\
    dict_get "rsi14" wc = Some (decimal 50 100) /\
    dict_get "dist_ma50" wc = Some (decimal 20 100).
Proof.
  destruct (lower_precedence
              (YamlLoaded (VDict [("drawdown_cap", decimal 30 100);
                                  ("weights", VDict [("rsi14", decimal 50 100)])]%string)))
    as [e | c] eqn:E; [vm_compute in E; discriminate E |].
  destruct (file_values_win _ E) as (dc & wc & -> & Htop & Hw & Hweights).
  exists dc, wc. split; [reflexivity |].
  split; [rewrite Htop by discriminate; vm_compute; reflexivity |].
  split; [rewrite Htop by discriminate; vm_compute; reflexivity |].
  split; [exact Hw |].
  split; rewrite Hweights; vm_compute; reflexivity.
Defined.

(** ** What a key resolves to ([get_config], [get_config_value]) *)

Section Resolution.

Context {json : Json}.

Lemma table_keys_reserved (st : store) (h : string) :
  In h (table_keys st) -> In h reserved_keys.
Proof.
  unfold table_keys, reserved_keys. intros H. apply in_app_or in H as [H | H].
  - destruct (readable st TFormulas); [| contradiction].
    destruct (formulas_table (data st)); [contradiction |].
    cbn in H |- *. tauto.
  - destruct (readable st TFormulas && readable st TTickers); [| contradiction].
    destruct (enabled_tickers (tickers_table (data st))); [contradiction |].
    cbn in H |- *. tauto.
Qed.

Lemma get_config_value_tail (cfg : value) (k : string) (default : value) :
  is_dict cfg = true ->
  (if contains dot k then
     match get_nested (split dot k) cfg with
     | Some current => Returned current
     | None => Returned default
     end
   else
     match cfg with
     | VDict d => match dict_get k d with Some v => Returned v | None => Returned default end
     | _ => Raised AttributeError
     end)
  = Returned (lookup k default cfg).
Proof.
  destruct cfg; try discriminate. intros _. unfold lookup.
  destruct (contains dot k).
  - now destruct (get_nested (split dot k) (VDict d)).
  - now destruct (dict_get k d).
Qed.

(** For a key outside the ones the tables write, [get_config_value] reads
    the configuration left by the rows of [config]. *)
Lemma get_config_value_outside_tables (f : yaml_file) (st : store) (k : string)
  (default : value) :
  ~ In (hd EmptyString (split dot k)) reserved_keys ->
  get_config_value f st k default
  = (c0 <- lower_precedence f ;; Returned (lookup k default (rows_config st c0))).
Proof.
  intros Hk. unfold get_config_value, get_config, lower_precedence.
  destruct (load_yaml_config f) as [lg cfg0]. cbn [snd].
  destruct (apply_defaults cfg0) as [e | c0] eqn:Hc0; [reflexivity |].
  pose proof (apply_defaults_dict _ Hc0) as Hdict.
  unfold db_overrides, rows_config.
  destruct (connects st); cbn [negb andb snd bind];
    [| now apply get_config_value_tail].
  destruct (readable st TConfig); cbn [negb andb snd bind];
    [| now apply get_config_value_tail].
  pose proof (apply_rows_dict (config_table (data st)) _ Hdict) as Hrows.
  destruct (apply_rows c0 (config_table (data st))) as [c1 [e |]]; cbn [fst] in *.
  - cbn [snd bind]. now apply get_config_value_tail.
  - destruct c1 as [| | | | | | | d1]; try discriminate.
    assert (Hout : ~ In (hd EmptyString (split dot k)) (table_keys st))
      by (intros H; apply Hk; now apply table_keys_reserved in H).
    pose proof (lookup_tables st d1 k default Hout) as Hl.
    destruct (tables_overrides_get st d1) as (d' & Hd' & _).
    destruct (tables_overrides st (VDict d1)) as [cfg failed]. cbn [fst] in *. subst cfg.
    cbn [snd bind]. rewrite <- Hl. now apply (get_config_value_tail (VDict d')).
Qed.

(** X3. Activating a weight profile changes nothing of what
    [get_config_value] returns for a key outside [formulas],
    [formula_weights] and [tickers]: in particular the six composite
    [weights] read by the scoring are not those of the active profile. *)
Theorem activation_keeps_config_values (f : yaml_file) (st : store) (profile_id now : Z)
  (k : string) (default : value) :
  ~ In (hd EmptyString (split dot k)) reserved_keys ->
  get_config_value f (with_data (set_active_profile profile_id now (data st)) st) k default
  = get_config_value f st k default.
Proof.
  intros Hk. now rewrite !get_config_value_outside_tables by assumption.
Qed.

(** X4. On a store that answers, whose override rows all apply, the
    enabled tickers of the store replace the [tickers] entry altogether; when
    no ticker is enabled the entry left by the static file and the rows
    stays. *)
Theorem store_tickers_replace_file_list (f : yaml_file) (st : store) (c0 : value)
  (d1 : dict) (default : value) :
  connects st = true -> unreadable st = [] ->
  lower_precedence f = Returned c0 ->
  apply_rows c0 (config_table (data st)) = (VDict d1, None) ->
  get_config_value f st "tickers" default
  = Returned match enabled_tickers (tickers_table (data st)) with
             | [] => lookup "tickers" default (VDict d1)
             | db_tickers => VList db_tickers
             end.
Proof.
  intros Hconn Hunread Hc0 Hrows.
  unfold get_config_value, get_config. unfold lower_precedence in Hc0.
  destruct (load_yaml_config f) as [lg cfg0]. cbn [snd] in Hc0. rewrite Hc0.
  unfold db_overrides, tables_overrides, readable. rewrite Hconn, Hunread, Hrows.
  cbn [existsb negb]. unfold formulas_block, tickers_block.
  assert (Hf : exists d2,
             match formulas_dict (formulas_table (data st)) with
             | [] => Returned (VDict d1)
             | _ :: _ =>
                 config <- set_item "formulas"
                             (VDict (formulas_dict (formulas_table (data st)))) (VDict d1) ;;
                 set_item "formula_weights"
                   (VDict (formula_weights_dict (formulas_table (data st)))) config
             end = Returned (VDict d2) /\
             dict_get "tickers" d2 = dict_get "tickers" d1).
  { destruct (formulas_dict (formulas_table (data st))); cbn [set_item bind].
    - now exists d1.
    - eexists. split; [reflexivity |]. now rewrite !dict_get_set_other by discriminate. }
  destruct Hf as (d2 & -> & Hd2).
  destruct (enabled_tickers (tickers_table (data st))) as [| t ts];
    cbn [set_item snd bind contains dot]; unfold lookup; cbn [contains].
  - rewrite Hd2. now destruct (dict_get "tickers" d1).
  - now rewrite dict_get_set_same.
Qed.

End Resolution.

Lemma activation_keeps_config_values_witness :
  get_config_value (json := Sample.json) (YamlLoaded (VDict []))
    (with_data (set_active_profile 1 20 one_profile_db)
               (mkStore true [] one_profile_db)) "weights.rsi14" VNone
  = get_config_value (json := Sample.json) (YamlLoaded (VDict []))
      (mkStore true [] one_profile_db) "weights.rsi14" VNone.
Proof.
  apply (activation_keeps_config_values (json := Sample.json)).
  vm_compute. intros [H | [H | [H | []]]]; discriminate H.
Defined.

Lemma store_tickers_replace_file_list_witness :
  get_config_value (json := Sample.json) (YamlLoaded (VDict []))
    (ticker_store [("tickers", "5")]%string "MSFT") "tickers" VNone
  = Returned (VList [VStr "MSFT"]).
Proof.
  refine (eq_trans
            (store_tickers_replace_file_list (json := Sample.json) (YamlLoaded (VDict []))
               (ticker_store [("tickers", "5")]%string "MSFT")
               (d1 := dict_set "tickers" (VInt 5)
                        match defaults_only with VDict d => d | _ => [] end)
               VNone eq_refl eq_refl lower_precedence_of_empty_file _) _).
  - vm_compute. reflexivity.
  - vm_compute. reflexivity.
Defined.

(** ** Writing overrides ([set_config_value]) *)

Lemma filter_key_twice (k : string) (rows : list config_row) :
  other_rows k (other_rows k rows) = other_rows k rows.
Proof.
  unfold other_rows. induction rows as [| r rows IH]; [reflexivity |].
  cbn [filter]. destruct (negb (c_key r =? k)%string) eqn:E; cbn [filter]; [| assumption].
  now rewrite E, IH.
Qed.

Lemma other_rows_keys (k : string) (rows : list config_row) :
  ~ In k (map c_key (other_rows k rows)).
Proof.
  unfold other_rows. intros H. apply in_map_iff in H as (r & Hr & Hin).
  apply filter_In in Hin as [_ Hne]. rewrite Hr, String.eqb_refl in Hne. discriminate.
Qed.

Lemma NoDup_map_filter (A B : Type) (g : A -> B) (p : A -> bool) (l : list A) :
  NoDup (map g l) -> NoDup (map g (filter p l)).
Proof.
  induction l as [| a l IH]; cbn [map filter]; intros H; [constructor |].
  inversion H as [| ? ? Hnotin Hrest]; subst.
  destruct (p a); cbn [map]; [| now apply IH].
  constructor; [| now apply IH].
  intros Hin. apply Hnotin. apply in_map_iff in Hin as (x & Hx & Hin).
  apply filter_In in Hin as [Hin _]. apply in_map_iff. now exists x.
Qed.

Section Writing.

Context {json : Json}.

Lemma set_config_value_table (k : string) (v : value) (description : string) (now : Z)
  (st st' : store) :
  set_config_value k v description now st = Returned st' ->
  exists text,
    stored_text v = Some text /\
    st' = with_config_table
            (other_rows k (config_table (data st))
             ++ [ {| c_key := k; c_value := CText text; c_description := description;
                     c_updated_at := now |} ]) st.
Proof.
  unfold set_config_value, stored_text.
  destruct (connects st); cbn [negb]; [| discriminate].
  destruct v; cbn [bind];
    try (destruct (json_dumps _) as [text |]; cbn [bind]; [| discriminate]);
    (destruct (readable st TConfig); cbn [negb]; [| discriminate]);
    intros H; apply Returned_inj in H; subst st'; eauto.
Qed.

(** X5. [set_config_value] keeps the key a primary key: after it the
    table holds one row for the key, with the text written, scanned last;
    the rows of the other keys are unchanged, in their order; and keys that
    were distinct stay distinct. *)
Theorem set_config_value_upserts (k : string) (v : value) (description : string) (now : Z)
  (st st' : store) :
  set_config_value k v description now st = Returned st' ->
  exists text,
    stored_text v = Some text /\
    config_table (data st')
    = other_rows k (config_table (data st))
      ++ [ {| c_key := k; c_value := CText text; c_description := description;
              c_updated_at := now |} ] /\
    ~ In k (map c_key (other_rows k (config_table (data st)))) /\
    (NoDup (map c_key (config_table (data st))) ->
     NoDup (map c_key (config_table (data st')))).
Proof.
  intros H. destruct (set_config_value_table _ _ _ _ _ H) as (text & Htext & ->).
  exists text. split; [assumption |]. split; [reflexivity |].
  split; [apply other_rows_keys |].
  intros Hnd. cbn [with_config_table data config_table].
  rewrite map_app. cbn [map c_key].
  apply NoDup_app; [now apply NoDup_map_filter | repeat constructor; intros [] | ].
  intros x Hx [<- | []]. now apply other_rows_keys in Hx.
Qed.

(** X6. Writing a key twice is writing it once: the second
    [set_config_value] leaves the store it would have left without the
    first. *)
Theorem set_config_value_last_wins (k : string) (v1 v2 : value)
  (description1 description2 : string) (now1 now2 : Z) (st st1 : store) :
  set_config_value k v1 description1 now1 st = Returned st1 ->
  set_config_value k v2 description2 now2 st1
  = set_config_value k v2 description2 now2 st.
Proof.
  intros H. destruct (set_config_value_table _ _ _ _ _ H) as (text & _ & ->).
  unfold set_config_value. cbn [with_config_table connects data config_table].
  change (readable (with_config_table _ st) TConfig) with (readable st TConfig).
  destruct (connects st); cbn [negb]; [| reflexivity].
  destruct (match v2 with
            | VStr s => Returned s
            | _ => match json_dumps v2 with
                   | Some s => Returned s
                   | None => Raised TypeError
                   end
            end) as [e | text2]; cbn [bind]; [reflexivity |].
  destruct (readable st TConfig); cbn [negb]; [| reflexivity].
  f_equal. unfold with_config_table. cbn. f_equal. f_equal.
  unfold insert_or_replace_config. cbn [c_key]. f_equal.
  fold (other_rows k (config_table (data st))).
  fold (other_rows k (other_rows k (config_table (data st))
                      ++ [ {| c_key := k; c_value := CText text;
                              c_description := description1; c_updated_at := now1 |} ])).
  unfold other_rows at 1. rewrite filter_app. cbn [filter c_key].
  rewrite String.eqb_refl. cbn [negb]. rewrite app_nil_r.
  apply filter_key_twice.
Qed.

End Writing.

Lemma set_config_value_upserts_witness :
  exists st',
    set_config_value (json := Sample.json) "dev_mode" (VBool true) "" 7
      (config_store [("dev_mode", "false"); ("schedule_hour", "8")]%string)
    = Returned st' /\
    map c_key (config_table (data st')) = ["schedule_hour"; "dev_mode"]%string.
Proof.
  destruct (set_config_value (json := Sample.json) "dev_mode" (VBool true) "" 7
              (config_store [("dev_mode", "false"); ("schedule_hour", "8")]%string))
    as [e | st'] eqn:E; [vm_compute in E; discriminate E |].
  exists st'. split; [reflexivity |].
  destruct (set_config_value_upserts (json := Sample.json) _ _ _ _ _ E)
    as (text & _ & -> & _).
  vm_compute. reflexivity.
Defined.

Lemma set_config_value_last_wins_witness :
  set_config_value (json := Sample.json) "dev_mode" (VBool false) "" 9
    (with_config_table [mkConfigRow "dev_mode" (CText "true") "" 7] (config_store []))
  = set_config_value (json := Sample.json) "dev_mode" (VBool false) "" 9 (config_store []).
Proof.
  apply (set_config_value_last_wins (json := Sample.json) "dev_mode" (VBool true)
           (VBool false) ""%string ""%string 7 9 (config_store [])).
  vm_compute. reflexivity.
Defined.

(** ** Weight profiles ([save_profile_weights], [get_profile_weights],
    [save_current_weights_to_profile], [get_active_profile]) *)

Lemma dict_get_not_in (A : Type) (k : string) (d : list (string * A)) :
  ~ In k (map fst d) -> dict_get k d = None.
Proof.
  induction d as [| [k' v'] d IH]; cbn; [reflexivity |].
  intros H. destruct (String.eqb_spec k k') as [-> | _]; [tauto |]. apply IH. tauto.
Qed.

Lemma dict_set_fresh (A : Type) (k : string) (v : A) (d : list (string * A)) :
  ~ In k (map fst d) -> dict_set k v d = d ++ [(k, v)].
Proof.
  induction d as [| [k' v'] d IH]; cbn; [reflexivity |].
  intros H. destruct (String.eqb_spec k k') as [-> | _]; [tauto |].
  f_equal. apply IH. tauto.
Qed.

(** Building a dictionary from pairs with distinct keys gives the pairs. *)
Lemma dict_of_distinct_pairs (A B : Type) (key : B -> string) (val : B -> A)
  (rows : list B) (acc : list (string * A)) :
  NoDup (map fst acc ++ map key rows) ->
  fold_left (fun d r => dict_set (key r) (val r) d) rows acc
  = acc ++ map (fun r => (key r, val r)) rows.
Proof.
  revert acc. induction rows as [| r rows IH]; intros acc Hnd; cbn [fold_left map].
  - now rewrite app_nil_r.
  - cbn [map] in Hnd.
    assert (Hfresh : ~ In (key r) (map fst acc)).
    { apply NoDup_remove_2 in Hnd. intros H. apply Hnd. apply in_or_app. now left. }
    rewrite dict_set_fresh by assumption. rewrite IH.
    + now rewrite <- app_assoc.
    + rewrite map_app, <- app_assoc. exact Hnd.
Qed.

Lemma filter_profile_rows_saved (profile_id profile_id' : Z) (weights : list (string * float))
  (rows : list profile_weight_row) :
  filter (fun r => (pw_profile_id r =? profile_id')%Z)
         (filter (fun r => negb (pw_profile_id r =? profile_id)%Z) rows
          ++ map (fun kv => {| pw_profile_id := profile_id; pw_formula_name := fst kv;
                               pw_weight := snd kv |}) weights)
  = if (profile_id' =? profile_id)%Z
    then map (fun kv => {| pw_profile_id := profile_id; pw_formula_name := fst kv;
                           pw_weight := snd kv |}) weights
    else filter (fun r => (pw_profile_id r =? profile_id')%Z) rows.
Proof.
  rewrite filter_app.
  assert (H1 : filter (fun r => (pw_profile_id r =? profile_id')%Z)
                 (filter (fun r => negb (pw_profile_id r =? profile_id)%Z) rows)
               = if (profile_id' =? profile_id)%Z then []
                 else filter (fun r => (pw_profile_id r =? profile_id')%Z) rows).
  { induction rows as [| r rows IH]; cbn [filter]; [now destruct (_ =? _)%Z |].
    destruct (Z.eqb_spec (pw_profile_id r) profile_id) as [Hr | Hr]; cbn [negb filter].
    - rewrite IH. destruct (Z.eqb_spec profile_id' profile_id) as [-> | Hne]; [reflexivity |].
      destruct (Z.eqb_spec (pw_profile_id r) profile_id'); [congruence | reflexivity].
    - rewrite IH. destruct (Z.eqb_spec profile_id' profile_id) as [-> | Hne].
      + destruct (Z.eqb_spec (pw_profile_id r) profile_id); [contradiction | reflexivity].
      + reflexivity. }
  assert (H2 : filter (fun r => (pw_profile_id r =? profile_id')%Z)
                 (map (fun kv => {| pw_profile_id := profile_id; pw_formula_name := fst kv;
                                    pw_weight := snd kv |}) weights)
               = if (profile_id' =? profile_id)%Z
                 then map (fun kv => {| pw_profile_id := profile_id;
                                        pw_formula_name := fst kv;
                                        pw_weight := snd kv |}) weights
                 else []).
  { induction weights as [| kv weights IH]; cbn [map filter pw_profile_id];
      [now destruct (_ =? _)%Z |].
    rewrite IH, (Z.eqb_sym profile_id profile_id').
    now destruct (profile_id' =? profile_id)%Z. }
  rewrite H1, H2. destruct (profile_id' =? profile_id)%Z; [reflexivity | apply app_nil_r].
Qed.

(** X7. The weights saved into a profile are the weights read back from
    it, and saving into one profile leaves the weights of every other
    profile as they were. *)
Theorem saved_weights_read_back (profile_id : Z) (weights : list (string * float))
  (now : Z) (d : database) :
  NoDup (map fst weights) ->
  get_profile_weights profile_id (save_profile_weights profile_id weights now d) = weights /\
  forall other, other <> profile_id ->
    get_profile_weights other (save_profile_weights profile_id weights now d)
    = get_profile_weights other d.
Proof.
  intros Hnd. unfold get_profile_weights, save_profile_weights.
  cbn [profile_weights_table]. split.
  - rewrite filter_profile_rows_saved, Z.eqb_refl.
    rewrite (dict_of_distinct_pairs pw_formula_name pw_weight).
    + cbn [app]. rewrite map_map. cbn [pw_formula_name pw_weight].
      rewrite <- (map_id weights) at 2. apply map_ext. now intros [].
    + cbn [map app]. rewrite map_map. cbn [pw_formula_name]. exact Hnd.
  - intros other Hne. rewrite filter_profile_rows_saved.
    destruct (Z.eqb_spec other profile_id); [contradiction | reflexivity].
Qed.

Lemma saved_weights_read_back_witness :
  get_profile_weights 2
    (save_profile_weights 2 [("rsi14", Fin (40 # 100)); ("momentum30", Fin (10 # 100))]%string
       30 one_profile_db)
  = [("rsi14", Fin (40 # 100)); ("momentum30", Fin (10 # 100))]%string.
Proof.
  apply (saved_weights_read_back 2
           [("rsi14", Fin (40 # 100)); ("momentum30", Fin (10 # 100))]%string 30
           one_profile_db).
  repeat constructor; cbn; intuition discriminate.
Defined.

(** X8. Activating the same profile again, at any later time, gives the
    store that the last activation alone would give. *)
Theorem activation_twice (profile_id now1 now2 : Z) (d : database) :
  set_active_profile profile_id now2 (set_active_profile profile_id now1 d)
  = set_active_profile profile_id now2 d.
Proof.
  assert (Hf : formulas_table (set_active_profile profile_id now2
                                 (set_active_profile profile_id now1 d))
               = formulas_table (set_active_profile profile_id now2 d)).
  { rewrite !set_active_profile_formulas.
    change (get_profile_weights profile_id (set_active_profile profile_id now1 d))
      with (get_profile_weights profile_id d).
    rewrite map_map. apply map_ext. intros f. unfold load_weight.
    destruct (dict_get (f_name f) (get_profile_weights profile_id d)) as [w |] eqn:E;
      cbn [reweighted f_name]; now rewrite E. }
  assert (Hp : weight_profiles_table (set_active_profile profile_id now2
                                        (set_active_profile profile_id now1 d))
               = weight_profiles_table (set_active_profile profile_id now2 d)).
  { unfold set_active_profile. cbn [weight_profiles_table]. rewrite !map_map.
    apply map_ext. intros p. unfold activate, deactivate. cbn [p_id].
    destruct (p_id p =? profile_id)%Z eqn:E; cbn [p_id]; now rewrite ?E. }
  unfold set_active_profile in Hf, Hp |- *.
  cbn [formulas_table weight_profiles_table config_table tickers_table
       profile_weights_table] in Hf, Hp |- *.
  now rewrite Hf, Hp.
Qed.

(** X9. After [set_active_profile(P)], [get_active_profile] returns a
    profile exactly when a profile of id [P] exists, and then it is [P],
    stamped with the time of the activation; activating an id that no
    profile has leaves no profile active. *)
Theorem active_profile_after_activation (profile_id now : Z) (d : database) :
  (get_active_profile (set_active_profile profile_id now d) = None <->
   ~ profile_exists profile_id d) /\
  (forall info, get_active_profile (set_active_profile profile_id now d) = Some info ->
                pi_id info = profile_id /\ pi_updated_at info = now).
Proof.
  unfold get_active_profile, set_active_profile, profile_exists.
  cbn [weight_profiles_table]. rewrite map_map.
  induction (weight_profiles_table d) as [| p ps [IHnone IHsome]].
  - cbn. split; [| discriminate]. split; [intros _ (p & [] & _) | reflexivity].
  - cbn [map filter].
    assert (Hact : p_is_active (activate profile_id now (deactivate p))
                   = (p_id p =? profile_id)%Z).
    { unfold activate, deactivate. cbn [p_id]. now destruct (p_id p =? profile_id)%Z. }
    assert (Hrow : (p_id p =? profile_id)%Z = true ->
                   p_id (activate profile_id now (deactivate p)) = profile_id /\
                   p_updated_at (activate profile_id now (deactivate p)) = now).
    { unfold activate, deactivate. cbn [p_id]. intros E. rewrite E. cbn.
      split; [now apply Z.eqb_eq | reflexivity]. }
    rewrite Hact. destruct (Z.eqb_spec (p_id p) profile_id) as [Hp | Hp].
    + split.
      * split; [discriminate |]. intros H. exfalso. apply H.
        exists p. split; [now left | assumption].
      * intros info H. apply (f_equal (fun o => match o with
                                                | Some i => (pi_id i, pi_updated_at i)
                                                | None => (0%Z, 0%Z)
                                                end)) in H.
        cbn [pi_id pi_updated_at] in H.
        destruct (Hrow eq_refl) as [Hid Hup]. rewrite Hid, Hup in H.
        injection H as <- <-. now split.
    + split; [| exact IHsome].
      rewrite IHnone. split; intros H (q & Hin & Hq); apply H.
      * destruct Hin as [-> | Hin]; [contradiction | now exists q].
      * exists q. split; [now right | assumption].
Qed.

Lemma dict_get_of_distinct_rows (A B : Type) (key : B -> string) (val : B -> A)
  (rows : list B) (r : B) :
  NoDup (map key rows) -> In r rows ->
  dict_get (key r) (map (fun r => (key r, val r)) rows) = Some (val r).
Proof.
  induction rows as [| r0 rows IH]; cbn [map dict_get]; intros Hnd Hin; [contradiction |].
  inversion Hnd as [| ? ? Hnot Hrest]; subst.
  destruct Hin as [-> | Hin]; [now rewrite String.eqb_refl |].
  destruct (String.eqb_spec (key r) (key r0)) as [E | _]; [| now apply IH].
  exfalso. apply Hnot. rewrite <- E. now apply in_map.
Qed.

(** X10. Saving the current weights into a profile and activating that
    profile changes no weight: every formula keeps its name, text, weight
    and description, and only its [updated_at] is refreshed. *)
Theorem saved_profile_restores_weights (profile_id now1 now2 : Z) (d : database) :
  NoDup (map f_name (formulas_table d)) ->
  formulas_table (set_active_profile profile_id now2
                    (save_current_weights_to_profile profile_id now1 d))
  = map (fun f => reweighted (f_weight f) now2 f) (formulas_table d).
Proof.
  intros Hnd. rewrite set_active_profile_formulas.
  unfold save_current_weights_to_profile, get_formulas. cbv zeta.
  rewrite (dict_of_distinct_pairs f_name
             (fun f => {| fi_formula := f_formula f; fi_weight := f_weight f;
                          fi_description := f_description f |}))
    by exact Hnd.
  rewrite !app_nil_l, map_map. cbn [fst snd fi_weight].
  unfold get_profile_weights, save_profile_weights at 1.
  cbn [profile_weights_table formulas_table].
  rewrite filter_profile_rows_saved, Z.eqb_refl.
  rewrite (dict_of_distinct_pairs pw_formula_name pw_weight)
    by (cbn [map app]; rewrite !map_map; exact Hnd).
  rewrite app_nil_l, map_map. cbn [pw_formula_name pw_weight fst snd].
  apply map_ext_in. intros f Hf. unfold load_weight.
  rewrite map_map. cbn [fst snd].
  now rewrite (dict_get_of_distinct_rows f_name f_weight _ _ Hnd Hf).
Qed.

Lemma saved_profile_restores_weights_witness :
  map f_weight (formulas_table (set_active_profile 2 40
                                  (save_current_weights_to_profile 2 30 one_profile_db)))
  = map f_weight (formulas_table one_profile_db).
Proof.
  rewrite (saved_profile_restores_weights 2 30 40 one_profile_db).
  - reflexivity.
  - repeat constructor; cbn; intuition discriminate.
Defined.

(** ** Edges of the scoring and of the walk ([compute_score_at_date],
    [run_backtest], [backtest_ticker]) *)

Lemma bisect_left_range (a : list Z) (key : Z) (fuel : nat) (lo hi : Z) :
  (lo <= hi)%Z -> (lo <= bisect_left fuel a key lo hi <= hi)%Z.
Proof.
  revert lo hi. induction fuel as [| fuel IH]; intros lo hi Hle; cbn [bisect_left]; [lia |].
  destruct (Z.ltb_spec lo hi) as [Hlt | _]; [| lia].
  rewrite Z.shiftr_div_pow2 by lia. change (2 ^ 1)%Z with 2%Z.
  assert (Hmid : (lo <= lo + (hi - lo) / 2 < hi)%Z).
  { pose proof (Z.div_mod (hi - lo) 2 ltac:(lia)).
    pose proof (Z.mod_pos_bound (hi - lo) 2 ltac:(lia)). lia. }
  destruct (nth (Z.to_nat (lo + (hi - lo) / 2)) a 0%Z <? key)%Z.
  - specialize (IH (lo + (hi - lo) / 2 + 1)%Z hi ltac:(lia)). lia.
  - specialize (IH lo (lo + (hi - lo) / 2)%Z ltac:(lia)). lia.
Qed.

(** Whatever the order of the index, the start of the walk is a position
    of the frame or its length. *)
Lemma searchsorted_range (a : list Z) (key : Z) :
  (0 <= searchsorted a key <= Z.of_nat (length a))%Z.
Proof. unfold searchsorted. apply bisect_left_range. lia. Qed.

Lemma compute_score_at_date_short {ext : Externals} (df : list bar) (i : Z)
  (cfg : config_t) :
  (0 <= i)%Z -> (Z.min (i + 1) (Z.of_nat (length df)) < 200)%Z ->
  compute_score_at_date df i cfg = None.
Proof.
  intros Hi Hshort. unfold compute_score_at_date.
  pose proof (length_iloc_upto df (stop := i + 1) ltac:(lia)) as Hlen.
  destruct (Nat.ltb_spec (length (iloc_upto df (i + 1))) 200); [reflexivity | lia].
Qed.

Lemma flat_map_nil (A B : Type) (g : A -> list B) (l : list A) :
  (forall x, In x l -> g x = []) -> flat_map g l = [].
Proof.
  induction l as [| x l IH]; intros H; [reflexivity |].
  cbn [flat_map]. rewrite (H x (or_introl eq_refl)), IH; [reflexivity |].
  intros y Hy. apply H. now right.
Qed.

(** X11. The legacy backtest needs 230 clean rows: a snapshot takes 200
    rows of history and a record 30 more rows ahead, so a shorter download
    gives an empty frame, without any error. *)
Theorem short_history_gives_no_record {ext : Externals}
  (yf_download : string -> Z -> Z -> download_result)
  (t : string) (cfg : config_t) (start_date end_date : Z) (df : list bar) :
  yf_download t (start_date - 400)%Z end_date = Downloaded df ->
  df <> [] ->
  (length (dropna df) < 230)%nat ->
  backtest_ticker yf_download t cfg start_date end_date = Returned (Some []).
Proof.
  intros Hdl Hne Hshort. unfold backtest_ticker. rewrite Hdl.
  destruct df as [| b df]; [contradiction |].
  unfold simulate.
  pose proof (searchsorted_range (map timestamp (dropna (b :: df))) start_date) as Hstart.
  destruct (py_range_positive (searchsorted (map timestamp (dropna (b :: df))) start_date)
              (Z.of_nat (length (dropna (b :: df)))) (step := 7) ltac:(lia))
    as (count & -> & Hcount).
  cbn [bind]. rewrite flat_map_nil; [reflexivity |].
  intros i Hi. apply in_map_iff in Hi as (k & <- & Hk). apply in_seq in Hk.
  pose proof (proj1 (Hcount k) ltac:(lia)) as Hlt.
  unfold signal_at.
  destruct (Z.ltb_spec
              (searchsorted (map timestamp (dropna (b :: df))) start_date
               + Z.of_nat k * 7 + 30)
              (Z.of_nat (length (dropna (b :: df))))) as [Hfwd | Hfwd].
  - rewrite compute_score_at_date_short; [reflexivity | lia | lia].
  - now destruct (compute_score_at_date _ _ _).
Qed.

Section IntervalEdges.

Variable engine_score_at_date : list bar -> Z -> option snapshot.
Variable yf_download : string -> Z -> Z -> download_result.

(** X12. [run_backtest] does not check its interval: on a download that
    is not empty, an interval of 0 raises [ValueError] (from [range]) after
    the download, and a negative interval returns an empty frame. *)
Theorem interval_is_not_checked (t : string) (start_date end_date : Z) (df : list bar) :
  yf_download t (start_date - 400)%Z end_date = Downloaded df ->
  df <> [] ->
  snd (run_backtest engine_score_at_date yf_download t start_date end_date 0)
  = Raised ValueError /\
  forall interval_days, (interval_days < 0)%Z ->
    snd (run_backtest engine_score_at_date yf_download t start_date end_date interval_days)
    = Returned (Some []).
Proof.
  intros Hdl Hne. unfold run_backtest. rewrite Hdl.
  destruct df as [| b df]; [contradiction |].
  unfold simulate, py_range. split; [reflexivity |].
  intros step Hstep.
  pose proof (searchsorted_range (map timestamp (dropna (b :: df))) start_date) as Hstart.
  rewrite length_map in Hstart.
  destruct (Z.eqb_spec step 0); [lia |].
  destruct (Z.ltb_spec 0 step); [lia |].
  destruct (Z.ltb_spec (Z.of_nat (length (dropna (b :: df))))
              (searchsorted (map timestamp (dropna (b :: df))) start_date)); [lia |].
  reflexivity.
Qed.

End IntervalEdges.

Section IndexEdges.

Context {ext : Externals}.

(** X13. [compute_score_at_date] does not check its index: an index at
    or past the end of the frame gives the snapshot of the last row, and the
    index -1 takes the empty slice and gives [None]. *)
Theorem index_is_clamped (df : list bar) (i : Z) (cfg : config_t) :
  df <> [] -> (Z.of_nat (length df) - 1 <= i)%Z ->
  compute_score_at_date df i cfg
  = compute_score_at_date df (Z.of_nat (length df) - 1) cfg /\
  compute_score_at_date df (-1) cfg = None.
Proof.
  intros Hne Hi.
  assert (Hlen : (0 < length df)%nat) by (destruct df; [contradiction | cbn; lia]).
  split.
  - unfold compute_score_at_date.
    rewrite !iloc_upto_nonneg by lia.
    rewrite (firstn_all2 df (n := Z.to_nat (i + 1))) by lia.
    rewrite (firstn_all2 df (n := Z.to_nat (Z.of_nat (length df) - 1 + 1))) by lia.
    reflexivity.
  - unfold compute_score_at_date. now rewrite iloc_upto_nonneg by lia.
Qed.

Lemma last_map_firstn (A B : Type) (g : A -> B) (l : list A) (n : nat) (a : A) (b : B) :
  (n < length l)%nat -> last (map g (firstn (S n) l)) b = g (nth n l a).
Proof.
  revert l. induction n as [| n IH]; intros [| x l] Hn; cbn [length] in Hn; try lia.
  - destruct l; reflexivity.
  - change (firstn (S (S n)) (x :: l)) with (x :: firstn (S n) l).
    cbn [map nth]. rewrite <- (IH l ltac:(lia)).
    destruct l as [| y l]; [cbn in Hn; lia |]. reflexivity.
Qed.

(** X14. A snapshot taken at a valid index carries the timestamp and the
    closing price of that row. *)
Theorem snapshot_is_of_its_row (df : list bar) (i : Z) (cfg : config_t) (s : snapshot) :
  valid_index df i ->
  compute_score_at_date df i cfg = Some s ->
  date s = timestamp_at df i /\ close s = iloc_Close df i.
Proof.
  intros [Hi0 Hi1]. unfold compute_score_at_date.
  rewrite iloc_upto_nonneg by lia.
  destruct (length (firstn (Z.to_nat (i + 1)) df) <? 200)%nat; [discriminate |].
  intros H. injection H as <-. cbn [date close].
  replace (Z.to_nat (i + 1)) with (S (Z.to_nat i)) by lia.
  unfold timestamp_at, iloc_Close, iloc_last. split.
  - rewrite (last_map_firstn timestamp df (mkBar 0 NaN)) by lia.
    symmetry. apply (map_nth timestamp df (mkBar 0 NaN)).
  - apply last_map_firstn. lia.
Qed.

End IndexEdges.

Lemma short_history_gives_no_record_witness :
  backtest_ticker (ext := Sample.externals)
    (fun _ _ _ => Downloaded (Sample.flat_frame 229 100)) "SPY" Sample.default_config 0 229
  = Returned (Some []).
Proof.
  apply (short_history_gives_no_record (ext := Sample.externals)
           (fun _ _ _ => Downloaded (Sample.flat_frame 229 100)) "SPY" Sample.default_config
           0 229 (df := Sample.flat_frame 229 100)).
  - reflexivity.
  - discriminate.
  - apply Nat.ltb_lt. vm_compute. reflexivity.
Defined.

Lemma interval_is_not_checked_witness :
  snd (run_backtest (fun _ _ => None) (fun _ _ _ => Downloaded (Sample.flat_frame 5 100))
         "SPY" 0 5 0)
  = Raised ValueError.
Proof.
  apply (interval_is_not_checked (fun _ _ => None)
           (fun _ _ _ => Downloaded (Sample.flat_frame 5 100)) "SPY" 0 5
           (df := Sample.flat_frame 5 100)).
  - reflexivity.
  - discriminate.
Defined.

Lemma index_is_clamped_witness :
  compute_score_at_date (ext := Sample.externals) (Sample.flat_frame 200 100) 500
    Sample.default_config
  = compute_score_at_date (ext := Sample.externals) (Sample.flat_frame 200 100)
      (Z.of_nat (length (Sample.flat_frame 200 100)) - 1) Sample.default_config.
Proof.
  apply (index_is_clamped (ext := Sample.externals) (df := Sample.flat_frame 200 100)
           (i := 500) Sample.default_config).
  - discriminate.
  - unfold Sample.flat_frame. rewrite length_map, length_seq. lia.
Defined.

Lemma snapshot_is_of_its_row_witness :
  exists s,
    compute_score_at_date (ext := Sample.externals) (Sample.flat_frame 250 100) 249
      Sample.default_config = Some s /\
    date s = timestamp_at (Sample.flat_frame 250 100) 249.
Proof.
  destruct (compute_score_at_date (ext := Sample.externals) (Sample.flat_frame 250 100) 249
              Sample.default_config) as [s |] eqn:E; [| vm_compute in E; discriminate E].
  exists s. split; [reflexivity |].
  apply (snapshot_is_of_its_row (ext := Sample.externals) (df := Sample.flat_frame 250 100)
           (i := 249) Sample.default_config).
  - unfold valid_index, Sample.flat_frame. rewrite length_map, length_seq. lia.
  - exact E.
Defined.

(** ** Bands of the analyzer ([analyze_results]) *)

Lemma ltb_Fin (p q : Q) : ltb (Fin p) (Fin q) = true <-> p < q.
Proof.
  cbn. destruct (Qcompare_spec p q) as [E | L | G]; split; intros H;
    try discriminate; try reflexivity; try assumption.
  - rewrite E in H. now apply Qlt_irrefl in H.
  - exfalso. apply (Qlt_irrefl p). now apply Qlt_trans with q.
Qed.

Lemma leb_Fin (p q : Q) : leb (Fin p) (Fin q) = true <-> p <= q.
Proof.
  unfold leb. rewrite orb_true_iff, ltb_Fin. cbn [eqb]. rewrite Qeq_bool_iff.
  rewrite Qle_lteq. tauto.
Qed.

Lemma in_band (lo hi x : Q) :
  ltb (Fin lo) (Fin x) && leb (Fin x) (Fin hi) = true <-> lo < x /\ x <= hi.
Proof. now rewrite andb_true_iff, ltb_Fin, leb_Fin. Qed.

(** X15. The grouped statistics use the bands (0,45], (45,55] and
    (55,100]: each bound belongs to the band below it, and a score that is
    0 or less, above 100, infinite or NaN belongs to no band and is left out
    of the grouped statistics. *)
Theorem score_bands (x : Q) :
  (cut score_bins score_labels (Fin x) = Some Unfavorable <-> 0 < x /\ x <= 45) /\
  (cut score_bins score_labels (Fin x) = Some Neutral <-> 45 < x /\ x <= 55) /\
  (cut score_bins score_labels (Fin x) = Some Favorable <-> 55 < x /\ x <= 100) /\
  (cut score_bins score_labels (Fin x) = None <-> x <= 0 \/ 100 < x) /\
  cut score_bins score_labels NaN = None /\
  forall s, cut score_bins score_labels (Inf s) = None.
Proof.
  pose proof (in_band 0 45 x) as H1.
  pose proof (in_band 45 55 x) as H2.
  pose proof (in_band 55 100 x) as H3.
  unfold score_bins, score_labels. cbn [cut].
  destruct (ltb (Fin 0) (Fin x) && leb (Fin x) (Fin 45)) eqn:E1;
    [| destruct (ltb (Fin 45) (Fin x) && leb (Fin x) (Fin 55)) eqn:E2;
       [| destruct (ltb (Fin 55) (Fin x) && leb (Fin x) (Fin 100)) eqn:E3]].
  - assert (0 < x /\ x <= 45) as [? ?] by now apply H1.
    repeat split; intros; try discriminate; try lra; try solve [destruct s; reflexivity];
      try (match goal with H : _ \/ _ |- _ => destruct H; lra end).
  - assert (45 < x /\ x <= 55) as [? ?] by now apply H2.
    repeat split; intros; try discriminate; try lra; try solve [destruct s; reflexivity];
      try (match goal with H : _ \/ _ |- _ => destruct H; lra end).
  - assert (55 < x /\ x <= 100) as [? ?] by now apply H3.
    repeat split; intros; try discriminate; try lra; try solve [destruct s; reflexivity];
      try (match goal with H : _ \/ _ |- _ => destruct H; lra end).
  - assert (N1 : ~ (0 < x /\ x <= 45)) by (rewrite <- H1; discriminate).
    assert (N2 : ~ (45 < x /\ x <= 55)) by (rewrite <- H2; discriminate).
    assert (N3 : ~ (55 < x /\ x <= 100)) by (rewrite <- H3; discriminate).
    repeat split; intros; try discriminate; try tauto;
      try solve [destruct s; reflexivity].
    destruct (Qlt_le_dec 0 x); [| now left]. right.
    destruct (Qlt_le_dec 100 x); [assumption |]. exfalso.
    destruct (Qlt_le_dec 45 x); [| tauto].
    destruct (Qlt_le_dec 55 x); tauto.
Qed.

(** ** Formulas and tickers ([set_formula], [get_formulas],
    [delete_formula], [add_ticker], [toggle_ticker], [remove_ticker],
    [get_tickers]) *)

Section DictionaryOfRows.

Variables (A B : Type) (key : B -> string) (val : B -> A).

(** A lookup in a dictionary built from rows only depends on the lookup
    in the dictionary the building started from. *)
Lemma build_lookup_ext (n : string) (rows : list B) (acc acc' : list (string * A)) :
  dict_get n acc = dict_get n acc' ->
  dict_get n (fold_left (fun d r => dict_set (key r) (val r) d) rows acc)
  = dict_get n (fold_left (fun d r => dict_set (key r) (val r) d) rows acc').
Proof.
  revert acc acc'.
  induction rows as [| r rows IH]; intros acc acc' H; [assumption |].
  cbn [fold_left]. apply IH.
  destruct (String.eqb_spec n (key r)) as [-> | Hne].
  - now rewrite !dict_get_set_same.
  - now rewrite !dict_get_set_other.
Qed.

Lemma build_lookup_last (n : string) (rows : list B) (r : B) (acc : list (string * A)) :
  dict_get n (fold_left (fun d r => dict_set (key r) (val r) d) (rows ++ [r]) acc)
  = if String.eqb n (key r) then Some (val r)
    else dict_get n (fold_left (fun d r => dict_set (key r) (val r) d) rows acc).
Proof.
  rewrite fold_left_app. cbn [fold_left].
  destruct (String.eqb_spec n (key r)) as [-> | Hne].
  - apply dict_get_set_same.
  - now apply dict_get_set_other.
Qed.

Lemma build_lookup_without (n name : string) (rows : list B) (acc : list (string * A)) :
  dict_get n (fold_left (fun d r => dict_set (key r) (val r) d)
                (filter (fun r => negb (String.eqb (key r) name)) rows) acc)
  = if String.eqb n name then dict_get n acc
    else dict_get n (fold_left (fun d r => dict_set (key r) (val r) d) rows acc).
Proof.
  revert acc. induction rows as [| r rows IH]; intros acc; cbn [filter fold_left].
  - now destruct (String.eqb n name).
  - destruct (String.eqb_spec (key r) name) as [Hr | Hr]; cbn [negb fold_left].
    + rewrite IH. destruct (String.eqb_spec n name) as [-> | Hn]; [reflexivity |].
      apply build_lookup_ext. symmetry. apply dict_get_set_other. congruence.
    + rewrite IH. destruct (String.eqb_spec n name) as [-> | Hn]; [| reflexivity].
      apply dict_get_set_other. congruence.
Qed.

End DictionaryOfRows.

(** X16. A formula written by [set_formula] is the one [get_formulas]
    gives for its name, a formula deleted by [delete_formula] is not listed
    any more, and neither changes what is listed under another name. *)
Theorem formula_written_is_read (name formula : string) (weight : float)
  (description : string) (now : Z) (d : database) :
  dict_get name (get_formulas (set_formula name formula weight description now d))
  = Some (mkFormulaInfo formula weight description) /\
  dict_get name (get_formulas (delete_formula name d)) = None /\
  forall other, other <> name ->
    dict_get other (get_formulas (set_formula name formula weight description now d))
    = dict_get other (get_formulas d) /\
    dict_get other (get_formulas (delete_formula name d))
    = dict_get other (get_formulas d).
Proof.
  unfold get_formulas, set_formula, delete_formula. cbn [with_formulas_table formulas_table].
  split; [| split].
  - rewrite (build_lookup_last f_name
               (fun f => mkFormulaInfo (f_formula f) (f_weight f) (f_description f))).
    cbn [f_name]. now rewrite String.eqb_refl.
  - rewrite (build_lookup_without f_name
               (fun f => mkFormulaInfo (f_formula f) (f_weight f) (f_description f))).
    now rewrite String.eqb_refl.
  - intros other Hne. split.
    + rewrite (build_lookup_last f_name
                 (fun f => mkFormulaInfo (f_formula f) (f_weight f) (f_description f))).
      cbn [f_name]. destruct (String.eqb_spec other name); [contradiction |].
      rewrite (build_lookup_without f_name
                 (fun f => mkFormulaInfo (f_formula f) (f_weight f) (f_description f))).
      now destruct (String.eqb_spec other name).
    + rewrite (build_lookup_without f_name
                 (fun f => mkFormulaInfo (f_formula f) (f_weight f) (f_description f))).
      now destruct (String.eqb_spec other name).
Qed.

(** X17. A ticker added by [add_ticker] is listed by [get_tickers], once
    and last, after the other enabled tickers of the store, which keep their
    order. *)
Theorem added_ticker_is_listed (symbol : string) (now : Z) (f : yaml_file) (d : database) :
  get_tickers true f (add_ticker symbol now d)
  = Returned (VList (map VStr
       (filter (fun s => negb (String.eqb s symbol)) (enabled_symbols d) ++ [symbol]))).
Proof.
  unfold get_tickers, add_ticker, enabled_symbols. cbn [with_tickers_table tickers_table].
  rewrite filter_app. cbn [filter t_enabled].
  assert (Hrows : map (fun t => VStr (t_symbol t))
                    (filter t_enabled
                       (filter (fun t => negb (t_symbol t =? symbol)%string) (tickers_table d)))
                  = map VStr (filter (fun s => negb (s =? symbol)%string)
                                (map t_symbol (filter t_enabled (tickers_table d))))).
  { induction (tickers_table d) as [| t ts IH]; [reflexivity |].
    cbn [filter]. destruct (t_enabled t) eqn:Et, (negb (t_symbol t =? symbol)%string) eqn:Es;
      cbn [filter map]; rewrite ?Et, ?Es; cbn [map]; now rewrite IH. }
  rewrite !map_app, <- Hrows. cbn [map].
  destruct (filter t_enabled
              (filter (fun t => negb (t_symbol t =? symbol)%string) (tickers_table d)));
    reflexivity.
Qed.

(** X18. Disabling or removing the only enabled ticker does not empty the
    list: [get_tickers] then falls back on the list of the static file. *)
Theorem last_ticker_falls_back (symbol : string) (config : dict) (tickers : value)
  (d : database) :
  (forall t, In t (tickers_table d) -> t_enabled t = true -> t_symbol t = symbol) ->
  dict_get "tickers" config = Some tickers ->
  get_tickers true (YamlLoaded (VDict config)) (toggle_ticker symbol false d)
  = Returned tickers /\
  get_tickers true (YamlLoaded (VDict config)) (remove_ticker symbol d) = Returned tickers.
Proof.
  intros Honly Hfile.
  assert (Hcfg : snd (load_yaml_config (YamlLoaded (VDict config))) = VDict config).
  { cbn. destruct config; [discriminate | reflexivity]. }
  unfold get_tickers. rewrite Hcfg, Hfile.
  unfold toggle_ticker, remove_ticker. cbn [with_tickers_table tickers_table].
  assert (H1 : filter t_enabled
                 (map (fun t => if (t_symbol t =? symbol)%string
                                then {| t_symbol := t_symbol t; t_enabled := false;
                                        t_added_at := t_added_at t |}
                                else t) (tickers_table d)) = []).
  { induction (tickers_table d) as [| t ts IH]; [reflexivity |].
    cbn [map].
    destruct (String.eqb_spec (t_symbol t) symbol) as [E | E]; cbn [filter t_enabled].
    - apply IH. intros x Hx. apply Honly. now right.
    - destruct (t_enabled t) eqn:Et.
      + exfalso. apply E. apply Honly; [now left | assumption].
      + apply IH. intros x Hx. apply Honly. now right. }
  assert (H2 : filter t_enabled
                 (filter (fun t => negb (t_symbol t =? symbol)%string) (tickers_table d)) = []).
  { clear - Honly. induction (tickers_table d) as [| t ts IH]; [reflexivity |].
    cbn [filter].
    destruct (String.eqb_spec (t_symbol t) symbol) as [E | E]; cbn [negb filter].
    - apply IH. intros x Hx. apply Honly. now right.
    - destruct (t_enabled t) eqn:Et.
      + exfalso. apply E. apply Honly; [now left | assumption].
      + apply IH. intros x Hx. apply Honly. now right. }
  now rewrite H1, H2.
Qed.

Lemma last_ticker_falls_back_witness :
  get_tickers true (YamlLoaded (VDict [("tickers", VList [VStr "SPY"; VStr "QQQ"])]%string))
    (toggle_ticker "MSFT" false (tickers_db [("MSFT", true); ("AAPL", false)]%string))
  = Returned (VList [VStr "SPY"; VStr "QQQ"]).
Proof.
  apply (@last_ticker_falls_back "MSFT"
           [("tickers", VList [VStr "SPY"; VStr "QQQ"])]%string
           (VList [VStr "SPY"; VStr "QQQ"])
           (tickers_db [("MSFT", true); ("AAPL", false)]%string)).
  - intros t [<- | [<- | []]]; [reflexivity | discriminate].
  - reflexivity.
Defined.
